(** * The instrument test worker of Keysight_Agilent_RS232_test.py

    A shallow embedding of [TestResult] and of the worker class
    [InstrumentTester] (its [run] loop, [_execute_test], the ten [_test_*]
    checks and [_cleanup]), and the properties of the execution engine that
    the design document states about them.

    The PyVISA link, the clock and [time.sleep] are an interface
    ([Platform]); the worker is written in a state-and-exception monad over
    the state of that platform, the fields of the worker object and a log of
    everything the worker did to the link and every signal it emitted. *)

From Stdlib Require Import String Ascii List ZArith QArith Lia Bool Arith.
Import ListNotations.
Close Scope Q_scope.
Open Scope string_scope.
Open Scope list_scope.

(** String concatenation, Python's [+] on [str] and the pieces of an
    f-string. *)
Infix "+++" := String.append (right associativity, at level 60).

(* ===================================================================== *)
(** ** Python string methods used by the worker *)
(* ===================================================================== *)

Module Py.

(** [str.isspace] on one character.  A string is a sequence of code points
    below 256; these are the ones Python treats as white space. *)
Definition isspace (c : ascii) : bool :=
  let n := nat_of_ascii c in
  (((9 <=? n) && (n <=? 13)) || ((28 <=? n) && (n <=? 32))
   || (n =? 133) || (n =? 160))%nat.

Fixpoint lstrip (s : string) : string :=
  match s with
  | EmptyString => EmptyString
  | String c r => if isspace c then lstrip r else s
  end.

(** [s.rstrip()]: white space is dropped from the end; the recursion keeps
    a character when something remains after it or when it is not white
    space. *)
Fixpoint rstrip (s : string) : string :=
  match s with
  | EmptyString => EmptyString
  | String c r =>
      match rstrip r with
      | EmptyString => if isspace c then EmptyString else String c EmptyString
      | r' => String c r'
      end
  end.

(** [s.strip()] *)
Definition strip (s : string) : string := rstrip (lstrip s).

(** [s.startswith(p)] *)
Definition startswith (s p : string) : bool := String.prefix p s.

Fixpoint rev_string (s : string) : string :=
  match s with
  | EmptyString => EmptyString
  | String c r => rev_string r +++ String c EmptyString
  end.

(** [s.endswith(p)] *)
Definition endswith (s p : string) : bool :=
  String.prefix (rev_string p) (rev_string s).

(** [s[:n]] *)
Fixpoint slice_to (n : nat) (s : string) : string :=
  match n, s with
  | S k, String c r => String c (slice_to k r)
  | _, _ => EmptyString
  end.

(** [str.lower] on one character.  Only A-Z are mapped: the lower-case of a
    code point above 127 is never an ASCII letter, so the brand search of
    the identification check, whose needles are ASCII, is not affected. *)
Definition lower_char (c : ascii) : ascii :=
  let n := nat_of_ascii c in
  if ((65 <=? n) && (n <=? 90))%nat then ascii_of_nat (n + 32) else c.

Fixpoint lower (s : string) : string :=
  match s with
  | EmptyString => EmptyString
  | String c r => String (lower_char c) (lower r)
  end.

(** [needle in s] *)
Fixpoint contains (needle s : string) : bool :=
  String.prefix needle s
  || match s with
     | EmptyString => false
     | String _ r => contains needle r
     end.

(** [sep.join(l)] *)
Fixpoint join (sep : string) (l : list string) : string :=
  match l with
  | [] => ""
  | [x] => x
  | x :: r => x +++ sep +++ join sep r
  end.

(** Truth value of a string: [if s:] *)
Definition truthy (s : string) : bool :=
  match s with EmptyString => false | _ => true end.

(** [str(n)] for a non-negative integer. *)
Fixpoint digits (fuel : nat) (n : N) (acc : string) : string :=
  let d := ascii_of_N (48 + N.modulo n 10)%N in
  match fuel with
  | O => String d acc
  | S f => if (n <? 10)%N then String d acc
           else digits f (N.div n 10) (String d acc)
  end.

Definition str_of_N (n : N) : string := digits (N.to_nat (N.log2 n)) n "".

Definition str_of_Z (z : Z) : string :=
  if (z <? 0)%Z then "-" +++ str_of_N (Z.to_N (- z)) else str_of_N (Z.to_N z).

(** [f"{q:.1%}"] for a non-negative ratio [q]: the percentage with one
    decimal, rounded to the nearest tenth (ties to even). *)
Definition round_half_even (q : Q) : Z :=
  let n := Qnum q in
  let d := Zpos (Qden q) in
  let f := (n / d)%Z in
  let r := (2 * (n mod d))%Z in
  if (r <? d)%Z then f
  else if (d <? r)%Z then (f + 1)%Z
  else if Z.even f then f else (f + 1)%Z.

Definition fmt_percent1 (q : Q) : string :=
  let t := round_half_even (q * 1000)%Q in
  str_of_Z (t / 10)%Z +++ "." +++ str_of_Z (t mod 10)%Z +++ "%".

End Py.

(* ===================================================================== *)
(** ** Outcomes, the platform and the worker's state *)
(* ===================================================================== *)

(** What a Python call does: it returns a value or raises an exception,
    which is kept as its text [str(e)]. *)
Inductive outcome (A : Type) : Type :=
| Ret (a : A)
| Raise (e : string).
Arguments Ret {A} a.
Arguments Raise {A} e.

(** The collaborators of the worker: the PyVISA resource manager and the
    instrument handle, [time] and [datetime].  [World] is the hidden state
    of all of them (the device, the bus, the clock); every call may change
    it.  Python floats are kept abstract: the worker only subtracts clock
    readings, averages them, compares the average with [1.0] and prints
    them. *)
Class Platform : Type := {
  World : Type;
  float : Type;
  datetime : Type;
  (* pyvisa.ResourceManager() *)
  visa_ResourceManager : World -> outcome unit * World;
  (* rm.open_resource(address) *)
  visa_open_resource : string -> World -> outcome unit * World;
  (* instrument.timeout = ms *)
  visa_set_timeout : Z -> World -> outcome unit * World;
  (* instrument.query(cmd) *)
  visa_query : string -> World -> outcome string * World;
  (* instrument.write(cmd) *)
  visa_write : string -> World -> outcome unit * World;
  (* instrument.close() *)
  visa_close : World -> outcome unit * World;
  (* rm.close() *)
  visa_rm_close : World -> outcome unit * World;
  (* time.time(), time.sleep(seconds), datetime.now() *)
  time_time : World -> float * World;
  time_sleep : Q -> World -> World;
  datetime_now : World -> datetime * World;
  (* 0.0, a - b, sum(l) / len(l), max(l), a < 1.0, f"{a:.3f}" *)
  float_zero : float;
  float_sub : float -> float -> float;
  float_mean : list float -> outcome float;
  float_max : list float -> outcome float;
  float_lt_one : float -> bool;
  float_fmt3 : float -> string
}.

Section Monad.

Context {P : Platform}.

(** [@dataclass class TestResult] *)
Record TestResult : Type := mkTestResult {
  test_name : string;
  passed : bool;
  message : string;
  execution_time : float;
  timestamp : datetime
}.

(** The signals of [InstrumentTester] that [run] emits. *)
Inductive Event : Type :=
| test_started (name : string)
| test_completed (result : TestResult)
| progress_updated (progress : Z).

(** One call on the link, with what it gave. *)
Inductive LinkOp : Type :=
| LResourceManager (r : outcome unit)
| LOpen (address : string) (r : outcome unit)
| LSetTimeout (ms : Z) (r : outcome unit)
| LQuery (cmd : string) (r : outcome string)
| LSend (cmd : string) (r : outcome unit)
| LClose (r : outcome unit)
| LRmClose (r : outcome unit).

(** Everything the worker does that another party can see, in order. *)
Inductive Action : Type :=
| Link (op : LinkOp)
| Emit (ev : Event).

(** The fields of an [InstrumentTester].  [instrument] and [rm] are [None]
    ([false]) or an object ([true]). *)
Record Tester : Type := mkTester {
  resource_address : string;
  instrument : bool;
  rm : bool;
  tests_to_run : list string
}.

(** [InstrumentTester.__init__] *)
Definition __init__ (address : string) : Tester :=
  {| resource_address := address; instrument := false; rm := false;
     tests_to_run := [] |}.

(** [InstrumentTester.add_test] *)
Definition add_test (t : Tester) (name : string) : Tester :=
  {| resource_address := resource_address t; instrument := instrument t;
     rm := rm t; tests_to_run := tests_to_run t ++ [name] |}.

(** What a method body works on: the worker object, the platform behind
    it, and the log of what the worker has done so far. *)
Record State : Type := mkState {
  self : Tester;
  world : World;
  log : list Action
}.

(** A method body: from a state to an outcome and the state it leaves. *)
Definition M (A : Type) : Type := State -> outcome A * State.

Definition ret {A} (a : A) : M A := fun st => (Ret a, st).

Definition raise {A} (e : string) : M A := fun st => (Raise e, st).

Definition bind {A B} (m : M A) (k : A -> M B) : M B :=
  fun st =>
    match m st with
    | (Ret a, st') => k a st'
    | (Raise e, st') => (Raise e, st')
    end.

(** [try: m  except Exception as e: h e]  (also the bare [except:]). *)
Definition try_except {A} (m : M A) (h : string -> M A) : M A :=
  fun st =>
    match m st with
    | (Ret a, st') => (Ret a, st')
    | (Raise e, st') => h e st'
    end.

(** [try: m  finally: f].  The outcome of [m] stands unless [f] raises. *)
Definition try_finally {A} (m : M A) (f : M unit) : M A :=
  fun st =>
    match m st with
    | (r, st') =>
        match f st' with
        | (Ret _, st'') => (r, st'')
        | (Raise e, st'') => (Raise e, st'')
        end
    end.

End Monad.

Notation "x <- m ;; k" := (bind m (fun x => k))
  (at level 61, m at next level, right associativity).
Notation "m ;;; k" := (bind m (fun _ => k))
  (at level 61, right associativity).

Section Calls.

Context {P : Platform}.

(** A [for] loop over [xs] with the local variables [s] it updates; the body
    says whether it hit [break]. *)
Fixpoint for_in {A S} (xs : list A) (body : A -> S -> M (S * bool)) (s : S)
  : M S :=
  match xs with
  | [] => ret s
  | x :: rest =>
      r <- body x s ;;
      if snd r then ret (fst r) else for_in rest body (fst r)
  end.

(** [range(n)] *)
Definition range (n : nat) : list nat := seq 0 n.

(** [l[i]] *)
Definition index {A} (l : list A) (i : nat) : M A :=
  match nth_error l i with
  | Some x => ret x
  | None => raise "list index out of range"
  end.

(** [a / b] on integers: true division.  Python divides in double
    precision; the ratio is kept exact here.  The worker only compares the
    quotients [k / 10] and [k / 6] with the literals [0.9] and [0.8]:
    rounding to a double is monotone and takes 9/10 to the literal [0.9],
    so these comparisons come out as they do on the exact ratios. *)
Definition truediv (a b : Z) : M Q :=
  if (b =? 0)%Z then raise "division by zero"
  else ret (inject_Z a / inject_Z b)%Q.

(** [int(a / b)] for non-negative [a] and positive [b].  Python divides in
    double precision and truncates; the quotient of the exact division is
    the same number as long as [b] stays below 2^53 / 100, far beyond the
    length of any queue. *)
Definition int_truediv (a b : Z) : M Z :=
  if (b =? 0)%Z then raise "division by zero"
  else ret (a / b)%Z.

(** *** Calls on the collaborators *)

Definition record (a : Action) (w : World) (st : State) : State :=
  {| self := self st; world := w; log := log st ++ [a] |}.

Definition set_world (w : World) (st : State) : State :=
  {| self := self st; world := w; log := log st |}.

Definition none_has_no (attr : string) : string :=
  "'NoneType' object has no attribute '" +++ attr +++ "'".

(** [self.rm = pyvisa.ResourceManager()] *)
Definition new_resource_manager : M unit := fun st =>
  let (r, w) := visa_ResourceManager (world st) in
  let st' := record (Link (LResourceManager r)) w st in
  match r with
  | Ret _ =>
      (Ret tt,
       {| self := {| resource_address := resource_address (self st');
                     instrument := instrument (self st');
                     rm := true;
                     tests_to_run := tests_to_run (self st') |};
          world := world st'; log := log st' |})
  | Raise e => (Raise e, st')
  end.

(** [self.instrument = self.rm.open_resource(self.resource_address)] *)
Definition open_resource : M unit := fun st =>
  if rm (self st) then
    let (r, w) :=
      visa_open_resource (resource_address (self st)) (world st) in
    let st' := record (Link (LOpen (resource_address (self st)) r)) w st in
    match r with
    | Ret _ =>
        (Ret tt,
         {| self := {| resource_address := resource_address (self st');
                       instrument := true;
                       rm := rm (self st');
                       tests_to_run := tests_to_run (self st') |};
            world := world st'; log := log st' |})
    | Raise e => (Raise e, st')
    end
  else (Raise (none_has_no "open_resource"), st).

(** [self.instrument.timeout = ms] *)
Definition set_timeout (ms : Z) : M unit := fun st =>
  if instrument (self st) then
    let (r, w) := visa_set_timeout ms (world st) in
    (r, record (Link (LSetTimeout ms r)) w st)
  else (Raise (none_has_no "timeout"), st).

(** [self.instrument.query(cmd)] *)
Definition query (cmd : string) : M string := fun st =>
  if instrument (self st) then
    let (r, w) := visa_query cmd (world st) in
    (r, record (Link (LQuery cmd r)) w st)
  else (Raise (none_has_no "query"), st).

(** [self.instrument.write(cmd)] *)
Definition send (cmd : string) : M unit := fun st =>
  if instrument (self st) then
    let (r, w) := visa_write cmd (world st) in
    (r, record (Link (LSend cmd r)) w st)
  else (Raise (none_has_no "write"), st).

(** [self.instrument.close()] and [self.rm.close()], called by [_cleanup]
    only on objects that are there. *)
Definition close_instrument : M unit := fun st =>
  let (r, w) := visa_close (world st) in
  (r, record (Link (LClose r)) w st).

Definition close_rm : M unit := fun st =>
  let (r, w) := visa_rm_close (world st) in
  (r, record (Link (LRmClose r)) w st).

(** [time.time()], [time.sleep(d)], [datetime.now()] *)
Definition now : M float := fun st =>
  let (t, w) := time_time (world st) in (Ret t, set_world w st).

Definition sleep (d : Q) : M unit := fun st =>
  (Ret tt, set_world (time_sleep d (world st)) st).

Definition today_now : M datetime := fun st =>
  let (t, w) := datetime_now (world st) in (Ret t, set_world w st).

(** [signal.emit(...)] *)
Definition emit (ev : Event) : M unit := fun st =>
  (Ret tt, record (Emit ev) (world st) st).

(** Lifting an outcome that needs no state. *)
Definition lift {A} (r : outcome A) : M A := fun st => (r, st).

(** [TestResult(test_name=.., passed=.., message=..,
                execution_time=time.time() - start_time,
                timestamp=datetime.now())] *)
Definition make_result (name : string) (ok : bool) (msg : string)
    (start_time : float) : M TestResult :=
  t <- now ;;
  ts <- today_now ;;
  ret {| test_name := name; passed := ok; message := msg;
         execution_time := float_sub t start_time; timestamp := ts |}.

End Calls.

(* ===================================================================== *)
(** ** The ten checks *)
(* ===================================================================== *)

Section Checks.

Context {P : Platform}.

(** [InstrumentTester._test_connection] *)
Definition _test_connection : M TestResult :=
  start_time <- now ;;
  try_except
    (response <- query "*IDN?" ;;
     let ok := (0 <? String.length (Py.strip response))%nat in
     let msg :=
       if ok then
         "Connected successfully. Response: " +++ Py.slice_to 50 response
         +++ "..."
       else "No response" in
     make_result "Connection Test" ok msg start_time)
    (fun e =>
       make_result "Connection Test" false ("Connection failed: " +++ e)
         start_time).

Definition brands : list string :=
  ["agilent"; "keysight"; "hewlett-packard"; "hp"].

(** [InstrumentTester._test_identification] *)
Definition _test_identification : M TestResult :=
  start_time <- now ;;
  try_except
    (r <- query "*IDN?" ;;
     let idn_response := Py.strip r in
     let is_agilent_keysight :=
       existsb
         (fun brand => Py.contains (Py.lower brand) (Py.lower idn_response))
         brands in
     let msg := "ID: " +++ idn_response in
     let msg :=
       if negb is_agilent_keysight then
         msg +++ " (Warning: Not recognized as Agilent/Keysight device)"
       else msg in
     make_result "Identification" (0 <? String.length idn_response)%nat msg
       start_time)
    (fun e => make_result "Identification" false ("Failed: " +++ e) start_time).

(** [InstrumentTester._test_self_test] *)
Definition _test_self_test : M TestResult :=
  start_time <- now ;;
  try_except
    (send "*TST" ;;;
     sleep 1 ;;;
     r <- query "*TST?" ;;
     let result := Py.strip r in
     let ok := String.eqb result "0" in
     let msg :=
       "Self-test result: " +++ result +++ " ("
       +++ (if ok then "PASS" else "FAIL") +++ ")" in
     make_result "Self Test" ok msg start_time)
    (fun e => make_result "Self Test" false ("Failed: " +++ e) start_time).

(** [InstrumentTester._test_reset] *)
Definition _test_reset : M TestResult :=
  start_time <- now ;;
  try_except
    (send "*RST" ;;;
     sleep 2 ;;;
     r <- query "*IDN?" ;;
     let response := Py.strip r in
     let ok := (0 <? String.length response)%nat in
     let msg := "Reset " +++ (if ok then "successful" else "failed") in
     make_result "Reset Command" ok msg start_time)
    (fun e => make_result "Reset Command" false ("Failed: " +++ e) start_time).

(** The response that ends the error queue: [error.startswith("0,") or
    error.startswith("+0,")]. *)
Definition no_error (error : string) : bool :=
  Py.startswith error "0," || Py.startswith error "+0,".

(** The body of the loop [for _ in range(10)] of [_test_error_status], with
    its inner [try] and bare [except]. *)
Definition error_queue_step (_ : nat) (errors : list string)
  : M (list string * bool) :=
  try_except
    (r <- query "SYST:ERR?" ;;
     let error := Py.strip r in
     if no_error error then ret (errors, true)
     else ret (errors ++ [error], false))
    (fun _ => ret (errors, true)).

(** [InstrumentTester._test_error_status] *)
Definition _test_error_status : M TestResult :=
  start_time <- now ;;
  try_except
    (send "*CLS" ;;;
     errors <- for_in (range 10) error_queue_step [] ;;
     let ok := (List.length errors =? 0)%nat in
     let msg :=
       if ok then "No errors found"
       else "Errors: " +++ Py.join "; " (firstn 3 errors) in
     make_result "Error Status" ok msg start_time)
    (fun e => make_result "Error Status" false ("Failed: " +++ e) start_time).

(** [InstrumentTester._test_status_registers] *)
Definition _test_status_registers : M TestResult :=
  start_time <- now ;;
  try_except
    (r1 <- query "*STB?" ;;
     let stb := Py.strip r1 in
     r2 <- query "*ESR?" ;;
     let esr := Py.strip r2 in
     make_result "Status Registers" true
       ("STB: " +++ stb +++ ", ESR: " +++ esr) start_time)
    (fun e =>
       make_result "Status Registers" false ("Failed: " +++ e) start_time).

(** [InstrumentTester._test_operation_complete] *)
Definition _test_operation_complete : M TestResult :=
  start_time <- now ;;
  try_except
    (send "*OPC" ;;;
     r <- query "*OPC?" ;;
     let opc_result := Py.strip r in
     make_result "Operation Complete" (String.eqb opc_result "1")
       ("OPC result: " +++ opc_result) start_time)
    (fun e =>
       make_result "Operation Complete" false ("Failed: " +++ e) start_time).

(** The body of the loop [for _ in range(5)] of [_test_response_time]. *)
Definition response_time_step (_ : nat) (response_times : list float)
  : M (list float * bool) :=
  query_start <- now ;;
  query "*IDN?" ;;;
  t <- now ;;
  ret (response_times ++ [float_sub t query_start], false).

(** [InstrumentTester._test_response_time] *)
Definition _test_response_time : M TestResult :=
  start_time <- now ;;
  try_except
    (response_times <- for_in (range 5) response_time_step [] ;;
     avg_response_time <- lift (float_mean response_times) ;;
     max_response_time <- lift (float_max response_times) ;;
     make_result "Response Time" (float_lt_one avg_response_time)
       ("Avg: " +++ float_fmt3 avg_response_time +++ "s, Max: "
        +++ float_fmt3 max_response_time +++ "s")
       start_time)
    (fun e => make_result "Response Time" false ("Failed: " +++ e) start_time).

Definition commands : list string := ["*IDN?"; "*STB?"; "*ESR?"; "*OPC?"].

(** The body of the loop [for i in range(total_commands)] of
    [_test_communication_stability]: the inner [try] with its bare
    [except: pass], then the pause. *)
Definition stability_step (i : nat) (successful_commands : Z)
  : M (Z * bool) :=
  n <- try_except
         (cmd <- index commands (i mod List.length commands) ;;
          response <- query cmd ;;
          if Py.truthy (Py.strip response)
          then ret (successful_commands + 1)%Z
          else ret successful_commands)
         (fun _ => ret successful_commands) ;;
  sleep (1 # 10) ;;;
  ret (n, false).

(** [InstrumentTester._test_communication_stability] *)
Definition _test_communication_stability : M TestResult :=
  start_time <- now ;;
  try_except
    (let total_commands := 10%nat in
     successful_commands <-
       for_in (range total_commands) stability_step 0%Z ;;
     success_rate <- truediv successful_commands (Z.of_nat total_commands) ;;
     let ok := Qle_bool (9 # 10) success_rate in
     let msg :=
       "Success rate: " +++ Py.fmt_percent1 success_rate +++ " ("
       +++ Py.str_of_Z successful_commands +++ "/"
       +++ Py.str_of_Z (Z.of_nat total_commands) +++ ")" in
     make_result "Communication Stability" ok msg start_time)
    (fun e =>
       make_result "Communication Stability" false ("Failed: " +++ e)
         start_time).

Definition mandatory_commands : list string :=
  ["*IDN?"; "*RST"; "*CLS"; "*ESR?"; "*STB?"; "*OPC?"].

(** The body of the loop [for cmd in mandatory_commands] of
    [_test_scpi_compliance]; the local variables are
    [(compliant_commands, total_commands)]. *)
Definition compliance_step (cmd : string) (counts : Z * Z)
  : M ((Z * Z) * bool) :=
  let compliant_commands := fst counts in
  let total_commands := (snd counts + 1)%Z in
  n <- try_except
         (if Py.endswith cmd "?" then
            response <- query cmd ;;
            if Py.truthy (Py.strip response)
            then ret (compliant_commands + 1)%Z
            else ret compliant_commands
          else
            send cmd ;;;
            let compliant_commands := (compliant_commands + 1)%Z in
            sleep (1 # 2) ;;;
            ret compliant_commands)
         (fun _ => ret compliant_commands) ;;
  ret ((n, total_commands), false).

(** [InstrumentTester._test_scpi_compliance] *)
Definition _test_scpi_compliance : M TestResult :=
  start_time <- now ;;
  try_except
    (counts <- for_in mandatory_commands compliance_step (0, 0)%Z ;;
     let compliant_commands := fst counts in
     let total_commands := snd counts in
     compliance_rate <- truediv compliant_commands total_commands ;;
     let ok := Qle_bool (8 # 10) compliance_rate in
     let msg :=
       "SCPI compliance: " +++ Py.fmt_percent1 compliance_rate +++ " ("
       +++ Py.str_of_Z compliant_commands +++ "/"
       +++ Py.str_of_Z total_commands +++ ")" in
     make_result "SCPI Compliance" ok msg start_time)
    (fun e =>
       make_result "SCPI Compliance" false ("Failed: " +++ e) start_time).

(** The methods [_execute_test] calls on [self]. *)
Record Checks : Type := mkChecks {
  check_connection : M TestResult;
  check_identification : M TestResult;
  check_self_test : M TestResult;
  check_reset : M TestResult;
  check_error_status : M TestResult;
  check_status_registers : M TestResult;
  check_operation_complete : M TestResult;
  check_response_time : M TestResult;
  check_communication_stability : M TestResult;
  check_scpi_compliance : M TestResult
}.

(** The names [_execute_test] knows, in the order of its [if]/[elif]
    chain. *)
Definition known_tests : list string :=
  ["Connection Test"; "Identification"; "Self Test"; "Reset Command";
   "Error Status"; "Status Registers"; "Operation Complete";
   "Response Time"; "Communication Stability"; "SCPI Compliance"].

(** The [if]/[elif] chain of [_execute_test]: the method a name selects. *)
Definition resolve (c : Checks) (name : string) : option (M TestResult) :=
  if String.eqb name "Connection Test" then Some (check_connection c)
  else if String.eqb name "Identification" then Some (check_identification c)
  else if String.eqb name "Self Test" then Some (check_self_test c)
  else if String.eqb name "Reset Command" then Some (check_reset c)
  else if String.eqb name "Error Status" then Some (check_error_status c)
  else if String.eqb name "Status Registers"
       then Some (check_status_registers c)
  else if String.eqb name "Operation Complete"
       then Some (check_operation_complete c)
  else if String.eqb name "Response Time" then Some (check_response_time c)
  else if String.eqb name "Communication Stability"
       then Some (check_communication_stability c)
  else if String.eqb name "SCPI Compliance"
       then Some (check_scpi_compliance c)
  else None.

(** [InstrumentTester._execute_test], for any implementation of the ten
    methods. *)
Definition execute_test_with (c : Checks) (name : string) : M TestResult :=
  start_time <- now ;;
  try_except
    (match resolve c name with
     | Some method => method
     | None => make_result name false "Unknown test" start_time
     end)
    (fun e => make_result name false ("Test failed: " +++ e) start_time).

(** The methods of [InstrumentTester] itself. *)
Definition own_checks : Checks :=
  {| check_connection := _test_connection;
     check_identification := _test_identification;
     check_self_test := _test_self_test;
     check_reset := _test_reset;
     check_error_status := _test_error_status;
     check_status_registers := _test_status_registers;
     check_operation_complete := _test_operation_complete;
     check_response_time := _test_response_time;
     check_communication_stability := _test_communication_stability;
     check_scpi_compliance := _test_scpi_compliance |}.

(** [InstrumentTester._execute_test] *)
Definition _execute_test : string -> M TestResult :=
  execute_test_with own_checks.

(** [InstrumentTester._cleanup] *)
Definition _cleanup : M unit :=
  try_except
    ((fun st => if instrument (self st) then close_instrument st
                else ret tt st) ;;;
     (fun st => if rm (self st) then close_rm st else ret tt st))
    (fun _ => ret tt).

(** The body of the loop [for i, test_name in enumerate(self.tests_to_run)]
    of [run]; [execute] is [self._execute_test]. *)
Definition run_step (execute : string -> M TestResult) (total_tests : nat)
    (test_name : string) (i : nat) : M (nat * bool) :=
  emit (test_started test_name) ;;;
  result <- execute test_name ;;
  emit (test_completed result) ;;;
  progress <- int_truediv ((Z.of_nat i + 1) * 100) (Z.of_nat total_tests) ;;
  emit (progress_updated progress) ;;;
  sleep (1 # 10) ;;;
  ret (S i, false).

(** The [except Exception as e] clause of [run]. *)
Definition run_handler (e : string) : M unit :=
  ts <- today_now ;;
  emit (test_completed
          {| test_name := "Connection"; passed := false;
             message := "Failed to connect: " +++ e;
             execution_time := float_zero; timestamp := ts |}).

(** The [try] block of [run]. *)
Definition run_body (execute : string -> M TestResult) : M unit :=
  new_resource_manager ;;;
  open_resource ;;;
  set_timeout 5000 ;;;
  (fun st =>
     let queue := tests_to_run (self st) in
     (for_in queue (run_step execute (List.length queue)) 0%nat ;;; ret tt)
       st).

(** [InstrumentTester.run], for any implementation of [_execute_test]. *)
Definition run_with (execute : string -> M TestResult) : M unit :=
  fun st =>
    match tests_to_run (self st) with
    | [] => ret tt st
    | _ :: _ =>
        try_finally (try_except (run_body execute) run_handler) _cleanup st
    end.

(** [InstrumentTester.run] *)
Definition run : M unit := run_with _execute_test.

(** The signals in a log, and the calls on the link in a log. *)
Definition events (l : list Action) : list Event :=
  flat_map (fun a => match a with Emit ev => [ev] | Link _ => [] end) l.

Definition link_ops (l : list Action) : list LinkOp :=
  flat_map (fun a => match a with Link op => [op] | Emit _ => [] end) l.

(** [MainWindow.stop_tests] calls [QThread.terminate] on the worker: the
    thread stops where it is, and none of its [except] or [finally] clauses
    runs.  A worker stopped after its first [k] actions has done exactly the
    first [k] actions of the run. *)
Definition run_terminated (k : nat) (st : State) : list Action :=
  firstn k (skipn (List.length (log st)) (log (snd (run st)))).

End Checks.

(* ===================================================================== *)
(** ** A scripted bench instrument *)
(* ===================================================================== *)

(** A platform whose link answers from a script: the outcomes of the
    successive queries and of the successive writes are listed in advance
    (a query past the end of its script times out, a write past the end of
    its script is accepted).  Clock readings are milliseconds. *)
Module Bench.

Record bench : Type := mkBench {
  rm_reply : outcome unit;
  open_reply : outcome unit;
  timeout_reply : outcome unit;
  query_replies : list (outcome string);
  send_replies : list (outcome unit);
  close_reply : outcome unit;
  rm_close_reply : outcome unit;
  clock : nat
}.

Definition with_clock (b : bench) (t : nat) : bench :=
  {| rm_reply := rm_reply b; open_reply := open_reply b;
     timeout_reply := timeout_reply b; query_replies := query_replies b;
     send_replies := send_replies b; close_reply := close_reply b;
     rm_close_reply := rm_close_reply b; clock := t |}.

Definition timed_out : string :=
  "VI_ERROR_TMO (-1073807339): Timeout expired before operation completed.".

Definition do_query (_ : string) (b : bench) : outcome string * bench :=
  match query_replies b with
  | [] => (Raise timed_out, b)
  | r :: rest =>
      (r, {| rm_reply := rm_reply b; open_reply := open_reply b;
             timeout_reply := timeout_reply b; query_replies := rest;
             send_replies := send_replies b; close_reply := close_reply b;
             rm_close_reply := rm_close_reply b; clock := S (clock b) |})
  end.

Definition do_send (_ : string) (b : bench) : outcome unit * bench :=
  match send_replies b with
  | [] => (Ret tt, b)
  | r :: rest =>
      (r, {| rm_reply := rm_reply b; open_reply := open_reply b;
             timeout_reply := timeout_reply b;
             query_replies := query_replies b;
             send_replies := rest; close_reply := close_reply b;
             rm_close_reply := rm_close_reply b; clock := S (clock b) |})
  end.

Definition mean (l : list nat) : outcome nat :=
  match l with
  | [] => Raise "division by zero"
  | _ => Ret (fold_right Nat.add 0%nat l / List.length l)%nat
  end.

Definition maximum (l : list nat) : outcome nat :=
  match l with
  | [] => Raise "max() arg is an empty sequence"
  | _ => Ret (fold_right Nat.max 0%nat l)
  end.

#[export] Instance platform : Platform := {|
  World := bench;
  float := nat;
  datetime := nat;
  visa_ResourceManager := fun b => (rm_reply b, b);
  visa_open_resource := fun _ b => (open_reply b, b);
  visa_set_timeout := fun _ b => (timeout_reply b, b);
  visa_query := do_query;
  visa_write := do_send;
  visa_close := fun b => (close_reply b, b);
  visa_rm_close := fun b => (rm_close_reply b, b);
  time_time := fun b => (clock b, b);
  time_sleep := fun d b =>
    with_clock b (clock b + Z.to_nat (Qnum (d * 1000)%Q / Zpos (Qden d)))%nat;
  datetime_now := fun b => (clock b, b);
  float_zero := 0%nat;
  float_sub := Nat.sub;
  float_mean := mean;
  float_max := maximum;
  float_lt_one := fun t => (t <? 1000)%nat;
  float_fmt3 := fun t => Py.str_of_N (N.of_nat t)
|}.

(** A healthy bench whose queries answer from [replies]. *)
Definition answering (replies : list (outcome string)) : bench :=
  {| rm_reply := Ret tt; open_reply := Ret tt; timeout_reply := Ret tt;
     query_replies := replies; send_replies := [];
     close_reply := Ret tt; rm_close_reply := Ret tt; clock := 0 |}.

(** A bench whose [open_resource] fails. *)
Definition unreachable (e : string) : bench :=
  {| rm_reply := Ret tt; open_reply := Raise e; timeout_reply := Ret tt;
     query_replies := []; send_replies := [];
     close_reply := Ret tt; rm_close_reply := Ret tt; clock := 0 |}.

(** A worker for [address] with [queue] added test by test, before [run]. *)
Definition worker (address : string) (queue : list string) : Tester :=
  fold_left add_test queue (__init__ address).

Definition start (address : string) (queue : list string) (b : bench)
  : State :=
  {| self := worker address queue; world := b; log := [] |}.

(** A worker inside a run: the link handle is held. *)
Definition connected (b : bench) : State :=
  {| self := {| resource_address := "GPIB0::10::INSTR"; instrument := true;
                rm := true; tests_to_run := [] |};
     world := b; log := [] |}.

End Bench.

(* ===================================================================== *)
(** ** Predicates on method bodies and logs *)
(* ===================================================================== *)

Section Predicates.

Context {P : Platform}.

(** A body is quiet when it leaves the fields of the worker as they are and
    adds only calls on the link to the log: it emits no signal. *)
Definition quiet {A} (m : M A) : Prop :=
  forall st,
    self (snd (m st)) = self st
    /\ exists ops, log (snd (m st)) = log st ++ map Link ops.

(** A body is orderly when it leaves the fields of the worker as they are
    and only adds to the log, whether it returns or raises. *)
Definition orderly {A} (m : M A) : Prop :=
  forall st,
    self (snd (m st)) = self st
    /\ exists acts, log (snd (m st)) = log st ++ acts.

(** A body is total when it returns a value from every state. *)
Definition total {A} (m : M A) : Prop :=
  forall st, exists a, fst (m st) = Ret a.

(** A body names its result [n] when every result it returns carries the
    test name [n]. *)
Definition names (n : string) (m : M TestResult) : Prop :=
  forall st r st', m st = (Ret r, st') -> test_name r = n.

(** The first three statements of the [try] block of [run]: the resource
    manager is created, the link is opened and its timeout is set. *)
Definition connect : M unit :=
  new_resource_manager ;;; open_resource ;;; set_timeout 5000.

(** The link opens from [st]: the connection statements all return. *)
Definition link_opens (st : State) : Prop :=
  fst (connect st) = Ret tt.

(** The signals of a loop that starts at index [i] of a queue of
    [total_tests] tests, when the tests of [queue] give [results]: for each
    test its start, its result and the progress after it. *)
Fixpoint run_events (total_tests i : nat) (queue : list string)
    (results : list TestResult) : list Event :=
  match queue, results with
  | name :: queue', r :: results' =>
      test_started name :: test_completed r
      :: progress_updated
           ((Z.of_nat i + 1) * 100 / Z.of_nat total_tests)%Z
      :: run_events total_tests (S i) queue' results'
  | _, _ => []
  end.

Definition is_completed (ev : Event) : bool :=
  match ev with test_completed _ => true | _ => false end.

Definition is_started (ev : Event) : bool :=
  match ev with test_started _ => true | _ => false end.

(** What a run added to the log. *)
Definition added (st st' : State) : list Action :=
  skipn (List.length (log st)) (log st').

(** [p] is an integer nearest to [100 * c / n]: the value [round] gives,
    whichever way it breaks ties. *)
Definition nearest_percent (c n p : Z) : Prop :=
  (2 * Z.abs (p * n - 100 * c) <= n)%Z.

(** A call that talks to the instrument: a query or a write. *)
Definition is_exchange (op : LinkOp) : bool :=
  match op with LQuery _ _ | LSend _ _ => true | _ => false end.

Definition is_close (op : LinkOp) : bool :=
  match op with LClose _ | LRmClose _ => true | _ => false end.

Definition returned {A} (r : outcome A) : bool :=
  match r with Ret _ => true | Raise _ => false end.

(** The calls [_cleanup] makes from a state: [close] on the instrument when
    the worker holds one, then, unless that call raised, [close] on the
    resource manager when the worker holds one. *)
Definition cleanup_calls (st : State) : list LinkOp :=
  if instrument (self st) then
    let (r, w) := visa_close (world st) in
    LClose r
    :: (if returned r && rm (self st)
        then [LRmClose (fst (visa_rm_close w))] else [])
  else if rm (self st) then [LRmClose (fst (visa_rm_close (world st)))]
  else [].

(** What [_cleanup] calls for a worker that holds a link handle exactly when
    [held_instrument] and a resource manager exactly when [held_rm]:
    [close] on each object that is there, the link handle first, and
    nothing after a [close] that raised. *)
Definition cleanup_of (held_instrument held_rm : bool)
    (closes : list LinkOp) : Prop :=
  match held_instrument, held_rm with
  | false, false => closes = []
  | false, true => exists rr, closes = [LRmClose rr]
  | true, false => exists rc, closes = [LClose rc]
  | true, true =>
      exists rc,
        (returned rc = false /\ closes = [LClose rc])
        \/ (returned rc = true /\ exists rr, closes = [LClose rc; LRmClose rr])
  end.

(** Opening the link fails with [e]: [pyvisa.ResourceManager()] or
    [open_resource] raises it. *)
Definition open_fails (st : State) (e : string) : Prop :=
  fst ((new_resource_manager ;;; open_resource) st) = Raise e.

(** The failure [run] reports when its [try] block raises [e]. *)
Definition is_connection_failure (e : string) (r : TestResult) : Prop :=
  test_name r = "Connection" /\ passed r = false
  /\ message r = "Failed to connect: " +++ e.

(** A reply to the error-queue query that ends the loop of
    [_test_error_status]: the "no error" response, or a fault. *)
Definition stops (r : outcome string) : bool :=
  match r with
  | Ret s => no_error (Py.strip s)
  | Raise _ => true
  end.

(** The clear-status write of [_test_error_status] is accepted: the call
    the check makes right after reading its start time returns. *)
Definition clear_status_accepted (st : State) : Prop :=
  fst (send "*CLS" (snd (now st))) = Ret tt.

(** A reply that counts as a success: it is there and it is not blank. *)
Definition answered (r : outcome string) : bool :=
  match r with
  | Ret s => Py.truthy (Py.strip s)
  | Raise _ => false
  end.

(** The queries of the stability loop from index [i] on, with the replies
    they got: query [k] sends [commands[k % 4]]. *)
Definition stability_queries (i : nat) (replies : list (outcome string))
  : list LinkOp :=
  map (fun kr => LQuery (nth (fst kr mod 4) commands "") (snd kr))
    (combine (seq i (List.length replies)) replies).

(** The call the compliance loop makes for [cmd]: a query when [cmd] ends
    in a question mark, a write otherwise. *)
Definition expected_call (cmd : string) (op : LinkOp) : Prop :=
  if Py.endswith cmd "?" then exists r, op = LQuery cmd r
  else exists r, op = LSend cmd r.

(** A call that counts as compliant: a query with a reply that is not
    blank, or a write that returned. *)
Definition compliant_call (op : LinkOp) : bool :=
  match op with
  | LQuery _ (Ret s) => Py.truthy (Py.strip s)
  | LSend _ (Ret _) => true
  | _ => false
  end.

Definition count {A} (f : A -> bool) (l : list A) : Z :=
  Z.of_nat (List.length (filter f l)).

End Predicates.


(* ===================================================================== *)
(** ** More predicates on method bodies *)
(* ===================================================================== *)

Section MorePredicates.

Context {P : Platform}.

(** A body stays within [k] exchanges when it leaves the fields of the
    worker as they are and all it adds to the log are at most [k] queries
    and writes: it emits no signal and it does not open, close or configure
    anything. *)
Definition within {A} (k : nat) (m : M A) : Prop :=
  forall st,
    self (snd (m st)) = self st
    /\ exists ops,
        log (snd (m st)) = log st ++ map Link ops
        /\ forallb is_exchange ops = true
        /\ (List.length ops <= k)%nat.

(** The brand search of [_test_identification] on the stripped reply. *)
Definition is_agilent_keysight (idn_response : string) : bool :=
  existsb (fun brand => Py.contains (Py.lower brand) (Py.lower idn_response))
    brands.

(** The connection of a run up to the timeout: the resource manager and the
    link are there, and setting the timeout raises [e]. *)
Definition timeout_fails (st : State) (e : string) : Prop :=
  exists st1,
    (new_resource_manager ;;; open_resource) st = (Ret tt, st1)
    /\ fst (set_timeout 5000 st1) = Raise e.

(** The progress values among the signals, in order. *)
Definition progress_values (evs : list Event) : list Z :=
  flat_map (fun ev => match ev with progress_updated p => [p] | _ => [] end)
    evs.

(** The durations [_test_response_time] records over queries that all
    return, from the world [w] on: for each query, in order, the clock is
    read, the query "*IDN?" is made and returns [raw], the clock is read
    again, and the duration is the second reading less the first. *)
Inductive timed_queries : World -> list string -> list float -> Prop :=
| timed_done w : timed_queries w [] []
| timed_query w query_start w0 raw w1 query_end w2 raws response_times :
    time_time w = (query_start, w0) ->
    visa_query "*IDN?" w0 = (Ret raw, w1) ->
    time_time w1 = (query_end, w2) ->
    timed_queries w2 raws response_times ->
    timed_queries w (raw :: raws)
      (float_sub query_end query_start :: response_times).

End MorePredicates.

(* ===================================================================== *)
(** ** The installer, PreReqsInstall.py *)
(* ===================================================================== *)

Module Installer.

(** The double quote, the line feed, and the two marks the installer
    prints, U+2713 and U+2717, as the bytes of their UTF-8 encoding. *)
Definition dq : string := String (ascii_of_nat 34) "".

Definition nl : string := String (ascii_of_nat 10) "".

Definition check_mark : string :=
  String (ascii_of_nat 226) (String (ascii_of_nat 156)
    (String (ascii_of_nat 147) "")).

Definition ballot_x : string :=
  String (ascii_of_nat 226) (String (ascii_of_nat 156)
    (String (ascii_of_nat 151) "")).

(** [s * n] *)
Fixpoint str_mul (s : string) (n : nat) : string :=
  match n with
  | O => ""
  | S k => s +++ str_mul s k
  end.

(** [s.split()[0]]: the first run of characters that are not white space;
    [IndexError] when there is none. *)
Fixpoint until_space (s : string) : string :=
  match s with
  | EmptyString => EmptyString
  | String c r => if Py.isspace c then EmptyString else String c (until_space r)
  end.

Definition first_word (s : string) : outcome string :=
  match Py.lstrip s with
  | EmptyString => Raise "list index out of range"
  | t => Ret (until_space t)
  end.

(** What [subprocess.check_call] does: it returns, it raises
    [CalledProcessError] (the command ran and failed), or it raises
    something else (the command could not be run). *)
Inductive call_outcome : Type :=
| Installed
| CalledProcessError
| CallFault (e : string).

(** The machine the installer runs on.  Every command and the one file are
    used once in a run of [main], so what they do is a function of their
    arguments. *)
Record Host : Type := mkHost {
  (* sys.version_info[:2] *)
  version_info : nat * nat;
  sys_version : string;
  sys_executable : string;
  (* subprocess.check_call(argv) *)
  check_call : list string -> call_outcome;
  (* with open(name, "w") as f: f.write(content) *)
  write_file : string -> string -> outcome unit
}.

(** What a run leaves behind: the lines printed, the commands run and the
    files it tried to write, each in order. *)
Record Console : Type := mkConsole {
  printed : list string;
  commands : list (list string);
  writes : list (string * string)
}.

Definition print (line : string) (c : Console) : Console :=
  {| printed := printed c ++ [line]; commands := commands c;
     writes := writes c |}.

Definition ran (argv : list string) (c : Console) : Console :=
  {| printed := printed c; commands := commands c ++ [argv];
     writes := writes c |}.

Definition wrote (name content : string) (c : Console) : Console :=
  {| printed := printed c; commands := commands c;
     writes := writes c ++ [(name, content)] |}.

Definition requirements : list string :=
  ["qtpy>=2.0.0"; "pyside6>=6.0.0"; "pyvisa>=1.11.0"; "pyvisa-py>=0.5.0"].

(** [[sys.executable, "-m", "pip", "install", package]] *)
Definition pip_install (h : Host) (package : string) : list string :=
  [sys_executable h; "-m"; "pip"; "install"; package].

(** The loop [for package in requirements] of [install_requirements], with
    the [return True] after it. *)
Fixpoint install_each (h : Host) (packages : list string) (c : Console)
  : outcome bool * Console :=
  match packages with
  | [] => (Ret true, c)
  | package :: rest =>
      let c := print ("Installing " +++ package +++ "...") c in
      let c := ran (pip_install h package) c in
      match check_call h (pip_install h package) with
      | Installed =>
          let c :=
            print (check_mark +++ " " +++ package
                   +++ " installed successfully") c in
          install_each h rest c
      | CalledProcessError =>
          (Ret false,
           print (ballot_x +++ " Failed to install " +++ package) c)
      | CallFault e => (Raise e, c)
      end
  end.

(** [install_requirements] *)
Definition install_requirements (h : Host) (c : Console)
  : outcome bool * Console :=
  install_each h requirements (print "Installing required packages..." c).

(** The package installs on the host. *)
Definition installs (h : Host) (package : string) : Prop :=
  check_call h (pip_install h package) = Installed.

Definition config_content : string :=
  "# Agilent/Keysight Instrument Test Configuration

# Common VISA addresses for testing
EXAMPLE_ADDRESSES = [
    " +++ dq +++
  "USB0::0x2A8D::0x1401::MY12345678::INSTR" +++ dq +++
  ",  # USB connection
    " +++ dq +++
  "GPIB0::22::INSTR" +++ dq +++
  ",                          # GPIB connection
    " +++ dq +++
  "TCPIP0::192.168.1.100::INSTR" +++ dq +++
  ",              # Ethernet connection
    " +++ dq +++
  "ASRL1::INSTR" +++ dq +++
  "                               # Serial connection
]

# Test timeout settings (seconds)
DEFAULT_TIMEOUT = 5
LONG_TEST_TIMEOUT = 30

# Logging configuration
LOG_LEVEL = " +++ dq +++
  "INFO" +++ dq +++
  "
LOG_FILE = " +++ dq +++
  "instrument_test.log" +++ dq +++
  "

# Test parameters
RESPONSE_TIME_THRESHOLD = 1.0  # seconds
COMMUNICATION_SUCCESS_RATE = 0.9  # 90%
SCPI_COMPLIANCE_RATE = 0.8  # 80%
".

(** [create_example_config] *)
Definition create_example_config (h : Host) (c : Console) : Console :=
  let c := wrote "test_config.py" config_content c in
  match write_file h "test_config.py" config_content with
  | Ret _ => print (check_mark +++ " Created test_config.py") c
  | Raise e =>
      print (ballot_x +++ " Failed to create configuration file: " +++ e) c
  end.

(** [sys.version_info < (3, 7)] *)
Definition too_old (v : nat * nat) : bool :=
  ((fst v <? 3) || ((fst v =? 3) && (snd v <? 7)))%nat.

(** [main] *)
Definition main (h : Host) (c : Console) : outcome Z * Console :=
  let c := print "Agilent/Keysight Instrument Test Suite Installer" c in
  let c := print (str_mul "=" 50) c in
  if too_old (version_info h) then
    (Ret 1%Z, print (ballot_x +++ " Python 3.7 or higher required") c)
  else
    match first_word (sys_version h) with
    | Raise e => (Raise e, c)
    | Ret version =>
        let c := print (check_mark +++ " Python " +++ version +++ " detected") c in
        match install_requirements h c with
        | (Raise e, c) => (Raise e, c)
        | (Ret false, c) => (Ret 1%Z, print "Installation failed!" c)
        | (Ret true, c) =>
            let c := create_example_config h c in
            let c := print (nl +++ str_mul "=" 50) c in
            let c := print "Installation completed successfully!" c in
            let c := print (nl +++ "To run the application:") c in
            let c := print "  python instrument_test_gui.py" c in
            let c := print (nl +++ "Make sure you have:") c in
            let c :=
              print "  - VISA drivers installed (NI-VISA or Keysight IO Libraries)"
                c in
            let c :=
              print "  - Instruments connected via USB, GPIB, or Ethernet" c in
            let c := print "  - Proper VISA addresses configured" c in
            (Ret 0%Z, c)
        end
    end.

(** A machine on which the packages of [broken] fail to install and the
    configuration file cannot be written when [read_only]. *)
Definition machine (v : nat * nat) (broken : list string) (read_only : bool)
  : Host :=
  {| version_info := v;
     sys_version := "3.11.4 (main, Jun  7 2023, 00:00:00) [GCC 12.2.0]";
     sys_executable := "/usr/bin/python3";
     check_call := fun argv =>
       if existsb (fun p => existsb (String.eqb p) argv) broken
       then CalledProcessError else Installed;
     write_file := fun _ _ =>
       if read_only then Raise "[Errno 30] Read-only file system: 'test_config.py'"
       else Ret tt |}.

Definition fresh : Console := {| printed := []; commands := []; writes := [] |}.

End Installer.

(* ===================================================================== *)
(** ** The main window *)
(* ===================================================================== *)

(** A Python [dict] with string keys: the items in the order the keys were
    first set. *)
Fixpoint dict_set {V} (k : string) (v : V) (d : list (string * V))
  : list (string * V) :=
  match d with
  | [] => [(k, v)]
  | (k', v') :: rest =>
      if String.eqb k' k then (k', v) :: rest
      else (k', v') :: dict_set k v rest
  end.

Fixpoint dict_get {V} (k : string) (d : list (string * V)) : option V :=
  match d with
  | [] => None
  | (k', v') :: rest => if String.eqb k' k then Some v' else dict_get k rest
  end.

(** [k in d] *)
Definition dict_has {V} (k : string) (d : list (string * V)) : bool :=
  match dict_get k d with Some _ => true | None => false end.

(** [d.keys()] and [d.values()] *)
Definition keys {V} (d : list (string * V)) : list string := map fst d.

Definition values {V} (d : list (string * V)) : list V := map snd d.

(** [sorted(d.items())], for a [dict] (whose keys are distinct, so that the
    values are never compared): by key, in the order of Python strings. *)
Fixpoint insert_item {V} (x : string * V) (l : list (string * V))
  : list (string * V) :=
  match l with
  | [] => [x]
  | y :: rest =>
      if String.leb (fst x) (fst y) then x :: l else y :: insert_item x rest
  end.

Definition sorted_items {V} (d : list (string * V)) : list (string * V) :=
  fold_right insert_item [] d.

Module Gui.

(** [repr] of a [str], which is the text of the [KeyError] a dict raises
    for a missing key: single quotes, or double quotes when the text holds
    a single quote and no double quote; the quote in use and the backslash
    are escaped, tab, line feed and carriage return are written with their
    letters, the other control characters as two hexadecimal digits.
    Characters outside ASCII are kept as they are, as Python keeps the
    printable ones. *)
Definition backslash : ascii := ascii_of_nat 92.

Definition single_quote : ascii := ascii_of_nat 39.

Definition double_quote : ascii := ascii_of_nat 34.

Definition holds (ch : ascii) (s : string) : bool :=
  existsb (Ascii.eqb ch) (list_ascii_of_string s).

Definition hex_digit (n : nat) : ascii :=
  nth n (list_ascii_of_string "0123456789abcdef") "0"%char.

Definition repr_char (quote ch : ascii) : string :=
  let n := nat_of_ascii ch in
  if Ascii.eqb ch quote || Ascii.eqb ch backslash
  then String backslash (String ch EmptyString)
  else if (n =? 9)%nat then String backslash "t"
  else if (n =? 10)%nat then String backslash "n"
  else if (n =? 13)%nat then String backslash "r"
  else if (n <? 32)%nat || (n =? 127)%nat
  then String backslash
         (String "x"
            (String (hex_digit (n / 16))
               (String (hex_digit (n mod 16)) EmptyString)))
  else String ch EmptyString.

Definition repr (s : string) : string :=
  let quote :=
    if holds single_quote s && negb (holds double_quote s)
    then double_quote else single_quote in
  String quote
    (Py.join EmptyString (map (repr_char quote) (list_ascii_of_string s))
     +++ String quote EmptyString).

(** [TestButton._get_style] *)
Definition base_style : string :=
  "
            QPushButton {
                border: 2px solid;
                border-radius: 8px;
                padding: 8px;
                font-weight: bold;
                font-size: 12px;
            }
            QPushButton:hover {
                opacity: 0.8;
            }
            QPushButton:pressed {
                border-width: 3px;
            }
        ".

Definition _get_style (status : string) : string :=
  if String.eqb status "pass" then
    base_style +++ "
                QPushButton {
                    background-color: #4CAF50;
                    border-color: #45a049;
                    color: white;
                }
            "
  else if String.eqb status "fail" then
    base_style +++ "
                QPushButton {
                    background-color: #f44336;
                    border-color: #da190b;
                    color: white;
                }
            "
  else if String.eqb status "running" then
    base_style +++ "
                QPushButton {
                    background-color: #ff9800;
                    border-color: #f57c00;
                    color: white;
                }
            "
  else
    base_style +++ "
                QPushButton {
                    background-color: #e0e0e0;
                    border-color: #bdbdbd;
                    color: black;
                }
            ".

Section Window.

Context {P : Platform}.

(** [timestamp.strftime(format)] *)
Variable strftime : datetime -> string -> string.

(** What [InstrumentTestGUI] keeps and shows.  A [TestButton] is kept as
    the style sheet it shows; [messages] are the texts given to
    [log_message] (each goes to the log tab behind a time stamp, and to
    [logging.info]); [warnings] are the texts of the warning boxes. *)
Record InstrumentTestGUI : Type := mkGui {
  test_results : list (string * TestResult);
  test_buttons : list (string * string);
  address_text : string;
  tester_running : bool;
  run_all_enabled : bool;
  stop_enabled : bool;
  progress_visible : bool;
  progress_value : Z;
  status_message : string;
  passed_label : string;
  failed_label : string;
  total_label : string;
  results_text : string;
  messages : list string;
  warnings : list string
}.

Definition with_buttons (b : list (string * string)) (g : InstrumentTestGUI)
  : InstrumentTestGUI :=
  {| test_results := test_results g; test_buttons := b;
     address_text := address_text g; tester_running := tester_running g;
     run_all_enabled := run_all_enabled g; stop_enabled := stop_enabled g;
     progress_visible := progress_visible g;
     progress_value := progress_value g;
     status_message := status_message g; passed_label := passed_label g;
     failed_label := failed_label g; total_label := total_label g;
     results_text := results_text g; messages := messages g;
     warnings := warnings g |}.

Definition with_results (r : list (string * TestResult))
    (g : InstrumentTestGUI) : InstrumentTestGUI :=
  {| test_results := r; test_buttons := test_buttons g;
     address_text := address_text g; tester_running := tester_running g;
     run_all_enabled := run_all_enabled g; stop_enabled := stop_enabled g;
     progress_visible := progress_visible g;
     progress_value := progress_value g;
     status_message := status_message g; passed_label := passed_label g;
     failed_label := failed_label g; total_label := total_label g;
     results_text := results_text g; messages := messages g;
     warnings := warnings g |}.

Definition with_status (s : string) (g : InstrumentTestGUI)
  : InstrumentTestGUI :=
  {| test_results := test_results g; test_buttons := test_buttons g;
     address_text := address_text g; tester_running := tester_running g;
     run_all_enabled := run_all_enabled g; stop_enabled := stop_enabled g;
     progress_visible := progress_visible g;
     progress_value := progress_value g;
     status_message := s; passed_label := passed_label g;
     failed_label := failed_label g; total_label := total_label g;
     results_text := results_text g; messages := messages g;
     warnings := warnings g |}.

Definition with_running (b : bool) (g : InstrumentTestGUI)
  : InstrumentTestGUI :=
  {| test_results := test_results g; test_buttons := test_buttons g;
     address_text := address_text g; tester_running := b;
     run_all_enabled := run_all_enabled g; stop_enabled := stop_enabled g;
     progress_visible := progress_visible g;
     progress_value := progress_value g;
     status_message := status_message g; passed_label := passed_label g;
     failed_label := failed_label g; total_label := total_label g;
     results_text := results_text g; messages := messages g;
     warnings := warnings g |}.

Definition with_progress (p : Z) (g : InstrumentTestGUI)
  : InstrumentTestGUI :=
  {| test_results := test_results g; test_buttons := test_buttons g;
     address_text := address_text g; tester_running := tester_running g;
     run_all_enabled := run_all_enabled g; stop_enabled := stop_enabled g;
     progress_visible := progress_visible g;
     progress_value := p;
     status_message := status_message g; passed_label := passed_label g;
     failed_label := failed_label g; total_label := total_label g;
     results_text := results_text g; messages := messages g;
     warnings := warnings g |}.

(** The three controls [run_all_tests] and [on_all_tests_finished] switch:
    the run-all button, the stop button and the progress bar. *)
Definition with_controls (run_all stop bar : bool) (g : InstrumentTestGUI)
  : InstrumentTestGUI :=
  {| test_results := test_results g; test_buttons := test_buttons g;
     address_text := address_text g; tester_running := tester_running g;
     run_all_enabled := run_all; stop_enabled := stop;
     progress_visible := bar;
     progress_value := progress_value g;
     status_message := status_message g; passed_label := passed_label g;
     failed_label := failed_label g; total_label := total_label g;
     results_text := results_text g; messages := messages g;
     warnings := warnings g |}.

(** [QMessageBox.warning(self, "Warning", text)] *)
Definition warning (text : string) (g : InstrumentTestGUI)
  : InstrumentTestGUI :=
  {| test_results := test_results g; test_buttons := test_buttons g;
     address_text := address_text g; tester_running := tester_running g;
     run_all_enabled := run_all_enabled g; stop_enabled := stop_enabled g;
     progress_visible := progress_visible g;
     progress_value := progress_value g;
     status_message := status_message g; passed_label := passed_label g;
     failed_label := failed_label g; total_label := total_label g;
     results_text := results_text g; messages := messages g;
     warnings := warnings g ++ [text] |}.

(** [InstrumentTestGUI.log_message] *)
Definition log_message (message : string) (g : InstrumentTestGUI)
  : InstrumentTestGUI :=
  {| test_results := test_results g; test_buttons := test_buttons g;
     address_text := address_text g; tester_running := tester_running g;
     run_all_enabled := run_all_enabled g; stop_enabled := stop_enabled g;
     progress_visible := progress_visible g;
     progress_value := progress_value g;
     status_message := status_message g; passed_label := passed_label g;
     failed_label := failed_label g; total_label := total_label g;
     results_text := results_text g; messages := messages g ++ [message];
     warnings := warnings g |}.

(** [self.test_buttons[name].set_status(status)], for a name that is
    there. *)
Definition set_status (name status : string) (g : InstrumentTestGUI)
  : InstrumentTestGUI :=
  with_buttons (dict_set name (_get_style status) (test_buttons g)) g.

(** [sum(1 for r in self.test_results.values() if r.passed)] and the like *)
Definition count_passed (d : list (string * TestResult)) : nat :=
  List.length (filter (fun r => passed r) (values d)).

Definition count_failed (d : list (string * TestResult)) : nat :=
  List.length (filter (fun r => negb (passed r)) (values d)).

Definition str_of_nat (n : nat) : string := Py.str_of_N (N.of_nat n).

(** The block [update_results_display] writes for one result. *)
Definition result_block (item : string * TestResult) : string :=
  let name := fst item in
  let result := snd item in
  let status_color := if passed result then "green" else "red" in
  let status_text := if passed result then "PASS" else "FAIL" in
  "
            <div style='margin: 10px 0; padding: 10px; border-left: 4px solid " +++ status_color
  +++ ";'>
                <strong style='color: " +++ status_color
  +++ ";'>" +++ name +++ ": " +++ status_text
  +++ "</strong><br>
                <small>Time: "
  +++ strftime (timestamp result) "%Y-%m-%d %H:%M:%S"
  +++ "</small><br>
                <small>Duration: "
  +++ float_fmt3 (execution_time result)
  +++ "s</small><br>
                Message: "
  +++ message result
  +++ "
            </div>
            ".

(** [InstrumentTestGUI.update_results_display] *)
Definition update_results_display (g : InstrumentTestGUI)
  : InstrumentTestGUI :=
  let d := test_results g in
  let results_html :=
    "<html><body style='font-family: monospace;'>"
    +++ "<h3>Test Results Summary</h3>"
    +++ Py.join "" (map result_block (sorted_items d))
    +++ "</body></html>" in
  {| test_results := test_results g; test_buttons := test_buttons g;
     address_text := address_text g; tester_running := tester_running g;
     run_all_enabled := run_all_enabled g; stop_enabled := stop_enabled g;
     progress_visible := progress_visible g;
     progress_value := progress_value g;
     status_message := status_message g;
     passed_label := "Passed: " +++ str_of_nat (count_passed d);
     failed_label := "Failed: " +++ str_of_nat (count_failed d);
     total_label := "Total: " +++ str_of_nat (List.length d);
     results_text := results_html; messages := messages g;
     warnings := warnings g |}.

(** [InstrumentTestGUI.on_test_started] *)
Definition on_test_started (name : string) (g : InstrumentTestGUI)
  : InstrumentTestGUI :=
  let g :=
    if dict_has name (test_buttons g) then set_status name "running" g
    else g in
  let g := with_status ("Running: " +++ name) g in
  log_message ("Started test: " +++ name) g.

(** [InstrumentTestGUI.on_test_completed] *)
Definition on_test_completed (result : TestResult) (g : InstrumentTestGUI)
  : InstrumentTestGUI :=
  let g :=
    if dict_has (test_name result) (test_buttons g) then
      set_status (test_name result) (if passed result then "pass" else "fail")
        g
    else g in
  let g :=
    with_results (dict_set (test_name result) result (test_results g)) g in
  let g := update_results_display g in
  let status := if passed result then "PASSED" else "FAILED" in
  log_message
    ("Test " +++ test_name result +++ ": " +++ status +++ " - "
     +++ message result +++ " (" +++ float_fmt3 (execution_time result)
     +++ "s)")
    g.

(** [InstrumentTestGUI.on_progress_updated] *)
Definition on_progress_updated (progress : Z) (g : InstrumentTestGUI)
  : InstrumentTestGUI :=
  with_progress progress g.

(** [InstrumentTestGUI.on_all_tests_finished] *)
Definition on_all_tests_finished (g : InstrumentTestGUI)
  : InstrumentTestGUI :=
  let g := with_controls true false false g in
  let g := with_status "Tests completed" g in
  let n_passed := count_passed (test_results g) in
  let total := List.length (test_results g) in
  let failed := (total - n_passed)%nat in
  log_message
    ("All tests completed. Passed: " +++ str_of_nat n_passed
     +++ ", Failed: " +++ str_of_nat failed
     +++ ", Total: " +++ str_of_nat total)
    g.

(** [for btn in self.test_buttons.values(): btn.set_status("idle")] *)
Definition all_idle (g : InstrumentTestGUI) : InstrumentTestGUI :=
  with_buttons
    (map (fun item => (fst item, _get_style "idle")) (test_buttons g)) g.

(** [InstrumentTestGUI.clear_results] *)
Definition clear_results (g : InstrumentTestGUI) : InstrumentTestGUI :=
  let g := with_results [] g in
  let g := all_idle g in
  let g := update_results_display g in
  log_message "Results cleared" g.

(** The names of the buttons, group by group, as [_create_test_tab] makes
    them. *)
Definition connection_tests : list string :=
  ["Connection Test"; "Identification"].

Definition status_tests : list string :=
  ["Self Test"; "Error Status"; "Status Registers"; "Operation Complete"].

Definition func_tests : list string := ["Reset Command"; "SCPI Compliance"].

Definition perf_tests : list string :=
  ["Response Time"; "Communication Stability"].

(** One loop of [_create_test_tab]: a [TestButton], idle, for each name. *)
Definition add_buttons (names : list string) (b : list (string * string))
  : list (string * string) :=
  fold_left (fun b name => dict_set name (_get_style "idle") b) names b.

(** The worker [run_single_test] and [run_all_tests] make:
    [InstrumentTester(address)] and an [add_test] for each name. *)
Definition new_tester (address : string) (names : list string) : Tester :=
  fold_left add_test names (__init__ address).

(** [InstrumentTestGUI.__init__], with [init_ui]: the window as it
    opens. *)
Definition __init__ : InstrumentTestGUI :=
  {| test_results := [];
     test_buttons :=
       add_buttons perf_tests
         (add_buttons func_tests
            (add_buttons status_tests (add_buttons connection_tests [])));
     address_text := "USB0::0x2A8D::0x1401::MY12345678::INSTR";
     tester_running := false;
     run_all_enabled := true; stop_enabled := false;
     progress_visible := false; progress_value := 0;
     status_message := "Ready";
     passed_label := "Passed: 0"; failed_label := "Failed: 0";
     total_label := "Total: 0";
     results_text := ""; messages := []; warnings := [] |}.

(** [InstrumentTestGUI.run_single_test], up to [self.tester.start()]: the
    window after it and the worker it started, if any.  A name without a
    button is a [KeyError]. *)
Definition run_single_test (name : string) (g : InstrumentTestGUI)
  : outcome (option Tester) * InstrumentTestGUI :=
  if tester_running g then
    (Ret None, warning "Tests are already running!" g)
  else
    let address := Py.strip (address_text g) in
    if negb (Py.truthy address) then
      (Ret None, warning "Please enter a VISA address!" g)
    else if negb (dict_has name (test_buttons g)) then
      (Raise (repr name), g)
    else
      let g := set_status name "running" g in
      (Ret (Some (new_tester address [name])), with_running true g).

(** [InstrumentTestGUI.run_all_tests], up to its end. *)
Definition run_all_tests (g : InstrumentTestGUI)
  : option Tester * InstrumentTestGUI :=
  let address := Py.strip (address_text g) in
  if negb (Py.truthy address) then
    (None, warning "Please enter a VISA address!" g)
  else if tester_running g then
    (None, warning "Tests are already running!" g)
  else
    let g := all_idle g in
    let tester := new_tester address (keys (test_buttons g)) in
    let g := with_controls false true true g in
    let g := with_progress 0 g in
    let g := with_running true g in
    (Some tester, log_message ("Starting all tests on " +++ address) g).

(** [InstrumentTestGUI.stop_tests] *)
Definition stop_tests (g : InstrumentTestGUI) : InstrumentTestGUI :=
  let g :=
    if tester_running g
    then log_message "Tests stopped by user" (with_running false g)
    else g in
  on_all_tests_finished g.

(** The worker state a session starts from. *)
Definition worker_start (tester : Tester) (w : World) : State :=
  {| self := tester; world := w; log := [] |}.

(** The slots a signal of the worker reaches: [run_single_test] connects
    [test_completed] and [test_started]; [run_all_tests] connects
    [progress_updated] as well. *)
Definition slot_single (g : InstrumentTestGUI) (ev : Event)
  : InstrumentTestGUI :=
  match ev with
  | test_started name => on_test_started name g
  | test_completed result => on_test_completed result g
  | progress_updated _ => g
  end.

Definition slot_all (g : InstrumentTestGUI) (ev : Event)
  : InstrumentTestGUI :=
  match ev with
  | test_started name => on_test_started name g
  | test_completed result => on_test_completed result g
  | progress_updated progress => on_progress_updated progress g
  end.

(** A click on the button of [name] and the run that follows, left alone:
    the window handles the signals of the worker in the order they were
    emitted, and the worker thread is then over. *)
Definition single_session (name : string) (w : World)
    (g : InstrumentTestGUI) : outcome InstrumentTestGUI :=
  match run_single_test name g with
  | (Raise e, _) => Raise e
  | (Ret None, g) => Ret g
  | (Ret (Some tester), g) =>
      let signals := events (log (snd (run (worker_start tester w)))) in
      Ret (with_running false (fold_left slot_single signals g))
  end.

(** A click on "Run All Tests" and the run that follows, left alone; the
    [finished] signal of the thread comes last and reaches
    [on_all_tests_finished]. *)
Definition run_all_session (w : World) (g : InstrumentTestGUI)
  : InstrumentTestGUI :=
  match run_all_tests g with
  | (None, g) => g
  | (Some tester, g) =>
      let signals := events (log (snd (run (worker_start tester w)))) in
      on_all_tests_finished
        (with_running false (fold_left slot_all signals g))
  end.

(** The windows a user can get to: the window as it opens, and what the
    slots and the buttons make of a window. *)
Inductive reachable : InstrumentTestGUI -> Prop :=
| reach_init : reachable __init__
| reach_typed g address :
    reachable g ->
    reachable
      {| test_results := test_results g; test_buttons := test_buttons g;
         address_text := address; tester_running := tester_running g;
         run_all_enabled := run_all_enabled g;
         stop_enabled := stop_enabled g;
         progress_visible := progress_visible g;
         progress_value := progress_value g;
         status_message := status_message g;
         passed_label := passed_label g; failed_label := failed_label g;
         total_label := total_label g; results_text := results_text g;
         messages := messages g; warnings := warnings g |}
| reach_started g name : reachable g -> reachable (on_test_started name g)
| reach_completed g result :
    reachable g -> reachable (on_test_completed result g)
| reach_progress g progress :
    reachable g -> reachable (on_progress_updated progress g)
| reach_finished g : reachable g -> reachable (on_all_tests_finished g)
| reach_thread_over g : reachable g -> reachable (with_running false g)
| reach_cleared g : reachable g -> reachable (clear_results g)
| reach_stopped g : reachable g -> reachable (stop_tests g)
| reach_run_all g : reachable g -> reachable (snd (run_all_tests g))
| reach_run_single g name :
    reachable g -> reachable (snd (run_single_test name g)).

(** The buttons are the ten of the start, no name has two results, and the
    labels show the counts of the results that are stored. *)
Definition window_ok (g : InstrumentTestGUI) : Prop :=
  keys (test_buttons g) = keys (test_buttons __init__)
  /\ NoDup (keys (test_results g))
  /\ passed_label g
     = "Passed: " +++ str_of_nat (count_passed (test_results g))
  /\ failed_label g
     = "Failed: " +++ str_of_nat (count_failed (test_results g))
  /\ total_label g = "Total: " +++ str_of_nat (List.length (test_results g)).

End Window.

End Gui.
(* ===================================================================== *)
(** ** The string methods on examples *)
(* ===================================================================== *)

Example strip_example : Py.strip "  +0,No error  " = "+0,No error".
Proof. reflexivity. Qed.

Example endswith_example :
  Py.endswith "*IDN?" "?" = true /\ Py.endswith "*RST" "?" = false.
Proof. split; reflexivity. Qed.

Example fmt_percent1_example :
  Py.fmt_percent1 (9 # 10)%Q = "90.0%" /\ Py.fmt_percent1 (5 # 6)%Q = "83.3%"
  /\ Py.fmt_percent1 (10 # 10)%Q = "100.0%" /\ Py.fmt_percent1 (0 # 6)%Q = "0.0%".
Proof. repeat split; reflexivity. Qed.

(* ===================================================================== *)
(** ** What a method body leaves alone, and when it returns *)
(* ===================================================================== *)

Section Frame.

Context {P : Platform}.

Lemma quiet_ret A (a : A) : quiet (ret a).
Proof. intros st; split; [reflexivity | exists []; cbn; now rewrite app_nil_r]. Qed.

Lemma quiet_raise A e : quiet (@raise _ A e).
Proof. intros st; split; [reflexivity | exists []; cbn; now rewrite app_nil_r]. Qed.

Lemma quiet_lift A (r : outcome A) : quiet (lift r).
Proof. intros st; split; [reflexivity | exists []; cbn; now rewrite app_nil_r]. Qed.

Lemma quiet_seq A B (m : M A) (st : State) (k : outcome A -> M B) :
  quiet m -> (forall r, quiet (k r)) ->
  self (snd (k (fst (m st)) (snd (m st)))) = self st
  /\ exists ops,
      log (snd (k (fst (m st)) (snd (m st)))) = log st ++ map Link ops.
Proof.
  intros Hm Hk.
  destruct (Hm st) as [Hs [ops1 Hl]].
  destruct (Hk (fst (m st)) (snd (m st))) as [Hs' [ops2 Hl']].
  split; [congruence |].
  exists (ops1 ++ ops2). rewrite Hl', Hl, map_app, app_assoc. reflexivity.
Qed.

Lemma quiet_bind A B (m : M A) (k : A -> M B) :
  quiet m -> (forall a, quiet (k a)) -> quiet (bind m k).
Proof.
  intros Hm Hk st.
  pose proof (quiet_seq A B m st
                (fun r => match r with Ret a => k a | Raise e => raise e end)
                Hm) as H.
  unfold bind. destruct (m st) as [[a | e] st']; cbn in *;
    apply H; intros [a' | e']; auto using quiet_raise.
Qed.

Lemma quiet_try_except A (m : M A) (h : string -> M A) :
  quiet m -> (forall e, quiet (h e)) -> quiet (try_except m h).
Proof.
  intros Hm Hh st.
  pose proof (quiet_seq A A m st
                (fun r => match r with Ret a => ret a | Raise e => h e end)
                Hm) as H.
  unfold try_except. destruct (m st) as [[a | e] st']; cbn in *;
    apply H; intros [a' | e']; auto using quiet_ret.
Qed.

Lemma quiet_for_in A S (xs : list A) (body : A -> S -> M (S * bool)) :
  (forall x s, quiet (body x s)) -> forall s, quiet (for_in xs body s).
Proof.
  intros Hb. induction xs as [| x rest IH]; intros s; cbn [for_in].
  - apply quiet_ret.
  - apply quiet_bind; [apply Hb |].
    intros [s' b]; cbn. destruct b; [apply quiet_ret | apply IH].
Qed.

Lemma quiet_link A (call : World -> outcome A * World)
    (op : outcome A -> LinkOp) :
  quiet (fun st => let (r, w) := call (world st) in
                   (r, record (Link (op r)) w st)).
Proof.
  intros st. destruct (call (world st)) as [r w]; cbn.
  split; [reflexivity | exists [op r]; reflexivity].
Qed.

Lemma quiet_query cmd : quiet (query cmd).
Proof.
  intros st. unfold query. destruct (instrument (self st)).
  - apply (quiet_link _ (visa_query cmd) (LQuery cmd)).
  - apply (quiet_raise string).
Qed.

Lemma quiet_send cmd : quiet (send cmd).
Proof.
  intros st. unfold send. destruct (instrument (self st)).
  - apply (quiet_link _ (visa_write cmd) (LSend cmd)).
  - apply (quiet_raise unit).
Qed.

Lemma quiet_now : quiet now.
Proof.
  intros st. unfold now. destruct (time_time (world st)); cbn.
  split; [reflexivity | exists []; cbn; now rewrite app_nil_r].
Qed.

Lemma quiet_today_now : quiet today_now.
Proof.
  intros st. unfold today_now. destruct (datetime_now (world st)); cbn.
  split; [reflexivity | exists []; cbn; now rewrite app_nil_r].
Qed.

Lemma quiet_sleep d : quiet (sleep d).
Proof.
  intros st; split; [reflexivity | exists []; cbn; now rewrite app_nil_r].
Qed.

Lemma quiet_index A (l : list A) i : quiet (index l i).
Proof.
  unfold index. destruct (nth_error l i); [apply quiet_ret | apply quiet_raise].
Qed.

Lemma quiet_truediv a b : quiet (truediv a b).
Proof.
  unfold truediv. destruct (b =? 0)%Z; [apply quiet_raise | apply quiet_ret].
Qed.

Lemma quiet_if A (b : bool) (m1 m2 : M A) :
  quiet m1 -> quiet m2 -> quiet (if b then m1 else m2).
Proof. destruct b; auto. Qed.

Lemma quiet_make_result name ok msg start_time :
  quiet (make_result name ok msg start_time).
Proof.
  unfold make_result.
  apply quiet_bind; [apply quiet_now | intros t].
  apply quiet_bind; [apply quiet_today_now | intros ts].
  apply quiet_ret.
Qed.

Lemma total_ret A (a : A) : total (ret a).
Proof. intros st. now exists a. Qed.

Lemma total_bind A B (m : M A) (k : A -> M B) :
  total m -> (forall a, total (k a)) -> total (bind m k).
Proof.
  intros Hm Hk st. unfold bind.
  destruct (Hm st) as [a Ha]. destruct (m st) as [[a' | e] st']; cbn in Ha.
  - apply Hk.
  - discriminate.
Qed.

Lemma total_try_except A (m : M A) (h : string -> M A) :
  (forall e, total (h e)) -> total (try_except m h).
Proof.
  intros Hh st. unfold try_except.
  destruct (m st) as [[a | e] st']; [now exists a | apply Hh].
Qed.

Lemma total_now : total now.
Proof.
  intros st. unfold now. destruct (time_time (world st)) as [t w].
  now exists t.
Qed.

Lemma total_today_now : total today_now.
Proof.
  intros st. unfold today_now. destruct (datetime_now (world st)) as [t w].
  now exists t.
Qed.

Lemma total_make_result name ok msg start_time :
  total (make_result name ok msg start_time).
Proof.
  unfold make_result.
  apply total_bind; [apply total_now | intros t].
  apply total_bind; [apply total_today_now | intros ts].
  apply total_ret.
Qed.

(** What [make_result] returns. *)
Lemma make_result_fields name ok msg start_time st :
  exists r st',
    make_result name ok msg start_time st = (Ret r, st')
    /\ test_name r = name /\ passed r = ok /\ message r = msg
    /\ self st' = self st /\ log st' = log st.
Proof.
  unfold make_result, bind, now, today_now, ret.
  destruct (time_time (world st)) as [t w]; cbn.
  destruct (datetime_now w) as [ts w']; cbn.
  eexists; eexists; repeat split.
Qed.

End Frame.

Create HintDb quiet discriminated.

#[export] Hint Resolve quiet_ret quiet_raise quiet_lift quiet_bind
  quiet_try_except quiet_for_in quiet_query quiet_send quiet_now
  quiet_today_now quiet_sleep quiet_index quiet_truediv quiet_if
  quiet_make_result : quiet.

Ltac quiet_body :=
  repeat first
    [ progress intros
    | apply quiet_make_result | apply quiet_ret | apply quiet_raise
    | apply quiet_lift | apply quiet_query | apply quiet_send
    | apply quiet_now | apply quiet_today_now | apply quiet_sleep
    | apply quiet_index | apply quiet_truediv
    | apply quiet_bind | apply quiet_try_except | apply quiet_for_in
    | apply quiet_if
    | match goal with |- quiet (match ?x with _ => _ end) => destruct x end ].

Section ChecksAreQuiet.

Context {P : Platform}.

Lemma quiet_test_connection : quiet _test_connection.
Proof. unfold _test_connection. quiet_body. Qed.

Lemma quiet_test_identification : quiet _test_identification.
Proof. unfold _test_identification. quiet_body. Qed.

Lemma quiet_test_self_test : quiet _test_self_test.
Proof. unfold _test_self_test. quiet_body. Qed.

Lemma quiet_test_reset : quiet _test_reset.
Proof. unfold _test_reset. quiet_body. Qed.

Lemma quiet_test_error_status : quiet _test_error_status.
Proof. unfold _test_error_status, error_queue_step. quiet_body. Qed.

Lemma quiet_test_status_registers : quiet _test_status_registers.
Proof. unfold _test_status_registers. quiet_body. Qed.

Lemma quiet_test_operation_complete : quiet _test_operation_complete.
Proof. unfold _test_operation_complete. quiet_body. Qed.

Lemma quiet_test_response_time : quiet _test_response_time.
Proof. unfold _test_response_time, response_time_step. quiet_body. Qed.

Lemma quiet_test_communication_stability :
  quiet _test_communication_stability.
Proof. unfold _test_communication_stability, stability_step. quiet_body. Qed.

Lemma quiet_test_scpi_compliance : quiet _test_scpi_compliance.
Proof. unfold _test_scpi_compliance, compliance_step. quiet_body. Qed.

End ChecksAreQuiet.

(* ===================================================================== *)
(** ** The executor of one test *)
(* ===================================================================== *)

Section Names.

Context {P : Platform}.

Lemma names_bind A n (m : M A) (k : A -> M TestResult) :
  (forall a, names n (k a)) -> names n (bind m k).
Proof.
  intros Hk st r st'. unfold bind.
  destruct (m st) as [[a | e] st1]; [apply Hk | discriminate].
Qed.

Lemma names_try_except n (m : M TestResult) h :
  names n m -> (forall e, names n (h e)) -> names n (try_except m h).
Proof.
  intros Hm Hh st r st'. unfold try_except.
  destruct (m st) as [[a | e] st1] eqn:E.
  - intros [= <- <-]. eapply Hm, E.
  - apply Hh.
Qed.

Lemma names_make_result n ok msg start_time :
  names n (make_result n ok msg start_time).
Proof.
  intros st r st' H.
  destruct (make_result_fields n ok msg start_time st)
    as (r0 & st0 & E & Hn & _).
  rewrite E in H. now injection H as <- _.
Qed.

End Names.

Ltac names_body :=
  repeat first
    [ apply names_make_result
    | apply names_try_except
    | apply names_bind
    | progress intros
    | match goal with |- names _ (if ?b then _ else _) => destruct b end ].

Section Executor.

Context {P : Platform}.

Lemma names_own_checks name method :
  resolve own_checks name = Some method -> names name method.
Proof.
  unfold resolve.
  repeat match goal with
         | |- context [String.eqb name ?s] =>
             destruct (String.eqb_spec name s) as [-> | _]
         end;
    intros [= <-]; cbn;
    [ unfold _test_connection | unfold _test_identification
    | unfold _test_self_test | unfold _test_reset
    | unfold _test_error_status | unfold _test_status_registers
    | unfold _test_operation_complete | unfold _test_response_time
    | unfold _test_communication_stability
    | unfold _test_scpi_compliance ];
    names_body.
Qed.

Lemma quiet_own_checks name method :
  resolve own_checks name = Some method -> quiet method.
Proof.
  unfold resolve.
  repeat match goal with
         | |- context [String.eqb name ?s] => destruct (String.eqb name s)
         end;
    intros [= <-]; cbn;
    auto using quiet_test_connection, quiet_test_identification,
      quiet_test_self_test, quiet_test_reset, quiet_test_error_status,
      quiet_test_status_registers, quiet_test_operation_complete,
      quiet_test_response_time, quiet_test_communication_stability,
      quiet_test_scpi_compliance.
Qed.

Lemma resolve_unknown (c : Checks) name :
  ~ In name known_tests -> resolve c name = None.
Proof.
  intros Hn. unfold resolve.
  repeat match goal with
         | |- context [String.eqb name ?s] =>
             destruct (String.eqb_spec name s) as [-> | _];
             [ exfalso; apply Hn; cbn; tauto | ]
         end.
  reflexivity.
Qed.

Lemma resolve_known (c : Checks) name :
  In name known_tests -> exists method, resolve c name = Some method.
Proof.
  cbn. intros H.
  repeat (destruct H as [<- | H]; [eexists; reflexivity |]).
  contradiction.
Qed.

Lemma total_execute_test_with c name : total (execute_test_with c name).
Proof.
  unfold execute_test_with.
  apply total_bind; [apply total_now | intros start_time].
  apply total_try_except. intros e. apply total_make_result.
Qed.

(** Each of the worker's own methods catches what its body raises: none of
    them lets a fault out, so with them the [except] clause of the executor
    is never entered. *)
Lemma own_checks_total name method :
  resolve own_checks name = Some method -> total method.
Proof.
  unfold resolve.
  repeat match goal with
         | |- context [String.eqb name ?s] => destruct (String.eqb name s)
         end;
    intros [= <-]; cbn;
    (apply total_bind; [apply total_now | intros start_time];
     apply total_try_except; intros e; apply total_make_result).
Qed.

Lemma quiet_execute_test name : quiet (_execute_test name).
Proof.
  unfold _execute_test, execute_test_with.
  apply quiet_bind; [apply quiet_now | intros start_time].
  apply quiet_try_except; [| intros; apply quiet_make_result].
  destruct (resolve own_checks name) as [method |] eqn:E.
  - eapply quiet_own_checks, E.
  - apply quiet_make_result.
Qed.

Lemma names_execute_test name : names name (_execute_test name).
Proof.
  unfold _execute_test, execute_test_with.
  apply names_bind; intros start_time.
  apply names_try_except; [| intros; apply names_make_result].
  destruct (resolve own_checks name) as [method |] eqn:E.
  - eapply names_own_checks, E.
  - apply names_make_result.
Qed.

(** The result of the executor, case by case: the result of the method when
    it returns, a failure that quotes the fault when it raises, and the
    unknown-test failure when the name selects no method. *)
Lemma execute_test_with_cases (c : Checks) name st :
  exists r st',
    execute_test_with c name st = (Ret r, st')
    /\ match resolve c name with
       | Some method =>
           match method (snd (now st)) with
           | (Ret r0, st0) => r = r0 /\ st' = st0
           | (Raise e, st0) =>
               test_name r = name /\ passed r = false
               /\ message r = "Test failed: " +++ e
               /\ self st' = self st0 /\ log st' = log st0
           end
       | None =>
           test_name r = name /\ passed r = false
           /\ message r = "Unknown test"
           /\ self st' = self st /\ log st' = log st
       end.
Proof.
  unfold execute_test_with, bind, try_except.
  unfold now.
  destruct (time_time (world st)) as [t w]; cbn [fst snd].
  destruct (resolve c name) as [method |].
  - destruct (method (set_world w st)) as [[r0 | e] st0].
    + exists r0, st0. auto.
    + destruct (make_result_fields name false ("Test failed: " +++ e) t st0)
        as (r & st' & E & ? & ? & ? & ? & ?).
      exists r, st'. rewrite E. auto 8.
  - destruct (make_result_fields name false "Unknown test" t (set_world w st))
      as (r & st' & E & ? & ? & ? & ? & ?).
    exists r, st'. rewrite E. auto 8.
Qed.

End Executor.

(* ===================================================================== *)
(** ** The run loop *)
(* ===================================================================== *)

Ltac norm_app := repeat (progress (rewrite <- ?app_assoc; cbn [app])).

Section Logs.

Context {P : Platform}.

Lemma events_app l1 l2 : events (l1 ++ l2) = events l1 ++ events l2.
Proof. apply flat_map_app. Qed.

Lemma link_ops_app l1 l2 : link_ops (l1 ++ l2) = link_ops l1 ++ link_ops l2.
Proof. apply flat_map_app. Qed.

Lemma events_map_link ops : events (map Link ops) = [].
Proof. unfold events. induction ops as [| op ops IH]; cbn; auto. Qed.

Lemma link_ops_map_link ops : link_ops (map Link ops) = ops.
Proof.
  unfold link_ops. induction ops as [| op ops IH]; cbn; [| rewrite IH];
    reflexivity.
Qed.

Lemma added_app (st st' : State) acts :
  log st' = log st ++ acts -> added st st' = acts.
Proof.
  intros H. unfold added. rewrite H.
  rewrite skipn_app, skipn_all, Nat.sub_diag. reflexivity.
Qed.

End Logs.

Section RunLoop.

Context {P : Platform}.

Variable execute : string -> M TestResult.
Hypothesis execute_quiet : forall name, quiet (execute name).
Hypothesis execute_total : forall name, total (execute name).

(** One turn of the loop: the start signal, the calls of the test on the
    link, the result signal and the progress signal, in this order. *)
Lemma run_step_shape total_tests name i st :
  total_tests <> 0%nat ->
  exists r st' ops s1 s2,
    run_step execute total_tests name i st = (Ret (S i, false), st')
    /\ execute name s1 = (Ret r, s2)
    /\ self st' = self st
    /\ log st' =
       log st ++ Emit (test_started name) :: map Link ops
       ++ [Emit (test_completed r);
           Emit (progress_updated
                   ((Z.of_nat i + 1) * 100 / Z.of_nat total_tests)%Z)].
Proof.
  intros Hpos. unfold run_step, bind, emit, sleep, int_truediv, ret.
  cbn [fst snd].
  set (st1 := record (Emit (test_started name)) (world st) st).
  destruct (execute_total name st1) as [r Hr].
  destruct (execute_quiet name st1) as [Hs [ops Hl]].
  destruct (execute name st1) as [[r' | e] st2] eqn:E; cbn in Hr, Hs, Hl;
    [injection Hr as -> | discriminate].
  destruct (Z.eqb_spec (Z.of_nat total_tests) 0) as [Hz | _]; [lia |].
  eexists r, _, ops, st1, st2. split; [reflexivity |].
  split; [exact E |].
  split; [cbn; exact Hs |].
  cbn. rewrite Hl. cbn. rewrite <- !app_assoc. reflexivity.
Qed.

(** The whole loop, from index [i]: it returns, it leaves the fields of the
    worker alone, and its signals are those of [run_events]. *)
Lemma run_loop_shape total_tests :
  total_tests <> 0%nat ->
  forall queue i st,
  exists results st' acts,
    for_in queue (run_step execute total_tests) i st
    = (Ret (i + List.length queue)%nat, st')
    /\ self st' = self st
    /\ List.length results = List.length queue
    /\ Forall2 (fun name r => exists s1 s2, execute name s1 = (Ret r, s2))
         queue results
    /\ log st' = log st ++ acts
    /\ events acts = run_events total_tests i queue results.
Proof.
  intros Hpos. induction queue as [| name queue IH]; intros i st.
  - exists [], st, []. cbn. rewrite Nat.add_0_r, app_nil_r. auto 8.
  - destruct (run_step_shape total_tests name i st Hpos)
      as (r & st1 & ops & s1 & s2 & Hstep & Hex & Hself & Hlog).
    destruct (IH (S i) st1) as (rs & st2 & acts & Hloop & Hself2 & Hlen & Hall
                                & Hlog2 & Hev).
    exists (r :: rs), st2.
    exists ([Emit (test_started name)] ++ map Link ops
            ++ [Emit (test_completed r);
                Emit (progress_updated
                        ((Z.of_nat i + 1) * 100 / Z.of_nat total_tests)%Z)]
            ++ acts).
    cbn [for_in]. unfold bind at 1. rewrite Hstep. cbn [snd fst].
    rewrite Hloop. cbn [List.length].
    split; [f_equal; f_equal; lia |].
    split; [congruence |].
    split; [congruence |].
    split; [constructor; eauto |].
    split.
    + rewrite Hlog2, Hlog. norm_app. reflexivity.
    + rewrite !events_app, events_map_link, Hev. reflexivity.
Qed.

End RunLoop.

Section RunEvents.

Context {P : Platform}.

Lemma run_events_nth total_tests queue :
  forall results i k name r,
    nth_error queue k = Some name ->
    nth_error results k = Some r ->
    let evs := run_events total_tests i queue results in
    nth_error evs (3 * k) = Some (test_started name)
    /\ nth_error evs (3 * k + 1) = Some (test_completed r)
    /\ nth_error evs (3 * k + 2)
       = Some (progress_updated
                 ((Z.of_nat (i + k) + 1) * 100 / Z.of_nat total_tests)%Z).
Proof.
  induction queue as [| q queue IH]; intros results i k name r Hq Hr.
  - destruct k; discriminate.
  - destruct results as [| r0 results]; [destruct k; discriminate |].
    destruct k as [| k].
    + cbn in Hq, Hr. injection Hq as ->. injection Hr as ->.
      cbn. rewrite Nat.add_0_r. auto.
    + cbn in Hq, Hr.
      destruct (IH results (S i) k name r Hq Hr) as (H1 & H2 & H3).
      replace (3 * S k)%nat with (S (S (S (3 * k)))) by lia.
      cbn [run_events Nat.add nth_error].
      replace (i + S k)%nat with (S i + k)%nat by lia.
      auto.
Qed.

Lemma run_events_completed total_tests queue :
  forall results i,
    List.length results = List.length queue ->
    List.length (filter is_completed (run_events total_tests i queue results))
    = List.length queue
    /\ List.length (filter is_started (run_events total_tests i queue results))
       = List.length queue
    /\ List.length (run_events total_tests i queue results)
       = (3 * List.length queue)%nat.
Proof.
  induction queue as [| q queue IH]; intros [| r results] i Hlen;
    try discriminate; cbn; auto.
  injection Hlen as Hlen.
  destruct (IH results (S i) Hlen) as (H1 & H2 & H3).
  rewrite H1, H2, H3. repeat split; lia.
Qed.

End RunEvents.

(* ===================================================================== *)
(** ** Connecting, cleaning up and the whole run *)
(* ===================================================================== *)

Section Run.

Context {P : Platform}.

(** [_cleanup] always returns; it makes the calls of [cleanup_calls] and
    nothing else. *)
Lemma cleanup_shape st :
  exists st',
    _cleanup st = (Ret tt, st')
    /\ self st' = self st
    /\ log st' = log st ++ map Link (cleanup_calls st).
Proof.
  unfold _cleanup, try_except, bind, close_instrument, close_rm,
    cleanup_calls, ret.
  destruct (instrument (self st)); cbn.
  - destruct (visa_close (world st)) as [[[] | e] w]; cbn.
    + destruct (rm (self st)); cbn.
      * destruct (visa_rm_close w) as [[[] | e'] w']; cbn;
          eexists; repeat split; cbn; norm_app; reflexivity.
      * eexists; repeat split.
    + eexists; repeat split.
  - destruct (rm (self st)); cbn.
    + destruct (visa_rm_close (world st)) as [[[] | e'] w']; cbn;
        eexists; repeat split.
    + eexists; repeat split. now rewrite app_nil_r.
Qed.

Lemma cleanup_calls_close st :
  forallb is_close (cleanup_calls st) = true
  /\ existsb is_exchange (cleanup_calls st) = false.
Proof.
  unfold cleanup_calls.
  destruct (instrument (self st)).
  - destruct (visa_close (world st)) as [r w]; cbn.
    destruct (returned r && rm (self st)); split; reflexivity.
  - destruct (rm (self st)); split; reflexivity.
Qed.

(** When the worker holds a link handle, the first call of [_cleanup] is
    [close] on it; the resource manager, which the worker then holds as
    well, is closed next unless that call raised. *)
Lemma cleanup_calls_held st :
  instrument (self st) = true -> rm (self st) = true ->
  exists rc,
    (returned rc = false /\ cleanup_calls st = [LClose rc])
    \/ (exists rr, returned rc = true
                   /\ cleanup_calls st = [LClose rc; LRmClose rr]).
Proof.
  intros Hi Hr. unfold cleanup_calls. rewrite Hi, Hr.
  destruct (visa_close (world st)) as [rc w]. exists rc.
  destruct rc; cbn; eauto.
Qed.

(** The calls of [_cleanup], handle by handle. *)
Lemma cleanup_calls_of st :
  cleanup_of (instrument (self st)) (rm (self st)) (cleanup_calls st).
Proof.
  unfold cleanup_of, cleanup_calls.
  destruct (instrument (self st)), (rm (self st)).
  - destruct (visa_close (world st)) as [[[] | e] w]; cbn.
    + exists (Ret tt). right. split; [reflexivity | eauto].
    + exists (Raise e). left. split; reflexivity.
  - destruct (visa_close (world st)) as [rc w]. exists rc.
    rewrite Bool.andb_false_r. reflexivity.
  - eauto.
  - reflexivity.
Qed.

(** The [try] block of [run] is the connection followed by the loop. *)
Lemma run_body_connect execute st :
  run_body execute st
  = bind connect
      (fun _ st1 =>
         let queue := tests_to_run (self st1) in
         (for_in queue (run_step execute (List.length queue)) 0%nat ;;; ret tt)
           st1)
      st.
Proof.
  unfold run_body, connect, bind.
  destruct (new_resource_manager st) as [[u | e] st1]; [| reflexivity].
  destruct (open_resource st1) as [[u' | e] st2]; [| reflexivity].
  destruct (set_timeout 5000 st2) as [[u'' | e] st3]; reflexivity.
Qed.

(** A connection that succeeds leaves the worker holding the resource
    manager and the link handle, after three calls. *)
Lemma connect_ok st :
  link_opens st ->
  exists st1,
    connect st = (Ret tt, st1)
    /\ instrument (self st1) = true
    /\ rm (self st1) = true
    /\ tests_to_run (self st1) = tests_to_run (self st)
    /\ log st1 =
       log st
       ++ map Link [LResourceManager (Ret tt);
                    LOpen (resource_address (self st)) (Ret tt);
                    LSetTimeout 5000 (Ret tt)].
Proof.
  unfold link_opens, connect, bind, new_resource_manager, open_resource,
    set_timeout.
  destruct (visa_ResourceManager (world st)) as [[[] | e] w1]; cbn;
    [| discriminate].
  destruct (visa_open_resource (resource_address (self st)) w1)
    as [[[] | e] w2]; cbn; [| discriminate].
  destruct (visa_set_timeout 5000 w2) as [[[] | e] w3]; cbn; [| discriminate].
  intros _. eexists; repeat split. cbn. norm_app. reflexivity.
Qed.

(** A connection that fails at the resource manager or at [open_resource]
    raises the same fault, leaves [self.instrument] as it was, and has made
    one or two calls. *)
Lemma connect_open_fails st e :
  open_fails st e ->
  exists st1 ops,
    connect st = (Raise e, st1)
    /\ instrument (self st1) = instrument (self st)
    /\ log st1 = log st ++ map Link ops
    /\ existsb is_exchange ops = false
    /\ (ops = [LResourceManager (Raise e)]
        \/ ops = [LResourceManager (Ret tt);
                  LOpen (resource_address (self st)) (Raise e)]
        \/ (rm (self st1) = false /\ ops = [])).
Proof.
  unfold open_fails, connect, bind, new_resource_manager, open_resource.
  destruct (visa_ResourceManager (world st)) as [[[] | e1] w1]; cbn.
  - destruct (visa_open_resource (resource_address (self st)) w1)
      as [[[] | e2] w2]; cbn; [discriminate |].
    intros [= ->].
    eexists;
      exists [LResourceManager (Ret tt);
              LOpen (resource_address (self st)) (Raise e)].
    repeat split.
    + cbn. norm_app. reflexivity.
    + auto.
  - intros [= ->].
    eexists; exists [LResourceManager (Raise e)].
    repeat split; auto.
Qed.

(** Every run with a queue ends in [_cleanup], however its [try] block and
    its [except] clause went, and whatever [execute] does. *)
Lemma run_with_cleanup execute st :
  tests_to_run (self st) <> [] ->
  exists out st1 st2,
    try_except (run_body execute) run_handler st = (out, st1)
    /\ run_with execute st = (out, st2)
    /\ self st2 = self st1
    /\ log st2 = log st1 ++ map Link (cleanup_calls st1).
Proof.
  intros Hq. unfold run_with.
  destruct (tests_to_run (self st)) as [| name queue]; [contradiction |].
  unfold try_finally.
  destruct (try_except (run_body execute) run_handler st) as [out st1].
  destruct (cleanup_shape st1) as (st2 & Hc & Hs & Hl).
  exists out, st1, st2. rewrite Hc. auto.
Qed.

(** The run whose link opens. *)
Lemma run_ok_shape execute st :
  (forall name, quiet (execute name)) ->
  (forall name, total (execute name)) ->
  tests_to_run (self st) <> [] ->
  link_opens st ->
  let queue := tests_to_run (self st) in
  exists results st1 st' acts,
    run_with execute st = (Ret tt, st')
    /\ List.length results = List.length queue
    /\ Forall2 (fun name r => exists s1 s2, execute name s1 = (Ret r, s2))
         queue results
    /\ events acts = run_events (List.length queue) 0 queue results
    /\ instrument (self st1) = true /\ rm (self st1) = true
    /\ log st' =
       log st
       ++ map Link [LResourceManager (Ret tt);
                    LOpen (resource_address (self st)) (Ret tt);
                    LSetTimeout 5000 (Ret tt)]
       ++ acts ++ map Link (cleanup_calls st1).
Proof.
  intros Hquiet Htotal Hq Hopen queue.
  destruct (run_with_cleanup execute st Hq)
    as (out & st1 & st2 & Hprot & Hrun & Hself & Hlog).
  destruct (connect_ok st Hopen) as (s0 & Hc & Hi & Hr & Ht & Hl0).
  assert (Hlen : List.length queue <> 0%nat)
    by (subst queue; destruct (tests_to_run (self st)); cbn; congruence).
  destruct (run_loop_shape execute Hquiet Htotal (List.length queue) Hlen
              queue 0%nat s0)
    as (results & s1 & acts & Hloop & Hs1 & Hlr & Hall & Hl1 & Hev).
  unfold try_except in Hprot. rewrite run_body_connect in Hprot.
  unfold bind in Hprot. rewrite Hc, Ht in Hprot. fold queue in Hprot.
  rewrite Hloop in Hprot. cbn in Hprot. injection Hprot as <- <-.
  exists results, s1, st2, acts.
  repeat split; auto; try congruence.
  rewrite Hlog, Hl1, Hl0. norm_app. reflexivity.
Qed.

(** The [except] clause of [run]: one result signal, a failure named
    "Connection" that quotes the fault. *)
Lemma run_handler_shape e st :
  exists r st',
    run_handler e st = (Ret tt, st')
    /\ is_connection_failure e r
    /\ self st' = self st
    /\ log st' = log st ++ [Emit (test_completed r)].
Proof.
  unfold run_handler, bind, today_now, emit.
  destruct (datetime_now (world st)) as [ts w].
  eexists {| test_name := "Connection" |}; eexists.
  split; [reflexivity |]. repeat split.
Qed.

(** The run whose link does not open. *)
Lemma run_open_fails_shape execute st e :
  tests_to_run (self st) <> [] ->
  open_fails st e ->
  exists r st1 st' ops,
    run_with execute st = (Ret tt, st')
    /\ is_connection_failure e r
    /\ instrument (self st1) = instrument (self st)
    /\ existsb is_exchange ops = false
    /\ log st' =
       log st ++ map Link ops ++ [Emit (test_completed r)]
       ++ map Link (cleanup_calls st1).
Proof.
  intros Hq Hfail.
  destruct (run_with_cleanup execute st Hq)
    as (out & st1 & st2 & Hprot & Hrun & Hself & Hlog).
  destruct (connect_open_fails st e Hfail) as (s0 & ops & Hc & Hi & Hl0 & Hx & _).
  destruct (run_handler_shape e s0) as (r & s1 & Hh & Hr & Hs1 & Hl1).
  unfold try_except in Hprot. rewrite run_body_connect in Hprot.
  unfold bind at 1 in Hprot. rewrite Hc, Hh in Hprot.
  injection Hprot as <- <-.
  exists r, s1, st2, ops.
  split; [exact Hrun |].
  split; [exact Hr |].
  split; [congruence |].
  split; [exact Hx |].
  rewrite Hlog, Hl1, Hl0. norm_app. reflexivity.
Qed.

(** A connection that fails at the resource manager leaves both handles as
    they were; one that fails at [open_resource] has stored the resource
    manager and leaves the link handle as it was. *)
Lemma connect_open_fails_cases st e :
  open_fails st e ->
  exists st1 ops,
    connect st = (Raise e, st1)
    /\ instrument (self st1) = instrument (self st)
    /\ log st1 = log st ++ map Link ops
    /\ (ops = [LResourceManager (Raise e)] /\ rm (self st1) = rm (self st)
        \/ ops = [LResourceManager (Ret tt);
                  LOpen (resource_address (self st)) (Raise e)]
           /\ rm (self st1) = true).
Proof.
  unfold open_fails, connect, bind, new_resource_manager, open_resource.
  destruct (visa_ResourceManager (world st)) as [[[] | e1] w1]; cbn.
  - destruct (visa_open_resource (resource_address (self st)) w1)
      as [[[] | e2] w2]; cbn; [discriminate |].
    intros [= ->].
    eexists;
      exists [LResourceManager (Ret tt);
              LOpen (resource_address (self st)) (Raise e)].
    repeat split.
    + cbn. norm_app. reflexivity.
    + right. split; reflexivity.
  - intros [= ->].
    eexists; exists [LResourceManager (Raise e)].
    repeat split. left. split; reflexivity.
Qed.

(** The run whose link does not open, with the calls its [finally] clause
    makes: those of [_cleanup] for the handles the worker holds by then. *)
Lemma run_open_fails_cleanup execute st e :
  tests_to_run (self st) <> [] ->
  open_fails st e ->
  exists r st' ops closes held_rm,
    run_with execute st = (Ret tt, st')
    /\ is_connection_failure e r
    /\ log st' =
       log st ++ map Link ops ++ [Emit (test_completed r)] ++ map Link closes
    /\ (ops = [LResourceManager (Raise e)] /\ held_rm = rm (self st)
        \/ ops = [LResourceManager (Ret tt);
                  LOpen (resource_address (self st)) (Raise e)]
           /\ held_rm = true)
    /\ cleanup_of (instrument (self st)) held_rm closes.
Proof.
  intros Hq Hfail.
  destruct (run_with_cleanup execute st Hq)
    as (out & st1 & st2 & Hprot & Hrun & Hself & Hlog).
  destruct (connect_open_fails_cases st e Hfail)
    as (s0 & ops & Hc & Hi & Hl0 & Hops).
  destruct (run_handler_shape e s0) as (r & s1 & Hh & Hr & Hs1 & Hl1).
  unfold try_except in Hprot. rewrite run_body_connect in Hprot.
  unfold bind at 1 in Hprot. rewrite Hc, Hh in Hprot.
  injection Hprot as <- <-.
  exists r, st2, ops, (cleanup_calls s1), (rm (self s1)).
  split; [exact Hrun |].
  split; [exact Hr |].
  split; [rewrite Hlog, Hl1, Hl0; norm_app; reflexivity |].
  split.
  - rewrite Hs1. destruct Hops as [[-> Hm] | [-> Hm]]; auto.
  - rewrite <- Hi, <- Hs1. apply cleanup_calls_of.
Qed.

End Run.

(* ===================================================================== *)
(** ** Properties of the executor and of the run *)
(* ===================================================================== *)

(** C1.  For every test name and every behaviour of the link, whatever the
    ten methods do, [_execute_test] returns exactly one [TestResult] and
    raises nothing: the result of the selected method when that returns;
    when a fault escapes the method, a result with [passed = False] and the
    message "Test failed: " followed by the text of the fault; and for a
    name that selects no method the unknown-test failure.  The second part
    says it of [_execute_test] with the worker's own methods. *)
Theorem executor_returns_one_result {P : Platform} :
  (forall (c : Checks) (name : string) (st : State),
      exists r st',
        execute_test_with c name st = (Ret r, st')
        /\ match resolve c name with
           | Some method =>
               match fst (method (snd (now st))) with
               | Ret r0 => r = r0
               | Raise e =>
                   test_name r = name /\ passed r = false
                   /\ message r = "Test failed: " +++ e
               end
           | None =>
               test_name r = name /\ passed r = false
               /\ message r = "Unknown test"
           end)
  /\ (forall (name : string) (st : State),
         exists r st',
           _execute_test name st = (Ret r, st') /\ test_name r = name).
Proof.
  split.
  - intros c name st.
    destruct (execute_test_with_cases c name st) as (r & st' & E & H).
    exists r, st'. split; [exact E |].
    destruct (resolve c name) as [method |].
    + destruct (method (snd (now st))) as [[r0 | e] st0]; cbn; tauto.
    + tauto.
  - intros name st.
    destruct (total_execute_test_with own_checks name st) as [r Hr].
    unfold _execute_test.
    destruct (execute_test_with own_checks name st) as [[r' | e] st'] eqn:E;
      cbn in Hr; [injection Hr as -> | discriminate].
    exists r, st'. split; [reflexivity |].
    eapply names_execute_test. exact E.
Qed.

(** A method that raises, seen through the executor on the bench. *)
Example executor_catches_fault :
  let broken :=
    {| check_connection := raise "boom";
       check_identification := _test_identification;
       check_self_test := _test_self_test;
       check_reset := _test_reset;
       check_error_status := _test_error_status;
       check_status_registers := _test_status_registers;
       check_operation_complete := _test_operation_complete;
       check_response_time := _test_response_time;
       check_communication_stability := _test_communication_stability;
       check_scpi_compliance := _test_scpi_compliance |} in
  fst (execute_test_with broken "Connection Test"
         (Bench.connected (Bench.answering [])))
  = Ret (@mkTestResult Bench.platform "Connection Test" false
           "Test failed: boom" 0%nat 0%nat).
Proof. reflexivity. Qed.

Section RunProperties.

Context {P : Platform}.

(** The signals of a run whose link opens, and the results behind them. *)
Lemma run_signals st :
  tests_to_run (self st) <> [] ->
  link_opens st ->
  let queue := tests_to_run (self st) in
  exists results,
    fst (run st) = Ret tt
    /\ List.length results = List.length queue
    /\ Forall2 (fun name r => exists s1 s2,
                    _execute_test name s1 = (Ret r, s2))
         queue results
    /\ events (added st (snd (run st)))
       = run_events (List.length queue) 0 queue results.
Proof.
  intros Hq Hopen queue.
  destruct (run_ok_shape _execute_test st quiet_execute_test
              (total_execute_test_with own_checks) Hq Hopen)
    as (results & st1 & st' & acts & Hrun & Hlen & Hall & Hev & _ & _ & Hlog).
  exists results. unfold run. rewrite Hrun. cbn [fst snd].
  repeat split; auto.
  rewrite (added_app st st' _ Hlog).
  rewrite !events_app, !events_map_link, Hev, app_nil_r. reflexivity.
Qed.

Lemma Forall2_nth A B (R : A -> B -> Prop) l1 l2 :
  Forall2 R l1 l2 ->
  forall i a, nth_error l1 i = Some a ->
              exists b, nth_error l2 i = Some b /\ R a b.
Proof.
  induction 1 as [| x y l1 l2 Hxy _ IH]; intros [| i] a Ha;
    try discriminate.
  - injection Ha as <-. exists y. auto.
  - apply IH. exact Ha.
Qed.

End RunProperties.

(** C2.  In a run whose link opens (and that is left to finish), the signals
    are, for each position of the queue in turn, the start of the test and
    then its result (and then the progress): the start of test [i] is signal
    [3 i] and its result is signal [3 i + 1], so no test starts before the
    result of the one before it, and there are as many result signals as
    tests in the queue. *)
Theorem run_events_interleaved {P : Platform} (st : State) :
  tests_to_run (self st) <> [] ->
  link_opens st ->
  let queue := tests_to_run (self st) in
  let evs := events (added st (snd (run st))) in
  exists results,
    List.length results = List.length queue
    /\ evs = run_events (List.length queue) 0 queue results
    /\ (forall i name,
           nth_error queue i = Some name ->
           exists r,
             nth_error results i = Some r
             /\ test_name r = name
             /\ nth_error evs (3 * i) = Some (test_started name)
             /\ nth_error evs (3 * i + 1) = Some (test_completed r))
    /\ List.length (filter is_completed evs) = List.length queue
    /\ List.length (filter is_started evs) = List.length queue
    /\ List.length evs = (3 * List.length queue)%nat.
Proof.
  intros Hq Hopen queue evs.
  destruct (run_signals st Hq Hopen) as (results & _ & Hlen & Hall & Hev).
  fold queue in Hlen, Hall, Hev. fold evs in Hev.
  exists results.
  split; [exact Hlen |]. split; [exact Hev |].
  split.
  - intros i name Hi.
    destruct (Forall2_nth _ _ _ _ _ Hall i name Hi)
      as (r & Hr & s1 & s2 & Hex).
    exists r. split; [exact Hr |].
    split; [eapply names_execute_test; exact Hex |].
    rewrite Hev.
    destruct (run_events_nth (List.length queue) queue results 0 i name r
                Hi Hr) as (H1 & H2 & _).
    auto.
  - rewrite Hev.
    apply (run_events_completed (List.length queue) queue results 0 Hlen).
Qed.

Lemma run_events_interleaved_witness :
  let st :=
    Bench.start "GPIB0::10::INSTR" ["Connection Test"; "Error Status"]
      (Bench.answering [Ret "Agilent Technologies,34401A,0,1.0";
                        Ret "+0,No error"]) in
  tests_to_run (self st) <> []
  /\ link_opens st
  /\ List.length (filter is_completed (events (added st (snd (run st)))))
     = 2%nat.
Proof.
  cbv zeta.
  assert (H1 : tests_to_run
                 (self (Bench.start "GPIB0::10::INSTR"
                          ["Connection Test"; "Error Status"]
                          (Bench.answering
                             [Ret "Agilent Technologies,34401A,0,1.0";
                              Ret "+0,No error"]))) <> [])
    by (cbn; discriminate).
  assert (H2 : link_opens
                 (Bench.start "GPIB0::10::INSTR"
                    ["Connection Test"; "Error Status"]
                    (Bench.answering
                       [Ret "Agilent Technologies,34401A,0,1.0";
                        Ret "+0,No error"])))
    by reflexivity.
  split; [exact H1 |]. split; [exact H2 |].
  destruct (run_events_interleaved _ H1 H2) as (results & _ & _ & _ & Hc & _).
  exact Hc.
Defined.

(** C3, as the code has it.  In a run whose link opens, with [n > 0] tests
    in the queue, the progress signal after the [c]-th test
    ([1 <= c <= n]) carries [int(c * 100 / n)]: the quotient rounded down,
    the largest integer [p] with [p * n <= 100 * c]. *)
Theorem progress_is_floor {P : Platform} (st : State) (c : nat) :
  tests_to_run (self st) <> [] ->
  link_opens st ->
  (1 <= c <= List.length (tests_to_run (self st)))%nat ->
  let n := Z.of_nat (List.length (tests_to_run (self st))) in
  let evs := events (added st (snd (run st))) in
  exists p,
    nth_error evs (3 * (c - 1) + 2) = Some (progress_updated p)
    /\ p = (Z.of_nat c * 100 / n)%Z
    /\ (p * n <= 100 * Z.of_nat c < (p + 1) * n)%Z.
Proof.
  intros Hq Hopen Hc n evs.
  destruct (run_signals st Hq Hopen) as (results & _ & Hlen & _ & Hev).
  fold evs in Hev.
  set (queue := tests_to_run (self st)) in *.
  destruct (nth_error queue (c - 1)) as [name |] eqn:Hn;
    [| apply nth_error_None in Hn; lia].
  destruct (nth_error results (c - 1)) as [r |] eqn:Hr;
    [| apply nth_error_None in Hr; lia].
  destruct (run_events_nth (List.length queue) queue results 0 (c - 1) name r
              Hn Hr) as (_ & _ & H3).
  exists (Z.of_nat c * 100 / n)%Z.
  split; [| split; [reflexivity |]].
  - rewrite Hev, H3. do 3 f_equal. lia.
  - assert (Hpos : (0 < n)%Z) by (subst n; lia).
    pose proof (Z.mul_div_le (Z.of_nat c * 100) n Hpos).
    pose proof (Z.mul_succ_div_gt (Z.of_nat c * 100) n Hpos).
    lia.
Qed.

Lemma progress_is_floor_witness :
  let st :=
    Bench.start "GPIB0::10::INSTR" ["Self Test"; "Reset Command"; "Nothing"]
      (Bench.answering [Ret "0"; Ret "Agilent Technologies,34401A,0,1.0"]) in
  tests_to_run (self st) <> []
  /\ link_opens st
  /\ (1 <= 2 <= List.length (tests_to_run (self st)))%nat
  /\ exists p,
      nth_error (events (added st (snd (run st)))) 5
      = Some (progress_updated p)
      /\ (p * 3 <= 200 < (p + 1) * 3)%Z.
Proof.
  cbv zeta.
  set (st := Bench.start "GPIB0::10::INSTR"
               ["Self Test"; "Reset Command"; "Nothing"]
               (Bench.answering
                  [Ret "0"; Ret "Agilent Technologies,34401A,0,1.0"])).
  assert (H1 : tests_to_run (self st) <> []) by (cbn; discriminate).
  assert (H2 : link_opens st) by reflexivity.
  assert (H3 : (1 <= 2 <= List.length (tests_to_run (self st)))%nat)
    by (cbn; lia).
  split; [exact H1 |]. split; [exact H2 |]. split; [exact H3 |].
  destruct (progress_is_floor st 2 H1 H2 H3) as (p & Hp & _ & Hb).
  exists p. split; [exact Hp | exact Hb].
Defined.

(** C3 with the nearest integer in place of the integer below does not
    hold: with three tests in the queue the progress signal after the
    second test carries 66, and the nearest integer to 200/3 is 67. *)
Lemma progress_not_rounded :
  let st :=
    Bench.start "GPIB0::10::INSTR" ["Self Test"; "Reset Command"; "Nothing"]
      (Bench.answering [Ret "0"; Ret "Agilent Technologies,34401A,0,1.0"]) in
  link_opens st
  /\ List.length (tests_to_run (self st)) = 3%nat
  /\ nth_error (events (added st (snd (run st)))) (3 * (2 - 1) + 2)
     = Some (progress_updated 66)
  /\ ~ nearest_percent 2 3 66
  /\ nearest_percent 2 3 67.
Proof.
  cbv zeta. split; [reflexivity |]. split; [reflexivity |].
  split; [vm_compute; reflexivity |].
  unfold nearest_percent. split; cbn; lia.
Qed.

(** C4.  In a run with a queue whose link does not open (the resource
    manager or [open_resource] raises [e]), no test is started and nothing
    is asked of the instrument; the only signal is one result named
    "Connection" with [passed = False] and the message "Failed to connect: "
    followed by [e]; and the run returns through [_cleanup], whose calls
    are the last ones made: [close] on every handle the worker holds by
    then.  When the resource manager itself failed these are the handles
    the worker held before the run; when [open_resource] failed the
    resource manager just created is one of them, so it is closed (first
    the link handle of an earlier run, if the worker held one, and the
    resource manager only if that [close] returned). *)
Theorem open_failure_reported {P : Platform} (st : State) (e : string) :
  tests_to_run (self st) <> [] ->
  open_fails st e ->
  exists r ops closes held_rm,
    fst (run st) = Ret tt
    /\ events (added st (snd (run st))) = [test_completed r]
    /\ test_name r = "Connection" /\ passed r = false
    /\ message r = "Failed to connect: " +++ e
    /\ existsb is_exchange (link_ops (added st (snd (run st)))) = false
    /\ added st (snd (run st))
       = map Link ops ++ [Emit (test_completed r)] ++ map Link closes
    /\ (ops = [LResourceManager (Raise e)] /\ held_rm = rm (self st)
        \/ ops = [LResourceManager (Ret tt);
                  LOpen (resource_address (self st)) (Raise e)]
           /\ held_rm = true)
    /\ cleanup_of (instrument (self st)) held_rm closes.
Proof.
  intros Hq Hfail.
  destruct (run_open_fails_cleanup _execute_test st e Hq Hfail)
    as (r & st' & ops & closes & held_rm & Hrun & (Hn & Hp & Hm) & Hlog
        & Hops & Hcl).
  exists r, ops, closes, held_rm. unfold run. rewrite Hrun. cbn [fst snd].
  rewrite (added_app st st' _ Hlog).
  repeat split; auto.
  - rewrite !events_app, !events_map_link. reflexivity.
  - rewrite !link_ops_app, !link_ops_map_link. cbn.
    rewrite existsb_app.
    assert (Hx : existsb is_exchange ops = false)
      by (destruct Hops as [[-> _] | [-> _]]; reflexivity).
    assert (Hy : existsb is_exchange closes = false).
    { unfold cleanup_of in Hcl.
      destruct (instrument (self st)), held_rm.
      - destruct Hcl as [rc [[_ ->] | [_ [rr ->]]]]; reflexivity.
      - destruct Hcl as [rc ->]; reflexivity.
      - destruct Hcl as [rr ->]; reflexivity.
      - subst closes; reflexivity. }
    rewrite Hx, Hy. reflexivity.
Qed.

Lemma open_failure_reported_witness :
  let e := "VI_ERROR_RSRC_NFOUND: Insufficient location information" in
  let st :=
    Bench.start "GPIB0::10::INSTR" ["Connection Test"; "Identification"]
      (Bench.unreachable e) in
  tests_to_run (self st) <> []
  /\ open_fails st e
  /\ exists r rr,
      added st (snd (run st))
      = [Link (LResourceManager (Ret tt));
         Link (LOpen "GPIB0::10::INSTR" (Raise e));
         Emit (test_completed r);
         Link (LRmClose rr)]
      /\ passed r = false.
Proof.
  cbv zeta.
  set (e := "VI_ERROR_RSRC_NFOUND: Insufficient location information").
  set (st := Bench.start "GPIB0::10::INSTR"
               ["Connection Test"; "Identification"] (Bench.unreachable e)).
  assert (H1 : tests_to_run (self st) <> []) by (cbn; discriminate).
  assert (H2 : open_fails st e) by reflexivity.
  split; [exact H1 |]. split; [exact H2 |].
  destruct (open_failure_reported st e H1 H2)
    as (r & ops & closes & held_rm & _ & _ & _ & Hp & _ & _ & Hadd & Hops
        & Hcl).
  destruct Hops as [[Hops _] | [-> ->]].
  - exfalso. rewrite Hops in Hadd.
    assert (Hh : hd_error (added st (snd (run st)))
                 = Some (Link (LResourceManager (Ret tt))))
      by reflexivity.
    rewrite Hadd in Hh. discriminate Hh.
  - destruct Hcl as [rr ->].
    exists r, rr. split; [exact Hadd | exact Hp].
Defined.

(** The same run on the bench, action by action: the resource manager, the
    failed [open_resource], the result signal, and the resource manager
    closed by [_cleanup]. *)
Example open_failure_on_the_bench :
  link_ops
    (log (snd (run (Bench.start "GPIB0::10::INSTR" ["Connection Test"]
                      (Bench.unreachable "no device")))))
  = [LResourceManager (Ret tt);
     LOpen "GPIB0::10::INSTR" (Raise "no device");
     LRmClose (Ret tt)].
Proof. reflexivity. Qed.

(** C10.  [run] on an empty queue returns at once: the state after it is the
    state before it, so nothing was opened, emitted or cleaned up. *)
Theorem empty_queue_returns {P : Platform} (st : State) :
  tests_to_run (self st) = [] ->
  run st = (Ret tt, st).
Proof.
  intros Hq. unfold run, run_with. rewrite Hq. reflexivity.
Qed.

Lemma empty_queue_returns_witness :
  let st := Bench.start "GPIB0::10::INSTR" [] (Bench.answering []) in
  tests_to_run (self st) = []
  /\ run st = (Ret tt, st)
  /\ added st (snd (run st)) = [].
Proof.
  cbv zeta.
  set (st := Bench.start "GPIB0::10::INSTR" [] (Bench.answering [])).
  assert (H : tests_to_run (self st) = []) by reflexivity.
  split; [exact H |].
  rewrite (empty_queue_returns st H). split; reflexivity.
Defined.

Section Orderly.

Context {P : Platform}.

Lemma orderly_quiet A (m : M A) : quiet m -> orderly m.
Proof.
  intros H st. destruct (H st) as [Hs [ops Hl]]. split; [exact Hs |].
  now exists (map Link ops).
Qed.

Lemma orderly_ret A (a : A) : orderly (ret a).
Proof. apply orderly_quiet, quiet_ret. Qed.

Lemma orderly_seq A B (m : M A) (st : State) (k : outcome A -> M B) :
  orderly m -> (forall r, orderly (k r)) ->
  self (snd (k (fst (m st)) (snd (m st)))) = self st
  /\ exists acts,
      log (snd (k (fst (m st)) (snd (m st)))) = log st ++ acts.
Proof.
  intros Hm Hk.
  destruct (Hm st) as [Hs [a1 Hl]].
  destruct (Hk (fst (m st)) (snd (m st))) as [Hs' [a2 Hl']].
  split; [congruence |].
  exists (a1 ++ a2). rewrite Hl', Hl, app_assoc. reflexivity.
Qed.

Lemma orderly_bind A B (m : M A) (k : A -> M B) :
  orderly m -> (forall a, orderly (k a)) -> orderly (bind m k).
Proof.
  intros Hm Hk st.
  pose proof (orderly_seq A B m st
                (fun r => match r with Ret a => k a | Raise e => raise e end)
                Hm) as H.
  unfold bind. destruct (m st) as [[a | e] st']; cbn in *;
    apply H; intros [a' | e']; auto using orderly_quiet, quiet_raise.
Qed.

Lemma orderly_try_except A (m : M A) (h : string -> M A) :
  orderly m -> (forall e, orderly (h e)) -> orderly (try_except m h).
Proof.
  intros Hm Hh st.
  pose proof (orderly_seq A A m st
                (fun r => match r with Ret a => ret a | Raise e => h e end)
                Hm) as H.
  unfold try_except. destruct (m st) as [[a | e] st']; cbn in *;
    apply H; intros [a' | e']; auto using orderly_ret.
Qed.

Lemma orderly_for_in A S (xs : list A) (body : A -> S -> M (S * bool)) :
  (forall x s, orderly (body x s)) -> forall s, orderly (for_in xs body s).
Proof.
  intros Hb. induction xs as [| x rest IH]; intros s; cbn [for_in].
  - apply orderly_ret.
  - apply orderly_bind; [apply Hb |].
    intros [s' b]; cbn. destruct b; [apply orderly_ret | apply IH].
Qed.

Lemma orderly_emit ev : orderly (emit ev).
Proof. intros st. split; [reflexivity | now exists [Emit ev]]. Qed.

Lemma orderly_int_truediv a b : orderly (int_truediv a b).
Proof.
  unfold int_truediv. destruct (b =? 0)%Z;
    apply orderly_quiet; [apply quiet_raise | apply quiet_ret].
Qed.

Lemma orderly_run_step execute total_tests name i :
  (forall n, orderly (execute n)) ->
  orderly (run_step execute total_tests name i).
Proof.
  intros He. unfold run_step.
  repeat first
    [ apply orderly_bind | apply orderly_emit | apply He
    | apply orderly_int_truediv | apply orderly_ret
    | apply orderly_quiet, quiet_sleep | progress intros ].
Qed.

Lemma orderly_run_handler e : orderly (run_handler e).
Proof.
  intros st. destruct (run_handler_shape e st) as (r & st' & E & _ & Hs & Hl).
  rewrite E. split; [exact Hs | eauto].
Qed.

(** The [try] block of [run] with its [except] clause always returns. *)
Lemma run_protected_returns execute st :
  fst (try_except (run_body execute) run_handler st) = Ret tt.
Proof.
  unfold try_except.
  destruct (run_body execute st) as [[[] | e] st1]; [reflexivity |].
  destruct (run_handler_shape e st1) as (r & st' & E & _).
  now rewrite E.
Qed.

(** Once the link has opened, the worker holds the handle and the resource
    manager when the [try] block is over, however it ended, as long as the
    executor is orderly. *)
Lemma run_protected_holds_link execute st :
  (forall n, orderly (execute n)) ->
  link_opens st ->
  let st1 := snd (try_except (run_body execute) run_handler st) in
  instrument (self st1) = true /\ rm (self st1) = true
  /\ exists acts,
      log st1
      = log st
        ++ map Link [LResourceManager (Ret tt);
                     LOpen (resource_address (self st)) (Ret tt);
                     LSetTimeout 5000 (Ret tt)]
        ++ acts.
Proof.
  intros He Hopen.
  destruct (connect_ok st Hopen) as (s0 & Hc & Hi & Hr & Ht & Hl0).
  set (rest :=
         try_except
           (fun s =>
              (for_in (tests_to_run (self s))
                 (run_step execute (List.length (tests_to_run (self s))))
                 0%nat ;;; ret tt) s)
           run_handler).
  assert (Hrest : forall s, self (snd (rest s)) = self s
                            /\ exists acts, log (snd (rest s)) = log s ++ acts).
  { intros s. subst rest.
    apply (orderly_try_except unit
             (for_in (tests_to_run (self s))
                (run_step execute (List.length (tests_to_run (self s))))
                0%nat ;;; ret tt)
             run_handler).
    - apply orderly_bind; [| intros; apply orderly_ret].
      apply orderly_for_in. intros. apply orderly_run_step. exact He.
    - apply orderly_run_handler. }
  assert (Heq : try_except (run_body execute) run_handler st = rest s0).
  { subst rest. unfold try_except. rewrite run_body_connect.
    unfold bind at 1. rewrite Hc. reflexivity. }
  cbv zeta. rewrite Heq.
  destruct (Hrest s0) as [Hs [acts Hl]].
  rewrite Hs. split; [exact Hi |]. split; [exact Hr |].
  exists acts. rewrite Hl, Hl0. norm_app. reflexivity.
Qed.

End Orderly.

(** C8.  A name outside the ten known ones gives, from [_execute_test], a
    result with that name, [passed = False] and the message "Unknown test",
    without a call on the link and without a fault; and a run whose queue
    holds such a name goes on: it returns, its signals are those of the
    whole queue, the tests after the unknown one included, and the result
    at the place of the unknown name is that failure. *)
Theorem unknown_test_reported {P : Platform} (name : string) :
  ~ In name known_tests ->
  (forall st,
      exists r st',
        _execute_test name st = (Ret r, st')
        /\ test_name r = name /\ passed r = false
        /\ message r = "Unknown test"
        /\ self st' = self st /\ log st' = log st)
  /\ (forall st before rest,
         tests_to_run (self st) = before ++ name :: rest ->
         link_opens st ->
         let queue := before ++ name :: rest in
         exists results r,
           fst (run st) = Ret tt
           /\ List.length results = List.length queue
           /\ events (added st (snd (run st)))
              = run_events (List.length queue) 0 queue results
           /\ nth_error results (List.length before) = Some r
           /\ test_name r = name /\ passed r = false
           /\ message r = "Unknown test").
Proof.
  intros Hn.
  assert (Hexec : forall st,
             exists r st',
               _execute_test name st = (Ret r, st')
               /\ test_name r = name /\ passed r = false
               /\ message r = "Unknown test"
               /\ self st' = self st /\ log st' = log st).
  { intros st.
    destruct (execute_test_with_cases own_checks name st)
      as (r & st' & E & H).
    rewrite (resolve_unknown own_checks name Hn) in H.
    exists r, st'. split; [exact E | exact H]. }
  split; [exact Hexec |].
  intros st before rest Hq Hopen queue.
  assert (Hne : tests_to_run (self st) <> [])
    by (rewrite Hq; destruct before; discriminate).
  destruct (run_signals st Hne Hopen) as (results & Hret & Hlen & Hall & Hev).
  rewrite Hq in Hlen, Hall, Hev. fold queue in Hlen, Hall, Hev.
  assert (Hat : nth_error queue (List.length before) = Some name).
  { subst queue. rewrite nth_error_app2, Nat.sub_diag by lia. reflexivity. }
  destruct (Forall2_nth _ _ _ _ _ Hall _ _ Hat) as (r & Hr & s1 & s2 & Hex).
  destruct (Hexec s1) as (r' & s2' & E' & Hn' & Hp' & Hm' & _).
  rewrite Hex in E'. injection E' as <- _.
  exists results, r. auto 8.
Qed.

Lemma unknown_test_reported_witness :
  let st :=
    Bench.start "GPIB0::10::INSTR" ["Calibration"; "Connection Test"]
      (Bench.answering [Ret "Agilent Technologies,34401A,0,1.0"]) in
  ~ In "Calibration" known_tests
  /\ tests_to_run (self st) = [] ++ "Calibration" :: ["Connection Test"]
  /\ link_opens st
  /\ exists results,
      events (added st (snd (run st)))
      = run_events 2 0 ["Calibration"; "Connection Test"] results.
Proof.
  cbv zeta.
  set (st := Bench.start "GPIB0::10::INSTR" ["Calibration"; "Connection Test"]
               (Bench.answering [Ret "Agilent Technologies,34401A,0,1.0"])).
  assert (H1 : ~ In "Calibration" known_tests)
    by (cbn; intros H; repeat (destruct H as [H | H]; [discriminate |]);
        exact H).
  assert (H2 : tests_to_run (self st)
               = [] ++ "Calibration" :: ["Connection Test"]) by reflexivity.
  assert (H3 : link_opens st) by reflexivity.
  split; [exact H1 |]. split; [exact H2 |]. split; [exact H3 |].
  destruct (@unknown_test_reported Bench.platform "Calibration" H1)
    as [_ Hrun].
  destruct (Hrun st [] ["Connection Test"] H2 H3)
    as (results & _ & _ & _ & Hev & _).
  exists results. exact Hev.
Defined.

(** The run of that queue on the bench: the unknown name is reported and the
    test after it runs. *)
Example unknown_test_on_the_bench :
  map (fun ev => match ev with
                 | test_started n => ("started", n)
                 | test_completed r => (if passed r then "passed" else "failed",
                                        test_name r)
                 | progress_updated p => ("progress", Py.str_of_Z p)
                 end)
    (events (log (snd (run (Bench.start "GPIB0::10::INSTR"
                              ["Calibration"; "Connection Test"]
                              (Bench.answering
                                 [Ret "Agilent Technologies,34401A,0,1.0"]))))))
  = [("started", "Calibration"); ("failed", "Calibration"); ("progress", "50");
     ("started", "Connection Test"); ("passed", "Connection Test");
     ("progress", "100")].
Proof. reflexivity. Qed.

(** C9, as the code has it.  A run with a queue always returns, and however
    its [try] block ended (the queue done, the link not opened, a fault
    that escaped the executor) its last actions are those of [_cleanup]:
    [close] on the link handle when the worker holds one, then [close] on
    the resource manager when the worker holds one, but not after a
    [close] on the link handle that raised: the resource manager is then
    left open.  When the link had opened, and the executor is orderly, the
    worker does hold both handles at that point: the link that was opened
    is closed.  A worker stopped by [terminate] never reaches [_cleanup]
    and is not covered. *)
Theorem cleanup_on_every_exit {P : Platform}
    (execute : string -> M TestResult) (st : State) :
  tests_to_run (self st) <> [] ->
  exists st1 st2,
    try_except (run_body execute) run_handler st = (Ret tt, st1)
    /\ run_with execute st = (Ret tt, st2)
    /\ log st2 = log st1 ++ map Link (cleanup_calls st1)
    /\ forallb is_close (cleanup_calls st1) = true
    /\ (instrument (self st1) = true ->
        exists rc others, cleanup_calls st1 = LClose rc :: others)
    /\ cleanup_of (instrument (self st1)) (rm (self st1)) (cleanup_calls st1)
    /\ ((forall n, orderly (execute n)) ->
        link_opens st ->
        exists acts rc others,
          added st st2
          = map Link [LResourceManager (Ret tt);
                      LOpen (resource_address (self st)) (Ret tt);
                      LSetTimeout 5000 (Ret tt)]
            ++ acts ++ map Link (LClose rc :: others)
          /\ (others = [] /\ returned rc = false
              \/ exists rr, others = [LRmClose rr] /\ returned rc = true)).
Proof.
  intros Hq.
  destruct (run_with_cleanup execute st Hq)
    as (out & st1 & st2 & Hprot & Hrun & _ & Hlog).
  pose proof (run_protected_returns execute st) as Hret.
  rewrite Hprot in Hret. cbn in Hret. subst out.
  exists st1, st2.
  split; [exact Hprot |]. split; [exact Hrun |]. split; [exact Hlog |].
  split; [apply cleanup_calls_close |].
  split.
  - intros Hi. unfold cleanup_calls. rewrite Hi.
    destruct (visa_close (world st1)) as [rc w]. eauto.
  - split; [apply cleanup_calls_of |].
    intros He Hopen.
    pose proof (run_protected_holds_link execute st He Hopen) as H.
    cbv zeta in H. rewrite Hprot in H. cbn [snd] in H.
    destruct H as (Hi & Hr & acts & Hl1).
    destruct (cleanup_calls_held st1 Hi Hr) as [rc [[Hf Hc] | [rr [Ht Hc]]]].
    + exists acts, rc, []. split; [| left; auto].
      apply added_app. rewrite Hlog, Hl1, Hc. norm_app. reflexivity.
    + exists acts, rc, [LRmClose rr]. split; [| right; eauto].
      apply added_app. rewrite Hlog, Hl1, Hc. norm_app. reflexivity.
Qed.

Lemma cleanup_on_every_exit_witness :
  let st :=
    Bench.start "GPIB0::10::INSTR" ["Connection Test"]
      (Bench.answering [Raise "VI_ERROR_TMO"]) in
  tests_to_run (self st) <> []
  /\ link_opens st
  /\ exists st2 acts rc others,
      run_with _execute_test st = (Ret tt, st2)
      /\ added st st2
         = map Link [LResourceManager (Ret tt);
                     LOpen "GPIB0::10::INSTR" (Ret tt);
                     LSetTimeout 5000 (Ret tt)]
           ++ acts ++ map Link (LClose rc :: others).
Proof.
  cbv zeta.
  set (st := Bench.start "GPIB0::10::INSTR" ["Connection Test"]
               (Bench.answering [Raise "VI_ERROR_TMO"])).
  assert (H1 : tests_to_run (self st) <> []) by (cbn; discriminate).
  assert (H2 : link_opens st) by reflexivity.
  split; [exact H1 |]. split; [exact H2 |].
  destruct (cleanup_on_every_exit _execute_test st H1)
    as (st1 & st2 & _ & Hrun & _ & _ & _ & _ & Hclose).
  destruct (Hclose (fun n => orderly_quiet _ _ (quiet_execute_test n)) H2)
    as (acts & rc & others & Hadd & _).
  exists st2, acts, rc, others. split; [exact Hrun | exact Hadd].
Defined.

(** That run on the bench, call by call: the query of the test times out,
    the test fails, and [_cleanup] closes the link and the resource
    manager. *)
Example cleanup_on_the_bench :
  link_ops
    (log (snd (run (Bench.start "GPIB0::10::INSTR" ["Connection Test"]
                      (Bench.answering [Raise "VI_ERROR_TMO"])))))
  = [LResourceManager (Ret tt); LOpen "GPIB0::10::INSTR" (Ret tt);
     LSetTimeout 5000 (Ret tt); LQuery "*IDN?" (Raise "VI_ERROR_TMO");
     LClose (Ret tt); LRmClose (Ret tt)].
Proof. reflexivity. Qed.

(** C9 does not hold of a cancelled run.  The stop button terminates the
    worker thread; a worker stopped after five actions of a one-test run
    (while the test waits for its reply) has opened the link and has closed
    nothing, whereas the run left alone closes both handles. *)
Lemma terminated_run_leaves_link_open :
  let st :=
    Bench.start "GPIB0::10::INSTR" ["Connection Test"]
      (Bench.answering [Ret "Agilent Technologies,34401A,0,1.0"]) in
  run_terminated 5 st
  = [Link (LResourceManager (Ret tt));
     Link (LOpen "GPIB0::10::INSTR" (Ret tt));
     Link (LSetTimeout 5000 (Ret tt));
     Emit (test_started "Connection Test");
     Link (LQuery "*IDN?" (Ret "Agilent Technologies,34401A,0,1.0"))]
  /\ In (Link (LOpen "GPIB0::10::INSTR" (Ret tt))) (run_terminated 5 st)
  /\ existsb is_close (link_ops (run_terminated 5 st)) = false
  /\ existsb is_close (link_ops (added st (snd (run st)))) = true.
Proof.
  cbv zeta. split; [reflexivity |].
  split; [cbn; tauto |]. split; reflexivity.
Qed.

(* ===================================================================== *)
(** ** The error-status check *)
(* ===================================================================== *)

Section ErrorStatus.

Context {P : Platform}.

(** The loop over the error queue, with [n] turns left: it asks until a
    reply stops it or the turns are used up, and it collects the stripped
    replies it went past. *)
Lemma error_queue_loop n :
  forall i errors st,
    instrument (self st) = true ->
    exists (raws : list string) (final : list (outcome string)) st',
      for_in (seq i n) error_queue_step errors st
      = (Ret (errors ++ map Py.strip raws), st')
      /\ self st' = self st
      /\ log st'
         = log st
           ++ map Link (map (LQuery "SYST:ERR?") (map Ret raws ++ final))
      /\ forallb (fun s => negb (no_error (Py.strip s))) raws = true
      /\ (final = [] /\ List.length raws = n
          \/ exists x, final = [x] /\ stops x = true
                       /\ (List.length raws < n)%nat).
Proof.
  induction n as [| n IH]; intros i errors st Hi.
  - exists [], [], st. cbn. rewrite !app_nil_r. auto 8.
  - cbn [seq for_in]. unfold bind at 1.
    unfold error_queue_step at 1, try_except, bind, query. rewrite Hi.
    destruct (visa_query "SYST:ERR?" (world st)) as [[s | e] w] eqn:Eq;
      cbn [fst snd].
    + destruct (no_error (Py.strip s)) eqn:En; cbn [ret fst snd].
      * exists [], [Ret s]. eexists. cbn. rewrite app_nil_r.
        repeat split. right. exists (Ret s). cbn. rewrite En.
        repeat split. lia.
      * set (st1 := record (Link (LQuery "SYST:ERR?" (Ret s))) w st).
        destruct (IH (S i) (errors ++ [Py.strip s]) st1 Hi)
          as (raws & final & st' & Hloop & Hs & Hl & Hall & Hfin).
        exists (s :: raws), final, st'. rewrite Hloop.
        split; [cbn; rewrite <- app_assoc; reflexivity |].
        split; [exact Hs |].
        split; [rewrite Hl; cbn; norm_app; reflexivity |].
        split; [cbn; rewrite En; exact Hall |].
        destruct Hfin as [[-> Hlen] | (x & -> & Hx & Hlen)].
        -- left. cbn. auto.
        -- right. exists x. cbn. repeat split; auto. lia.
    + exists [], [Raise e]. eexists. cbn. rewrite app_nil_r.
      repeat split. right. exists (Raise e). repeat split. lia.
Qed.

(** The check, once the clear-status write is accepted. *)
Lemma error_status_shape st :
  clear_status_accepted st ->
  exists (raws : list string) (final : list (outcome string)) r st',
    _test_error_status st = (Ret r, st')
    /\ log st'
       = log st
         ++ map Link (LSend "*CLS" (Ret tt)
                      :: map (LQuery "SYST:ERR?") (map Ret raws ++ final))
    /\ forallb (fun s => negb (no_error (Py.strip s))) raws = true
    /\ (final = [] /\ List.length raws = 10%nat
        \/ exists x, final = [x] /\ stops x = true
                     /\ (List.length raws < 10)%nat)
    /\ test_name r = "Error Status"
    /\ passed r = (List.length raws =? 0)%nat
    /\ message r
       = if (List.length raws =? 0)%nat then "No errors found"
         else "Errors: " +++ Py.join "; " (firstn 3 (map Py.strip raws)).
Proof.
  unfold clear_status_accepted, _test_error_status, bind, try_except.
  unfold now, send.
  destruct (time_time (world st)) as [t w0]; cbn [fst snd].
  destruct (instrument (self (set_world w0 st))) eqn:Hi; [| discriminate].
  destruct (visa_write "*CLS" (world (set_world w0 st))) as [[[] | e] w1];
    cbn [fst snd]; [intros _ | discriminate].
  set (st1 := record (Link (LSend "*CLS" (Ret tt))) w1 (set_world w0 st)).
  destruct (error_queue_loop 10 0 [] st1 Hi)
    as (raws & final & st2 & Hloop & Hs & Hl & Hall & Hfin).
  change (range 10) with (seq 0 10). rewrite Hloop. cbn [app].
  match goal with
  | |- context [make_result ?n ?ok ?msg ?start ?s] =>
      destruct (make_result_fields n ok msg start s)
        as (r & st' & E & Hn & Hp & Hm & Hs' & Hl')
  end.
  exists raws, final, r, st'. rewrite E.
  rewrite length_map in Hp, Hm.
  split; [reflexivity |].
  split; [rewrite Hl', Hl; cbn; norm_app; reflexivity |].
  auto 8.
Qed.

(** When the clear-status write raises, the check fails with the fault and
    asks nothing. *)
Lemma error_status_write_fault st e :
  fst (send "*CLS" (snd (now st))) = Raise e ->
  exists r st',
    _test_error_status st = (Ret r, st')
    /\ test_name r = "Error Status" /\ passed r = false
    /\ message r = "Failed: " +++ e
    /\ existsb (fun op => match op with LQuery _ _ => true | _ => false end)
         (link_ops (added st st')) = false.
Proof.
  unfold _test_error_status, bind, try_except.
  unfold now, send.
  destruct (time_time (world st)) as [t w0]; cbn [fst snd].
  destruct (instrument (self (set_world w0 st))) eqn:Hi.
  - destruct (visa_write "*CLS" (world (set_world w0 st))) as [[[] | e'] w1];
      cbn [fst snd]; [discriminate | intros [= ->]].
    match goal with
    | |- context [make_result ?n ?ok ?msg ?start ?s] =>
        destruct (make_result_fields n ok msg start s)
          as (r & st' & E & Hn & Hp & Hm & Hs' & Hl')
    end.
    exists r, st'. rewrite E. repeat split; auto.
    rewrite (added_app st st' [Link (LSend "*CLS" (Raise e))]); [reflexivity |].
    rewrite Hl'. reflexivity.
  - cbn [fst snd]. intros [= <-].
    match goal with
    | |- context [make_result ?n ?ok ?msg ?start ?s] =>
        destruct (make_result_fields n ok msg start s)
          as (r & st' & E & Hn & Hp & Hm & Hs' & Hl')
    end.
    exists r, st'. rewrite E. repeat split; auto.
    rewrite (added_app st st' []); [reflexivity |].
    rewrite Hl'. cbn. now rewrite app_nil_r.
Qed.

(** The calls of the check whose clear-status write raises: that write
    when the worker holds a link handle, and nothing else. *)
Lemma error_status_write_fault_calls st e :
  fst (send "*CLS" (snd (now st))) = Raise e ->
  exists r st',
    _test_error_status st = (Ret r, st')
    /\ test_name r = "Error Status" /\ passed r = false
    /\ message r = "Failed: " +++ e
    /\ link_ops (added st st')
       = (if instrument (self st) then [LSend "*CLS" (Raise e)] else []).
Proof.
  unfold _test_error_status, bind, try_except.
  unfold now, send.
  destruct (time_time (world st)) as [t w0]; cbn [fst snd].
  change (instrument (self (set_world w0 st))) with (instrument (self st)).
  destruct (instrument (self st)) eqn:Hi.
  - destruct (visa_write "*CLS" (world (set_world w0 st))) as [[[] | e'] w1];
      cbn [fst snd]; [discriminate | intros [= ->]].
    match goal with
    | |- context [make_result ?n ?ok ?msg ?start ?s] =>
        destruct (make_result_fields n ok msg start s)
          as (r & st' & E & Hn & Hp & Hm & Hs' & Hl')
    end.
    exists r, st'. rewrite E. repeat split; auto.
    rewrite (added_app st st' [Link (LSend "*CLS" (Raise e))]); [reflexivity |].
    rewrite Hl'. reflexivity.
  - cbn [fst snd]. intros [= <-].
    match goal with
    | |- context [make_result ?n ?ok ?msg ?start ?s] =>
        destruct (make_result_fields n ok msg start s)
          as (r & st' & E & Hn & Hp & Hm & Hs' & Hl')
    end.
    exists r, st'. rewrite E. repeat split; auto.
    rewrite (added_app st st' []); [reflexivity |].
    rewrite Hl'. cbn. now rewrite app_nil_r.
Qed.

End ErrorStatus.

(** C5, as the code has it.  Whatever the instrument answers, the
    error-status check returns one result, and it starts with the
    clear-status write "*CLS" (a worker without a link handle fails on
    that statement before any call).  When that write raises [e], the check
    asks nothing of the error queue and fails with "Failed: " followed by
    [e], although it has collected no error.  When the write returns, the
    check makes at most 10 queries "SYST:ERR?": the replies [raws], none of
    which (stripped) starts with "0," or "+0,", followed by the reply that
    stopped it (such a "no error" response, or a fault) or, with no such
    reply, by nothing after 10 queries; it passes exactly when [raws] is
    empty, and when it fails its message lists the first 3 of the stripped
    [raws], joined by "; ". *)
Theorem error_status_drains_queue {P : Platform} (st : State) :
  exists (sent : outcome unit) r st',
    _test_error_status st = (Ret r, st')
    /\ test_name r = "Error Status"
    /\ match sent with
       | Raise e =>
           link_ops (added st st')
           = (if instrument (self st) then [LSend "*CLS" (Raise e)] else [])
           /\ passed r = false
           /\ message r = "Failed: " +++ e
       | Ret _ =>
           exists (raws : list string) (final : list (outcome string)),
             link_ops (added st st')
             = LSend "*CLS" (Ret tt)
               :: map (LQuery "SYST:ERR?") (map Ret raws ++ final)
             /\ (List.length (map Ret raws ++ final) <= 10)%nat
             /\ forallb (fun s => negb (no_error (Py.strip s))) raws = true
             /\ (final = [] /\ List.length raws = 10%nat
                 \/ exists x, final = [x] /\ stops x = true)
             /\ (passed r = true <-> raws = [])
             /\ (passed r = true -> message r = "No errors found")
             /\ (passed r = false ->
                 message r
                 = "Errors: "
                   +++ Py.join "; " (firstn 3 (map Py.strip raws)))
       end.
Proof.
  destruct (fst (send "*CLS" (snd (now st)))) as [[] | e] eqn:Hsend.
  - destruct (error_status_shape st Hsend)
      as (raws & final & r & st' & E & Hl & Hall & Hfin & Hn & Hp & Hm).
    exists (Ret tt), r, st'.
    split; [exact E |]. split; [exact Hn |].
    exists raws, final.
    split; [rewrite (added_app st st' _ Hl); apply link_ops_map_link |].
    split.
    { rewrite length_app, length_map.
      destruct Hfin as [[-> ->] | (x & -> & _ & Hlt)]; cbn; lia. }
    split; [exact Hall |].
    split.
    { destruct Hfin as [? | (x & ? & ? & _)];
        [left; assumption | right; eauto]. }
    rewrite Hp, Hm.
    destruct raws as [| s raws]; cbn [List.length Nat.eqb].
    + repeat split; auto; discriminate.
    + repeat split; auto; discriminate.
  - destruct (error_status_write_fault_calls st e Hsend)
      as (r & st' & E & Hn & Hp & Hm & Hl).
    exists (Raise e), r, st'. auto.
Qed.

(** C5 as it is worded does not hold when the clear-status write raises:
    on a bench whose link refuses the write (and whose error queue is
    empty), the check asks nothing, so it has collected no error, and yet
    it fails. *)
Lemma clear_status_fault_fails_check :
  let b :=
    {| Bench.rm_reply := Ret tt; Bench.open_reply := Ret tt;
       Bench.timeout_reply := Ret tt;
       Bench.query_replies := [Ret "+0,No error"];
       Bench.send_replies := [Raise "VI_ERROR_TMO"];
       Bench.close_reply := Ret tt; Bench.rm_close_reply := Ret tt;
       Bench.clock := 0 |} in
  let out := _test_error_status (Bench.connected b) in
  link_ops (log (snd out)) = [LSend "*CLS" (Raise "VI_ERROR_TMO")]
  /\ exists r,
      fst out = Ret r
      /\ passed r = false
      /\ message r = "Failed: VI_ERROR_TMO".
Proof.
  cbv zeta. split; [reflexivity |].
  eexists. split; [vm_compute; reflexivity |]. split; reflexivity.
Qed.

(** The two cases of the design document, and a queue that never empties,
    on the bench. *)
Example error_status_no_error :
  let out :=
    _test_error_status (Bench.connected (Bench.answering [Ret "+0,No error"])) in
  fst out
  = Ret (@mkTestResult Bench.platform "Error Status" true "No errors found"
           1%nat 1%nat)
  /\ link_ops (log (snd out))
     = [LSend "*CLS" (Ret tt); LQuery "SYST:ERR?" (Ret "+0,No error")].
Proof. split; reflexivity. Qed.

Example error_status_queue_never_empties :
  let out :=
    _test_error_status
      (Bench.connected (Bench.answering (repeat (Ret "-100,Command error") 20))) in
  fst out
  = Ret (@mkTestResult Bench.platform "Error Status" false
           "Errors: -100,Command error; -100,Command error; -100,Command error"
           10%nat 10%nat)
  /\ link_ops (log (snd out))
     = LSend "*CLS" (Ret tt)
       :: repeat (LQuery "SYST:ERR?" (Ret "-100,Command error")) 10.
Proof. split; reflexivity. Qed.

Example error_status_query_fault :
  let out :=
    _test_error_status
      (Bench.connected
         (Bench.answering [Ret "-100,Command error"; Raise "VI_ERROR_TMO";
                           Ret "+0,No error"])) in
  fst out
  = Ret (@mkTestResult Bench.platform "Error Status" false
           "Errors: -100,Command error" 2%nat 2%nat)
  /\ link_ops (log (snd out))
     = [LSend "*CLS" (Ret tt);
        LQuery "SYST:ERR?" (Ret "-100,Command error");
        LQuery "SYST:ERR?" (Raise "VI_ERROR_TMO")].
Proof. split; reflexivity. Qed.

(* ===================================================================== *)
(** ** The stability check and the compliance check *)
(* ===================================================================== *)

Section Stability.

Context {P : Platform}.

Lemma commands_index k :
  (k < 4)%nat -> index commands k = ret (nth k commands "").
Proof.
  intros Hk. unfold index.
  do 4 (destruct k as [| k]; [reflexivity |]). lia.
Qed.

Lemma count_cons A (f : A -> bool) x l :
  count f (x :: l) = ((if f x then 1 else 0) + count f l)%Z.
Proof. unfold count. cbn. destruct (f x); cbn [List.length]; lia. Qed.

Lemma count_bounds A (f : A -> bool) l :
  (0 <= count f l <= Z.of_nat (List.length l))%Z.
Proof.
  unfold count. pose proof (filter_length_le f l). lia.
Qed.

(** One turn of the stability loop: one query, with the command of its
    index, counted when its reply is there and not blank. *)
Lemma stability_step_shape i successful st :
  instrument (self st) = true ->
  exists reply st',
    stability_step i successful st
    = (Ret ((successful + (if answered reply then 1 else 0))%Z, false), st')
    /\ self st' = self st
    /\ log st' = log st ++ [Link (LQuery (nth (i mod 4) commands "") reply)].
Proof.
  intros Hi. unfold stability_step.
  change (List.length commands) with 4%nat.
  assert (Hk : (i mod 4 < 4)%nat) by (apply Nat.mod_upper_bound; lia).
  rewrite (commands_index _ Hk).
  generalize (nth (i mod 4) commands "") as cmd. intros cmd.
  unfold bind, try_except, ret, query, sleep. rewrite Hi.
  destruct (visa_query cmd (world st)) as [[s | e] w]; cbn [fst snd].
  - exists (Ret s). cbn [answered].
    destruct (Py.truthy (Py.strip s)); cbn [fst snd];
      rewrite ?Z.add_0_r; eexists; repeat split.
  - exists (Raise e). cbn [answered].
    rewrite Z.add_0_r. eexists; repeat split.
Qed.

Lemma stability_loop n :
  forall i successful st,
    instrument (self st) = true ->
    exists replies st',
      for_in (seq i n) stability_step successful st
      = (Ret (successful + count answered replies)%Z, st')
      /\ List.length replies = n
      /\ self st' = self st
      /\ log st' = log st ++ map Link (stability_queries i replies).
Proof.
  induction n as [| n IH]; intros i successful st Hi.
  - exists [], st. cbn. rewrite app_nil_r, Z.add_0_r. auto.
  - destruct (stability_step_shape i successful st Hi)
      as (reply & st1 & Hstep & Hs1 & Hl1).
    assert (Hi1 : instrument (self st1) = true) by congruence.
    destruct (IH (S i) (successful + (if answered reply then 1 else 0))%Z
                st1 Hi1) as (replies & st' & Hloop & Hlen & Hs & Hl).
    exists (reply :: replies), st'.
    cbn [seq for_in]. unfold bind at 1. rewrite Hstep. cbn [fst snd].
    rewrite Hloop, count_cons.
    split; [f_equal; f_equal; lia |].
    split; [cbn; congruence |].
    split; [congruence |].
    rewrite Hl, Hl1. unfold stability_queries. cbn. norm_app. reflexivity.
Qed.

Lemma stability_queries_nth replies :
  forall i k reply,
    nth_error replies k = Some reply ->
    nth_error (stability_queries i replies) k
    = Some (LQuery (nth ((i + k) mod 4) commands "") reply).
Proof.
  unfold stability_queries.
  induction replies as [| r replies IH]; intros i [| k] reply H;
    try discriminate.
  - injection H as ->. cbn. now rewrite Nat.add_0_r.
  - cbn [List.length seq combine map nth_error].
    rewrite (IH (S i) k reply H). do 4 f_equal. lia.
Qed.

Lemma stability_queries_length i replies :
  List.length (stability_queries i replies) = List.length replies.
Proof.
  unfold stability_queries.
  rewrite length_map, length_combine, length_seq. lia.
Qed.

Lemma stability_threshold (s : Z) :
  Qle_bool (9 # 10) (inject_Z s / inject_Z 10) = true <-> (9 <= s)%Z.
Proof.
  unfold Qle_bool, Qdiv, Qmult, Qinv, inject_Z. cbn.
  rewrite Z.leb_le. lia.
Qed.

End Stability.

(** C6.  Whatever the instrument answers, the stability check, run with the
    link handle held, makes exactly 10 queries, query [i] with the command
    [commands[i mod 4]] of the rotation "*IDN?", "*STB?", "*ESR?", "*OPC?";
    a query is a success exactly when its reply came and is not blank once
    stripped (a fault is swallowed and is no success); and the check passes
    exactly when successes / 10 >= 0.9, that is with 9 successes or more. *)
Theorem stability_ten_queries {P : Platform} (st : State) :
  instrument (self st) = true ->
  exists (replies : list (outcome string)) r st',
    _test_communication_stability st = (Ret r, st')
    /\ List.length replies = 10%nat
    /\ link_ops (added st st') = stability_queries 0 replies
    /\ List.length (link_ops (added st st')) = 10%nat
    /\ (forall i reply,
           nth_error replies i = Some reply ->
           nth_error (link_ops (added st st')) i
           = Some (LQuery (nth (i mod 4) commands "") reply))
    /\ test_name r = "Communication Stability"
    /\ passed r
       = Qle_bool (9 # 10) (inject_Z (count answered replies) / inject_Z 10)
    /\ (passed r = true <-> (9 <= count answered replies)%Z).
Proof.
  intros Hi.
  unfold _test_communication_stability, bind at 1, try_except.
  unfold now at 1.
  destruct (time_time (world st)) as [t w0]; cbn [fst snd].
  set (st0 := set_world w0 st).
  assert (Hi0 : instrument (self st0) = true) by exact Hi.
  destruct (stability_loop 10 0 0%Z st0 Hi0)
    as (replies & st1 & Hloop & Hlen & Hs & Hl).
  unfold bind at 1. change (range 10) with (seq 0 10). rewrite Hloop.
  rewrite Z.add_0_l.
  unfold bind at 1, truediv. cbn [Z.of_nat Pos.of_succ_nat Pos.succ Z.eqb ret].
  match goal with
  | |- context [make_result ?n ?ok ?msg ?start ?s] =>
      destruct (make_result_fields n ok msg start s)
        as (r & st' & E & Hn & Hp & Hm & Hs' & Hl')
  end.
  exists replies, r, st'. rewrite E.
  assert (Hadd : link_ops (added st st') = stability_queries 0 replies).
  { rewrite (added_app st st' (map Link (stability_queries 0 replies)));
      [apply link_ops_map_link |].
    rewrite Hl', Hl. reflexivity. }
  split; [reflexivity |]. split; [exact Hlen |]. split; [exact Hadd |].
  split; [rewrite Hadd, stability_queries_length; exact Hlen |].
  split.
  { intros i reply Hr. rewrite Hadd.
    apply (stability_queries_nth replies 0 i reply Hr). }
  split; [exact Hn |].
  split; [exact Hp |].
  rewrite Hp. apply stability_threshold.
Qed.

Lemma stability_ten_queries_witness :
  let st :=
    Bench.connected
      (Bench.answering
         (repeat (Ret "1") 4 ++ [Raise "VI_ERROR_TMO"] ++ repeat (Ret "1") 5)) in
  instrument (self st) = true
  /\ exists r,
      fst (_test_communication_stability st) = Ret r
      /\ passed r = true
      /\ message r = "Success rate: 90.0% (9/10)".
Proof.
  cbv zeta.
  set (st := Bench.connected
               (Bench.answering
                  (repeat (Ret "1") 4 ++ [Raise "VI_ERROR_TMO"]
                   ++ repeat (Ret "1") 5))).
  assert (H : instrument (self st) = true) by reflexivity.
  split; [exact H |].
  destruct (stability_ten_queries st H) as (replies & r & st' & E & _).
  exists r. rewrite E. split; [reflexivity |].
  assert (Hr : Ret r = fst (_test_communication_stability st))
    by (rewrite E; reflexivity).
  vm_compute in Hr. injection Hr as ->. split; reflexivity.
Defined.

(** Nine replies and one fault pass; eight replies and two blank ones do
    not. *)
Example stability_boundary :
  let nine :=
    Bench.connected
      (Bench.answering
         (repeat (Ret "1") 4 ++ [Raise "VI_ERROR_TMO"] ++ repeat (Ret "1") 5)) in
  let eight :=
    Bench.connected
      (Bench.answering (repeat (Ret "1") 8 ++ [Ret " "; Ret ""])) in
  link_ops (log (snd (_test_communication_stability nine)))
  = [LQuery "*IDN?" (Ret "1"); LQuery "*STB?" (Ret "1");
     LQuery "*ESR?" (Ret "1"); LQuery "*OPC?" (Ret "1");
     LQuery "*IDN?" (Raise "VI_ERROR_TMO"); LQuery "*STB?" (Ret "1");
     LQuery "*ESR?" (Ret "1"); LQuery "*OPC?" (Ret "1");
     LQuery "*IDN?" (Ret "1"); LQuery "*STB?" (Ret "1")]
  /\ (exists r, fst (_test_communication_stability nine) = Ret r
                /\ passed r = true)
  /\ (exists r, fst (_test_communication_stability eight) = Ret r
                /\ passed r = false
                /\ message r = "Success rate: 80.0% (8/10)").
Proof.
  cbv zeta. split; [reflexivity |].
  split; eexists; (split; [vm_compute; reflexivity |]); repeat split.
Qed.

Section Compliance.

Context {P : Platform}.

(** One turn of the compliance loop: one call, a query or a write by the
    last character of the command, counted when it is compliant. *)
Lemma compliance_step_shape cmd counts st :
  instrument (self st) = true ->
  exists op st',
    compliance_step cmd counts st
    = (Ret ((fst counts + (if compliant_call op then 1 else 0),
             snd counts + 1)%Z, false), st')
    /\ expected_call cmd op
    /\ self st' = self st
    /\ log st' = log st ++ [Link op].
Proof.
  intros Hi. unfold compliance_step, expected_call.
  unfold bind, try_except, ret, query, send, sleep.
  destruct (Py.endswith cmd "?"); rewrite Hi.
  - destruct (visa_query cmd (world st)) as [[s | e] w]; cbn [fst snd].
    + exists (LQuery cmd (Ret s)). cbn [compliant_call].
      destruct (Py.truthy (Py.strip s)); cbn [fst snd];
        rewrite ?Z.add_0_r; eexists; repeat split; eauto.
    + exists (LQuery cmd (Raise e)). cbn [compliant_call].
      rewrite Z.add_0_r. eexists; repeat split; eauto.
  - destruct (visa_write cmd (world st)) as [[[] | e] w]; cbn [fst snd].
    + exists (LSend cmd (Ret tt)). cbn [compliant_call].
      eexists; repeat split; eauto.
    + exists (LSend cmd (Raise e)). cbn [compliant_call].
      rewrite Z.add_0_r. eexists; repeat split; eauto.
Qed.

Lemma compliance_loop cmds :
  forall counts st,
    instrument (self st) = true ->
    exists ops st',
      for_in cmds compliance_step counts st
      = (Ret (fst counts + count compliant_call ops,
              snd counts + Z.of_nat (List.length cmds))%Z, st')
      /\ Forall2 expected_call cmds ops
      /\ self st' = self st
      /\ log st' = log st ++ map Link ops.
Proof.
  induction cmds as [| cmd cmds IH]; intros counts st Hi.
  - exists [], st. cbn. rewrite app_nil_r, !Z.add_0_r.
    destruct counts. auto.
  - destruct (compliance_step_shape cmd counts st Hi)
      as (op & st1 & Hstep & Hop & Hs1 & Hl1).
    assert (Hi1 : instrument (self st1) = true) by congruence.
    destruct (IH (fst counts + (if compliant_call op then 1 else 0),
                  snd counts + 1)%Z st1 Hi1)
      as (ops & st' & Hloop & Hall & Hs & Hl).
    exists (op :: ops), st'.
    cbn [for_in]. unfold bind at 1. rewrite Hstep. cbn [fst snd] in *.
    rewrite Hloop, count_cons.
    split; [f_equal; f_equal; f_equal; cbn [List.length]; lia |].
    split; [constructor; assumption |].
    split; [congruence |].
    rewrite Hl, Hl1. cbn. norm_app. reflexivity.
Qed.

Lemma compliance_threshold (s : Z) :
  Qle_bool (8 # 10) (inject_Z s / inject_Z 6) = true <-> (5 <= s)%Z.
Proof.
  unfold Qle_bool, Qdiv, Qmult, Qinv, inject_Z. cbn.
  rewrite Z.leb_le. lia.
Qed.

End Compliance.

(** C7.  Whatever the instrument answers, the compliance check, run with
    the link handle held, makes one call for each of the 6 mandatory
    commands "*IDN?", "*RST", "*CLS", "*ESR?", "*STB?", "*OPC?", in this
    order: a query for a command that ends in "?", counted compliant
    exactly when its reply came and is not blank once stripped, and a write
    for the others, counted compliant whenever it returned, with no look at
    any reply; a fault of a call is swallowed and the call is not counted.
    The check passes exactly when compliant / 6 >= 0.8, that is with 5
    compliant commands or more. *)
Theorem compliance_six_commands {P : Platform} (st : State) :
  instrument (self st) = true ->
  exists (ops : list LinkOp) r st',
    _test_scpi_compliance st = (Ret r, st')
    /\ link_ops (added st st') = ops
    /\ Forall2 expected_call mandatory_commands ops
    /\ List.length ops = 6%nat
    /\ test_name r = "SCPI Compliance"
    /\ passed r
       = Qle_bool (8 # 10) (inject_Z (count compliant_call ops) / inject_Z 6)
    /\ (passed r = true <-> (5 <= count compliant_call ops)%Z).
Proof.
  intros Hi.
  unfold _test_scpi_compliance, bind at 1, try_except.
  unfold now at 1.
  destruct (time_time (world st)) as [t w0]; cbn [fst snd].
  set (st0 := set_world w0 st).
  assert (Hi0 : instrument (self st0) = true) by exact Hi.
  destruct (compliance_loop mandatory_commands (0, 0)%Z st0 Hi0)
    as (ops & st1 & Hloop & Hall & Hs & Hl).
  unfold bind at 1. rewrite Hloop. cbn [fst snd].
  rewrite Z.add_0_l.
  unfold bind at 1, truediv.
  cbn [mandatory_commands List.length Z.of_nat Pos.of_succ_nat Pos.succ
         Z.add Z.eqb ret].
  match goal with
  | |- context [make_result ?n ?ok ?msg ?start ?s] =>
      destruct (make_result_fields n ok msg start s)
        as (r & st' & E & Hn & Hp & Hm & Hs' & Hl')
  end.
  exists ops, r, st'. rewrite E.
  split; [reflexivity |].
  split.
  { rewrite (added_app st st' (map Link ops)); [apply link_ops_map_link |].
    rewrite Hl', Hl. reflexivity. }
  split; [exact Hall |].
  split; [apply Forall2_length in Hall; rewrite <- Hall; reflexivity |].
  split; [exact Hn |].
  split; [exact Hp |].
  rewrite Hp. apply compliance_threshold.
Qed.

Lemma compliance_six_commands_witness :
  let st :=
    Bench.connected
      (Bench.answering [Ret "Agilent Technologies,34401A,0,1.0"; Ret "";
                        Ret "0"; Ret "1"]) in
  instrument (self st) = true
  /\ exists r,
      fst (_test_scpi_compliance st) = Ret r
      /\ passed r = true
      /\ message r = "SCPI compliance: 83.3% (5/6)".
Proof.
  cbv zeta.
  set (st := Bench.connected
               (Bench.answering [Ret "Agilent Technologies,34401A,0,1.0";
                                 Ret ""; Ret "0"; Ret "1"])).
  assert (H : instrument (self st) = true) by reflexivity.
  split; [exact H |].
  destruct (compliance_six_commands st H) as (ops & r & st' & E & _).
  exists r. rewrite E. split; [reflexivity |].
  assert (Hr : Ret r = fst (_test_scpi_compliance st))
    by (rewrite E; reflexivity).
  vm_compute in Hr. injection Hr as ->. split; reflexivity.
Defined.

(** Five compliant commands of six pass, four do not; a write that raises
    is not counted. *)
Example compliance_boundary :
  let five :=
    Bench.connected
      (Bench.answering [Ret "Agilent Technologies,34401A,0,1.0"; Ret "";
                        Ret "0"; Ret "1"]) in
  let four :=
    Bench.connected
      {| Bench.rm_reply := Ret tt; Bench.open_reply := Ret tt;
         Bench.timeout_reply := Ret tt;
         Bench.query_replies := [Ret "Agilent Technologies,34401A,0,1.0";
                                 Ret ""; Ret "0"; Ret "1"];
         Bench.send_replies := [Raise "VI_ERROR_TMO"];
         Bench.close_reply := Ret tt; Bench.rm_close_reply := Ret tt;
         Bench.clock := 0 |} in
  link_ops (log (snd (_test_scpi_compliance five)))
  = [LQuery "*IDN?" (Ret "Agilent Technologies,34401A,0,1.0");
     LSend "*RST" (Ret tt); LSend "*CLS" (Ret tt); LQuery "*ESR?" (Ret "");
     LQuery "*STB?" (Ret "0"); LQuery "*OPC?" (Ret "1")]
  /\ (exists r, fst (_test_scpi_compliance five) = Ret r /\ passed r = true)
  /\ (exists r, fst (_test_scpi_compliance four) = Ret r
                /\ passed r = false
                /\ message r = "SCPI compliance: 66.7% (4/6)").
Proof.
  cbv zeta. split; [reflexivity |].
  split; eexists; (split; [vm_compute; reflexivity |]); repeat split.
Qed.

(* ===================================================================== *)
(** ** The other checks *)
(* ===================================================================== *)

Ltac result_fields :=
  cbv beta zeta;
  match goal with
  | |- context [make_result ?n ?ok ?msg ?start ?s] =>
      let r := fresh "r" in
      let st' := fresh "st'" in
      let E := fresh "E" in
      let Hn := fresh "Hn" in
      let Hp := fresh "Hp" in
      let Hm := fresh "Hm" in
      let Hs := fresh "Hs" in
      let Hl := fresh "Hl" in
      destruct (make_result_fields n ok msg start s)
        as (r & st' & E & Hn & Hp & Hm & Hs & Hl);
      exists r, st'; rewrite E
  end.

Ltac added_is acts Hl :=
  match goal with
  | |- context [added ?st ?st'] =>
      rewrite (added_app st st' acts);
      [| rewrite Hl; cbn; norm_app; rewrite ?app_nil_r; reflexivity]
  end.

Lemma length_truthy s : (0 <? String.length s)%nat = Py.truthy s.
Proof. destruct s; reflexivity. Qed.

(** X1.  With the link handle held, the connection check makes exactly one
    query, "*IDN?".  It passes exactly when a reply came that is not blank
    once stripped; the message then quotes the first 50 characters of the
    reply as received; a blank reply gives "No response" and a fault
    gives "Connection failed: " followed by its text. *)
Theorem connection_check_one_query {P : Platform} (st : State) :
  instrument (self st) = true ->
  exists reply r st',
    _test_connection st = (Ret r, st')
    /\ link_ops (added st st') = [LQuery "*IDN?" reply]
    /\ test_name r = "Connection Test"
    /\ passed r = answered reply
    /\ message r
       = match reply with
         | Ret s =>
             if answered reply
             then "Connected successfully. Response: " +++ Py.slice_to 50 s
                  +++ "..."
             else "No response"
         | Raise e => "Connection failed: " +++ e
         end.
Proof.
  intros Hi. unfold _test_connection, bind, try_except, now, query.
  destruct (time_time (world st)) as [t w0]. cbn [fst snd set_world self world].
  rewrite Hi.
  destruct (visa_query "*IDN?" w0) as [[s | e] w1]; cbn [fst snd].
  - exists (Ret s). result_fields. rewrite length_truthy in *.
    split; [reflexivity |].
    split; [added_is [Link (LQuery "*IDN?" (Ret s))] Hl; reflexivity |].
    cbn [answered]. auto.
  - exists (Raise e). result_fields.
    split; [reflexivity |].
    split; [added_is [Link (LQuery "*IDN?" (Raise e))] Hl; reflexivity |].
    cbn [answered]. auto.
Qed.

Lemma connection_check_one_query_witness :
  let st :=
    Bench.connected
      (Bench.answering
         [Ret "Agilent Technologies,34401A,MY41000001,10-5-2 and some more text"]) in
  instrument (self st) = true
  /\ exists r,
      fst (_test_connection st) = Ret r
      /\ passed r = true
      /\ message r
         = "Connected successfully. Response: Agilent Technologies,34401A,MY41000001,10-5-2 and ...".
Proof.
  cbv zeta.
  set (st := Bench.connected
               (Bench.answering
                  [Ret "Agilent Technologies,34401A,MY41000001,10-5-2 and some more text"])).
  assert (H : instrument (self st) = true) by reflexivity.
  split; [exact H |].
  destruct (connection_check_one_query st H) as (reply & r & st' & E & _).
  exists r. rewrite E. split; [reflexivity |].
  assert (Hr : Ret r = fst (_test_connection st)) by (rewrite E; reflexivity).
  vm_compute in Hr. injection Hr as ->. split; reflexivity.
Defined.

(** X2.  With the link handle held, the identification check makes exactly
    one query, "*IDN?", and passes exactly when a reply came that is not
    blank once stripped.  The brand search only adds a warning to the
    message: a reply that names none of "agilent", "keysight",
    "hewlett-packard", "hp" (in any case) still passes. *)
Theorem identification_check_warns_only {P : Platform} (st : State) :
  instrument (self st) = true ->
  exists reply r st',
    _test_identification st = (Ret r, st')
    /\ link_ops (added st st') = [LQuery "*IDN?" reply]
    /\ test_name r = "Identification"
    /\ passed r = answered reply
    /\ message r
       = match reply with
         | Ret s =>
             if is_agilent_keysight (Py.strip s)
             then "ID: " +++ Py.strip s
             else ("ID: " +++ Py.strip s)
                  +++ " (Warning: Not recognized as Agilent/Keysight device)"
         | Raise e => "Failed: " +++ e
         end.
Proof.
  intros Hi. unfold _test_identification, bind, try_except, now, query.
  destruct (time_time (world st)) as [t w0]. cbn [fst snd set_world self world].
  rewrite Hi.
  destruct (visa_query "*IDN?" w0) as [[s | e] w1]; cbn [fst snd].
  - exists (Ret s). result_fields. rewrite length_truthy in *.
    split; [reflexivity |].
    split; [added_is [Link (LQuery "*IDN?" (Ret s))] Hl; reflexivity |].
    cbn [answered]. fold (is_agilent_keysight (Py.strip s)) in Hm.
    destruct (is_agilent_keysight (Py.strip s)); auto.
  - exists (Raise e). result_fields.
    split; [reflexivity |].
    split; [added_is [Link (LQuery "*IDN?" (Raise e))] Hl; reflexivity |].
    cbn [answered]. auto.
Qed.

Lemma identification_check_warns_only_witness :
  let st :=
    Bench.connected (Bench.answering [Ret " Rohde&Schwarz,ZNB8,1311601044 "]) in
  instrument (self st) = true
  /\ exists r,
      fst (_test_identification st) = Ret r
      /\ passed r = true
      /\ message r
         = "ID: Rohde&Schwarz,ZNB8,1311601044 (Warning: Not recognized as Agilent/Keysight device)".
Proof.
  cbv zeta.
  set (st := Bench.connected
               (Bench.answering [Ret " Rohde&Schwarz,ZNB8,1311601044 "])).
  assert (H : instrument (self st) = true) by reflexivity.
  split; [exact H |].
  destruct (identification_check_warns_only st H) as (reply & r & st' & E & _).
  exists r. rewrite E. split; [reflexivity |].
  assert (Hr : Ret r = fst (_test_identification st))
    by (rewrite E; reflexivity).
  vm_compute in Hr. injection Hr as ->. split; reflexivity.
Defined.

(** The brand search does not mind the case, and "hp" anywhere in the reply
    is enough. *)
Example brand_search_examples :
  is_agilent_keysight "HEWLETT-PACKARD,34401A,0,11-5-2" = true
  /\ is_agilent_keysight "KEYSIGHT TECHNOLOGIES,N9020B" = true
  /\ is_agilent_keysight "Tektronix,TDS3014,0,CF:91.1CT FV:v3.41 chipset" = false
  /\ is_agilent_keysight "ACME,Graphplotter,1" = true
  /\ is_agilent_keysight "" = false.
Proof. repeat split; reflexivity. Qed.

Ltac link_call :=
  match goal with
  | |- context [visa_write ?c ?w] =>
      let e := fresh "e" in
      let w' := fresh "w" in
      destruct (visa_write c w) as [[[] | e] w']
  | |- context [visa_query ?c ?w] =>
      let s := fresh "s" in
      let e := fresh "e" in
      let w' := fresh "w" in
      destruct (visa_query c w) as [[s | e] w']
  end;
  cbn [fst snd set_world self world record].

Ltac open_check Hi :=
  unfold bind, try_except, now, query, send, sleep;
  match goal with
  | |- context [time_time ?w] =>
      let t := fresh "t" in
      let w0 := fresh "w" in
      destruct (time_time w) as [t w0]
  end;
  cbn [fst snd set_world self world record]; rewrite ?Hi.

(** X3.  With the link handle held, the self-test check writes "*TST" and,
    when that write returned, queries "*TST?" (after its pause); a write
    that raises ends the check at once.  It passes exactly when the reply,
    stripped, is the one character "0": "+0" or "0.0" fail. *)
Theorem self_test_check_needs_zero {P : Platform} (st : State) :
  instrument (self st) = true ->
  exists (sent : outcome unit) r st',
    _test_self_test st = (Ret r, st')
    /\ test_name r = "Self Test"
    /\ match sent with
       | Raise e =>
           link_ops (added st st') = [LSend "*TST" (Raise e)]
           /\ passed r = false /\ message r = "Failed: " +++ e
       | Ret _ =>
           exists reply,
             link_ops (added st st')
             = [LSend "*TST" (Ret tt); LQuery "*TST?" reply]
             /\ match reply with
                | Ret s =>
                    passed r = String.eqb (Py.strip s) "0"
                    /\ message r
                       = "Self-test result: " +++ Py.strip s +++ " ("
                         +++ (if String.eqb (Py.strip s) "0"
                              then "PASS" else "FAIL") +++ ")"
                | Raise e =>
                    passed r = false /\ message r = "Failed: " +++ e
                end
       end.
Proof.
  intros Hi. unfold _test_self_test. open_check Hi.
  link_call.
  - rewrite Hi. link_call.
    + exists (Ret tt). result_fields.
      split; [reflexivity |]. split; [assumption |].
      exists (Ret s). split; [| auto].
      added_is [Link (LSend "*TST" (Ret tt)); Link (LQuery "*TST?" (Ret s))]
        Hl.
      reflexivity.
    + exists (Ret tt). result_fields.
      split; [reflexivity |]. split; [assumption |].
      exists (Raise e). split; [| auto].
      added_is [Link (LSend "*TST" (Ret tt));
                Link (LQuery "*TST?" (Raise e))] Hl.
      reflexivity.
  - exists (Raise e). result_fields.
    split; [reflexivity |]. split; [assumption |].
    split; [| auto].
    added_is [Link (LSend "*TST" (Raise e))] Hl. reflexivity.
Qed.

Lemma self_test_check_needs_zero_witness :
  let st := Bench.connected (Bench.answering [Ret "+0"]) in
  instrument (self st) = true
  /\ exists r,
      fst (_test_self_test st) = Ret r
      /\ passed r = false
      /\ message r = "Self-test result: +0 (FAIL)".
Proof.
  cbv zeta.
  set (st := Bench.connected (Bench.answering [Ret "+0"])).
  assert (H : instrument (self st) = true) by reflexivity.
  split; [exact H |].
  destruct (self_test_check_needs_zero st H) as (sent & r & st' & E & _).
  exists r. rewrite E. split; [reflexivity |].
  assert (Hr : Ret r = fst (_test_self_test st)) by (rewrite E; reflexivity).
  vm_compute in Hr. injection Hr as ->. split; reflexivity.
Defined.

(** X4.  With the link handle held, the reset check writes "*RST" and, when
    that write returned, queries "*IDN?" (after its pause); a write that
    raises ends the check at once.  It passes exactly when a reply to the
    query came that is not blank once stripped, and its message says only
    "Reset successful" or "Reset failed". *)
Theorem reset_check_asks_identity {P : Platform} (st : State) :
  instrument (self st) = true ->
  exists (sent : outcome unit) r st',
    _test_reset st = (Ret r, st')
    /\ test_name r = "Reset Command"
    /\ match sent with
       | Raise e =>
           link_ops (added st st') = [LSend "*RST" (Raise e)]
           /\ passed r = false /\ message r = "Failed: " +++ e
       | Ret _ =>
           exists reply,
             link_ops (added st st')
             = [LSend "*RST" (Ret tt); LQuery "*IDN?" reply]
             /\ passed r = answered reply
             /\ message r
                = match reply with
                  | Ret s =>
                      if answered reply then "Reset successful"
                      else "Reset failed"
                  | Raise e => "Failed: " +++ e
                  end
       end.
Proof.
  intros Hi. unfold _test_reset. open_check Hi.
  link_call.
  - rewrite Hi. link_call.
    + exists (Ret tt). result_fields. rewrite length_truthy in *.
      split; [reflexivity |]. split; [assumption |].
      exists (Ret s). cbn [answered].
      split; [| split; [assumption |]].
      * added_is [Link (LSend "*RST" (Ret tt));
                  Link (LQuery "*IDN?" (Ret s))] Hl.
        reflexivity.
      * rewrite Hm. destruct (Py.truthy (Py.strip s)); reflexivity.
    + exists (Ret tt). result_fields.
      split; [reflexivity |]. split; [assumption |].
      exists (Raise e). split; [| auto].
      added_is [Link (LSend "*RST" (Ret tt));
                Link (LQuery "*IDN?" (Raise e))] Hl.
      reflexivity.
  - exists (Raise e). result_fields.
    split; [reflexivity |]. split; [assumption |].
    split; [| auto].
    added_is [Link (LSend "*RST" (Raise e))] Hl. reflexivity.
Qed.

Lemma reset_check_asks_identity_witness :
  let st := Bench.connected (Bench.answering [Ret "   "]) in
  instrument (self st) = true
  /\ exists r,
      fst (_test_reset st) = Ret r
      /\ passed r = false /\ message r = "Reset failed".
Proof.
  cbv zeta.
  set (st := Bench.connected (Bench.answering [Ret "   "])).
  assert (H : instrument (self st) = true) by reflexivity.
  split; [exact H |].
  destruct (reset_check_asks_identity st H) as (sent & r & st' & E & _).
  exists r. rewrite E. split; [reflexivity |].
  assert (Hr : Ret r = fst (_test_reset st)) by (rewrite E; reflexivity).
  vm_compute in Hr. injection Hr as ->. split; reflexivity.
Defined.

(** X5.  With the link handle held, the status-register check queries
    "*STB?" and then, when that query returned, "*ESR?".  It passes exactly
    when both queries returned, whatever they returned (blank replies
    included): the values are reported in the message, not judged. *)
Theorem status_registers_check_judges_nothing {P : Platform} (st : State) :
  instrument (self st) = true ->
  exists (first : outcome string) r st',
    _test_status_registers st = (Ret r, st')
    /\ test_name r = "Status Registers"
    /\ match first with
       | Raise e =>
           link_ops (added st st') = [LQuery "*STB?" (Raise e)]
           /\ passed r = false /\ message r = "Failed: " +++ e
       | Ret stb =>
           exists second,
             link_ops (added st st')
             = [LQuery "*STB?" (Ret stb); LQuery "*ESR?" second]
             /\ passed r = returned second
             /\ message r
                = match second with
                  | Ret esr =>
                      "STB: " +++ Py.strip stb +++ ", ESR: " +++ Py.strip esr
                  | Raise e => "Failed: " +++ e
                  end
       end.
Proof.
  intros Hi. unfold _test_status_registers. open_check Hi.
  link_call.
  - rewrite Hi. link_call.
    + exists (Ret s). result_fields.
      split; [reflexivity |]. split; [assumption |].
      exists (Ret s0). split; [| auto].
      added_is [Link (LQuery "*STB?" (Ret s)); Link (LQuery "*ESR?" (Ret s0))]
        Hl.
      reflexivity.
    + exists (Ret s). result_fields.
      split; [reflexivity |]. split; [assumption |].
      exists (Raise e). split; [| auto].
      added_is [Link (LQuery "*STB?" (Ret s));
                Link (LQuery "*ESR?" (Raise e))] Hl.
      reflexivity.
  - exists (Raise e). result_fields.
    split; [reflexivity |]. split; [assumption |].
    split; [| auto].
    added_is [Link (LQuery "*STB?" (Raise e))] Hl. reflexivity.
Qed.

Lemma status_registers_check_judges_nothing_witness :
  let st := Bench.connected (Bench.answering [Ret ""; Ret " 255 "]) in
  instrument (self st) = true
  /\ exists r,
      fst (_test_status_registers st) = Ret r
      /\ passed r = true /\ message r = "STB: , ESR: 255".
Proof.
  cbv zeta.
  set (st := Bench.connected (Bench.answering [Ret ""; Ret " 255 "])).
  assert (H : instrument (self st) = true) by reflexivity.
  split; [exact H |].
  destruct (status_registers_check_judges_nothing st H)
    as (first & r & st' & E & _).
  exists r. rewrite E. split; [reflexivity |].
  assert (Hr : Ret r = fst (_test_status_registers st))
    by (rewrite E; reflexivity).
  vm_compute in Hr. injection Hr as ->. split; reflexivity.
Defined.

(** X6.  With the link handle held, the operation-complete check writes
    "*OPC" and, when that write returned, queries "*OPC?" at once; a write
    that raises ends the check.  It passes exactly when the reply,
    stripped, is the one character "1". *)
Theorem operation_complete_check_needs_one {P : Platform} (st : State) :
  instrument (self st) = true ->
  exists (sent : outcome unit) r st',
    _test_operation_complete st = (Ret r, st')
    /\ test_name r = "Operation Complete"
    /\ match sent with
       | Raise e =>
           link_ops (added st st') = [LSend "*OPC" (Raise e)]
           /\ passed r = false /\ message r = "Failed: " +++ e
       | Ret _ =>
           exists reply,
             link_ops (added st st')
             = [LSend "*OPC" (Ret tt); LQuery "*OPC?" reply]
             /\ match reply with
                | Ret s =>
                    passed r = String.eqb (Py.strip s) "1"
                    /\ message r = "OPC result: " +++ Py.strip s
                | Raise e =>
                    passed r = false /\ message r = "Failed: " +++ e
                end
       end.
Proof.
  intros Hi. unfold _test_operation_complete. open_check Hi.
  link_call.
  - rewrite Hi. link_call.
    + exists (Ret tt). result_fields.
      split; [reflexivity |]. split; [assumption |].
      exists (Ret s). split; [| auto].
      added_is [Link (LSend "*OPC" (Ret tt)); Link (LQuery "*OPC?" (Ret s))]
        Hl.
      reflexivity.
    + exists (Ret tt). result_fields.
      split; [reflexivity |]. split; [assumption |].
      exists (Raise e). split; [| auto].
      added_is [Link (LSend "*OPC" (Ret tt));
                Link (LQuery "*OPC?" (Raise e))] Hl.
      reflexivity.
  - exists (Raise e). result_fields.
    split; [reflexivity |]. split; [assumption |].
    split; [| auto].
    added_is [Link (LSend "*OPC" (Raise e))] Hl. reflexivity.
Qed.

Lemma operation_complete_check_needs_one_witness :
  let st := Bench.connected (Bench.answering [Ret "+1"]) in
  instrument (self st) = true
  /\ exists r,
      fst (_test_operation_complete st) = Ret r
      /\ passed r = false /\ message r = "OPC result: +1".
Proof.
  cbv zeta.
  set (st := Bench.connected (Bench.answering [Ret "+1"])).
  assert (H : instrument (self st) = true) by reflexivity.
  split; [exact H |].
  destruct (operation_complete_check_needs_one st H)
    as (sent & r & st' & E & _).
  exists r. rewrite E. split; [reflexivity |].
  assert (Hr : Ret r = fst (_test_operation_complete st))
    by (rewrite E; reflexivity).
  vm_compute in Hr. injection Hr as ->. split; reflexivity.
Defined.

Section ResponseTime.

Context {P : Platform}.

(** One turn of the loop of the response-time check: one query, and one
    duration when it returned. *)
Lemma response_time_step_shape i times st :
  instrument (self st) = true ->
  (exists s d st',
      response_time_step i times st = (Ret (times ++ [d], false), st')
      /\ self st' = self st
      /\ log st' = log st ++ [Link (LQuery "*IDN?" (Ret s))]
      /\ forall raws diffs,
          timed_queries (world st') raws diffs ->
          timed_queries (world st) (s :: raws) (d :: diffs))
  \/ (exists e st',
         response_time_step i times st = (Raise e, st')
         /\ self st' = self st
         /\ log st' = log st ++ [Link (LQuery "*IDN?" (Raise e))]).
Proof.
  intros Hi. unfold response_time_step, bind, now, query, ret.
  destruct (time_time (world st)) as [t0 w0] eqn:E0.
  cbn [fst snd set_world self world record]. rewrite Hi.
  destruct (visa_query "*IDN?" w0) as [[s | e] w1] eqn:E1;
    cbn [fst snd set_world self world record].
  - destruct (time_time w1) as [t1 w2] eqn:E2.
    left. exists s, (float_sub t1 t0). eexists.
    split; [reflexivity |]. split; [reflexivity |]. split; [reflexivity |].
    cbn [world set_world record]. intros raws diffs Hrest.
    eapply timed_query; eauto.
  - right. exists e. eexists. repeat split.
Qed.

(** The loop of the response-time check with [n] turns left: it either
    makes [n] queries that all return and records one duration for each, or
    it stops at the first query that raises. *)
Lemma response_time_loop n :
  forall i times st,
    instrument (self st) = true ->
    (exists raws diffs st',
        for_in (seq i n) response_time_step times st
        = (Ret (times ++ diffs), st')
        /\ List.length raws = n /\ List.length diffs = n
        /\ timed_queries (world st) raws diffs
        /\ self st' = self st
        /\ log st'
           = log st ++ map Link (map (LQuery "*IDN?") (map Ret raws)))
    \/ (exists raws e st',
           for_in (seq i n) response_time_step times st = (Raise e, st')
           /\ (List.length raws < n)%nat
           /\ self st' = self st
           /\ log st'
              = log st
                ++ map Link (map (LQuery "*IDN?") (map Ret raws ++ [Raise e]))).
Proof.
  induction n as [| n IH]; intros i times st Hi.
  - left. exists [], [], st. cbn. rewrite !app_nil_r.
    repeat split; auto. apply timed_done.
  - cbn [seq for_in]. unfold bind.
    destruct (response_time_step_shape i times st Hi)
      as [(s & d & st1 & Hstep & Hs1 & Hl1 & Ht1)
         | (e & st1 & Hstep & Hs1 & Hl1)];
      rewrite Hstep; cbn [fst snd].
    + assert (Hi1 : instrument (self st1) = true) by congruence.
      destruct (IH (S i) (times ++ [d]) st1 Hi1)
        as [(raws & diffs & st' & Hloop & Hlr & Hld & Ht & Hs & Hl)
           | (raws & e & st' & Hloop & Hlr & Hs & Hl)];
        rewrite Hloop.
      * left. exists (s :: raws), (d :: diffs), st'.
        rewrite <- app_assoc. cbn [app List.length].
        split; [reflexivity |]. split; [congruence |].
        split; [congruence |]. split; [apply Ht1; exact Ht |].
        split; [congruence |].
        rewrite Hl, Hl1. cbn. norm_app. reflexivity.
      * right. exists (s :: raws), e, st'. cbn [List.length].
        split; [reflexivity |]. split; [lia |]. split; [congruence |].
        rewrite Hl, Hl1. cbn. norm_app. reflexivity.
    + right. exists [], e, st1. cbn.
      split; [reflexivity |]. split; [lia |]. split; [exact Hs1 | exact Hl1].
Qed.

End ResponseTime.

(** X7.  With the link handle held, the response-time check makes at most 5
    queries "*IDN?" and stops at the first one that raises, failing with
    "Failed: " and the fault.  When all 5 return, whatever they return (a
    reply is never looked at), it has recorded 5 durations, each the clock
    read right after a query less the clock read right before it; the
    verdict is that of the average of these durations against one second,
    and the message gives their average and their maximum. *)
Theorem response_time_check_five_queries {P : Platform} (st : State) :
  instrument (self st) = true ->
  exists (replies : list (outcome string)) r st',
    _test_response_time st = (Ret r, st')
    /\ link_ops (added st st') = map (LQuery "*IDN?") replies
    /\ (List.length replies <= 5)%nat
    /\ test_name r = "Response Time"
    /\ ((exists raws e,
            replies = map Ret raws ++ [Raise e]
            /\ passed r = false /\ message r = "Failed: " +++ e)
        \/ (exists raws response_times,
               replies = map Ret raws
               /\ List.length raws = 5%nat
               /\ List.length response_times = 5%nat
               /\ timed_queries (snd (time_time (world st))) raws
                    response_times
               /\ match float_mean response_times,
                        float_max response_times with
                  | Ret avg, Ret most =>
                      passed r = float_lt_one avg
                      /\ message r
                         = "Avg: " +++ float_fmt3 avg +++ "s, Max: "
                           +++ float_fmt3 most +++ "s"
                  | Raise e, _ | Ret _, Raise e =>
                      passed r = false /\ message r = "Failed: " +++ e
                  end)).
Proof.
  intros Hi. unfold _test_response_time, bind at 1, try_except.
  unfold now at 1.
  destruct (time_time (world st)) as [t w0]; cbn [fst snd].
  assert (Hi0 : instrument (self (set_world w0 st)) = true) by exact Hi.
  change (range 5) with (seq 0 5).
  unfold bind at 1.
  destruct (response_time_loop 5 0 [] (set_world w0 st) Hi0)
    as [(raws & diffs & st1 & Hloop & Hlr & Hld & Ht & Hs & Hl)
       | (raws & e & st1 & Hloop & Hlr & Hs & Hl)];
    rewrite Hloop; cbn [app].
  - exists (map Ret raws).
    unfold bind, lift.
    destruct (float_mean diffs) as [avg | e1] eqn:Emean.
    + destruct (float_max diffs) as [most | e2] eqn:Emax.
      * result_fields. split; [reflexivity |].
        split; [rewrite (added_app st st'
                           (map Link (map (LQuery "*IDN?") (map Ret raws))));
                [apply link_ops_map_link | rewrite Hl0, Hl; reflexivity] |].
        split; [rewrite length_map; lia |]. split; [assumption |].
        right. exists raws, diffs. rewrite Emean, Emax. auto 9.
      * result_fields. split; [reflexivity |].
        split; [rewrite (added_app st st'
                           (map Link (map (LQuery "*IDN?") (map Ret raws))));
                [apply link_ops_map_link | rewrite Hl0, Hl; reflexivity] |].
        split; [rewrite length_map; lia |]. split; [assumption |].
        right. exists raws, diffs. rewrite Emean, Emax. auto 9.
    + result_fields. split; [reflexivity |].
      split; [rewrite (added_app st st'
                         (map Link (map (LQuery "*IDN?") (map Ret raws))));
              [apply link_ops_map_link | rewrite Hl0, Hl; reflexivity] |].
      split; [rewrite length_map; lia |]. split; [assumption |].
      right. exists raws, diffs. rewrite Emean. auto 9.
  - exists (map Ret raws ++ [Raise e]).
    result_fields. split; [reflexivity |].
    split; [rewrite (added_app st st'
                       (map Link (map (LQuery "*IDN?")
                                    (map Ret raws ++ [Raise e]))));
            [apply link_ops_map_link | rewrite Hl0, Hl; reflexivity] |].
    split; [rewrite length_app, length_map; cbn; lia |].
    split; [assumption |].
    left. exists raws, e. auto.
Qed.

Lemma response_time_check_five_queries_witness :
  let st :=
    Bench.connected
      (Bench.answering [Ret ""; Ret ""; Raise "VI_ERROR_TMO"; Ret "late"]) in
  instrument (self st) = true
  /\ exists r,
      fst (_test_response_time st) = Ret r
      /\ passed r = false /\ message r = "Failed: VI_ERROR_TMO".
Proof.
  cbv zeta.
  set (st := Bench.connected
               (Bench.answering
                  [Ret ""; Ret ""; Raise "VI_ERROR_TMO"; Ret "late"])).
  assert (H : instrument (self st) = true) by reflexivity.
  split; [exact H |].
  destruct (response_time_check_five_queries st H)
    as (replies & r & st' & E & _).
  exists r. rewrite E. split; [reflexivity |].
  assert (Hr : Ret r = fst (_test_response_time st))
    by (rewrite E; reflexivity).
  vm_compute in Hr. injection Hr as ->. split; reflexivity.
Defined.

(** On the bench: the check stops at the query that times out, and five
    blank replies pass. *)
Example response_time_on_the_bench :
  link_ops
    (log (snd (_test_response_time
                 (Bench.connected
                    (Bench.answering
                       [Ret ""; Ret ""; Raise "VI_ERROR_TMO"; Ret "late"])))))
  = [LQuery "*IDN?" (Ret ""); LQuery "*IDN?" (Ret "");
     LQuery "*IDN?" (Raise "VI_ERROR_TMO")]
  /\ exists r,
      fst (_test_response_time
             (Bench.connected (Bench.answering (repeat (Ret "") 5))))
      = Ret r
      /\ passed r = true.
Proof.
  split; [reflexivity |].
  eexists. split; [vm_compute; reflexivity | reflexivity].
Qed.

(* ===================================================================== *)
(** ** What a test may do to the link *)
(* ===================================================================== *)

Section Within.

Context {P : Platform}.

Lemma within_weaken A (m : M A) k k' :
  within k m -> (k <= k')%nat -> within k' m.
Proof.
  intros H Hk st. destruct (H st) as (Hs & ops & Hl & Hx & Hn).
  split; [exact Hs |]. exists ops. repeat split; auto. lia.
Qed.

Lemma within_silent A (m : M A) :
  (forall st, self (snd (m st)) = self st /\ log (snd (m st)) = log st) ->
  within 0 m.
Proof.
  intros H st. destruct (H st) as [Hs Hl]. split; [exact Hs |].
  exists []. cbn. rewrite app_nil_r. auto.
Qed.

Lemma within_ret A (a : A) : within 0 (ret a).
Proof. apply within_silent. intros st. split; reflexivity. Qed.

Lemma within_raise A e : within 0 (@raise _ A e).
Proof. apply within_silent. intros st. split; reflexivity. Qed.

Lemma within_lift A (r : outcome A) : within 0 (lift r).
Proof. apply within_silent. intros st. split; reflexivity. Qed.

Lemma within_now : within 0 now.
Proof.
  apply within_silent. intros st. unfold now.
  destruct (time_time (world st)). split; reflexivity.
Qed.

Lemma within_today_now : within 0 today_now.
Proof.
  apply within_silent. intros st. unfold today_now.
  destruct (datetime_now (world st)). split; reflexivity.
Qed.

Lemma within_sleep d : within 0 (sleep d).
Proof. apply within_silent. intros st. split; reflexivity. Qed.

Lemma within_index A (l : list A) i : within 0 (index l i).
Proof.
  unfold index. destruct (nth_error l i); [apply within_ret | apply within_raise].
Qed.

Lemma within_truediv a b : within 0 (truediv a b).
Proof.
  unfold truediv. destruct (b =? 0)%Z; [apply within_raise | apply within_ret].
Qed.

Lemma within_seq A B (m : M A) (st : State) (k : outcome A -> M B) k1 k2 :
  within k1 m -> (forall r, within k2 (k r)) ->
  self (snd (k (fst (m st)) (snd (m st)))) = self st
  /\ exists ops,
      log (snd (k (fst (m st)) (snd (m st)))) = log st ++ map Link ops
      /\ forallb is_exchange ops = true
      /\ (List.length ops <= k1 + k2)%nat.
Proof.
  intros Hm Hk.
  destruct (Hm st) as (Hs & ops1 & Hl & Hx & Hn).
  destruct (Hk (fst (m st)) (snd (m st))) as (Hs' & ops2 & Hl' & Hx' & Hn').
  split; [congruence |].
  exists (ops1 ++ ops2).
  rewrite Hl', Hl, map_app, app_assoc, forallb_app, length_app, Hx, Hx'.
  repeat split. lia.
Qed.

Lemma within_bind A B (m : M A) (k : A -> M B) k1 k2 :
  within k1 m -> (forall a, within k2 (k a)) -> within (k1 + k2) (bind m k).
Proof.
  intros Hm Hk st.
  pose proof (within_seq A B m st
                (fun r => match r with Ret a => k a | Raise e => raise e end)
                k1 k2 Hm) as H.
  unfold bind. destruct (m st) as [[a | e] st']; cbn in *;
    apply H; intros [a' | e']; auto;
    (apply (within_weaken _ _ 0); [apply within_raise | lia]).
Qed.

Lemma within_try_except A (m : M A) (h : string -> M A) k1 k2 :
  within k1 m -> (forall e, within k2 (h e)) ->
  within (k1 + k2) (try_except m h).
Proof.
  intros Hm Hh st.
  pose proof (within_seq A A m st
                (fun r => match r with Ret a => ret a | Raise e => h e end)
                k1 k2 Hm) as H.
  unfold try_except. destruct (m st) as [[a | e] st']; cbn in *;
    apply H; intros [a' | e']; auto;
    (apply (within_weaken _ _ 0); [apply within_ret | lia]).
Qed.

Lemma within_for_in A S (xs : list A) (body : A -> S -> M (S * bool)) b :
  (forall x s, within b (body x s)) ->
  forall s, within (List.length xs * b) (for_in xs body s).
Proof.
  intros Hb. induction xs as [| x rest IH]; intros s; cbn [for_in List.length].
  - apply within_ret.
  - cbn [Nat.mul]. apply within_bind; [apply Hb |].
    intros [s' brk]; cbn. destruct brk; [| apply IH].
    apply (within_weaken _ _ 0); [apply within_ret | lia].
Qed.

Lemma within_if A (c : bool) (m1 m2 : M A) k1 k2 :
  within k1 m1 -> within k2 m2 ->
  within (Nat.max k1 k2) (if c then m1 else m2).
Proof.
  intros H1 H2.
  destruct c; [apply (within_weaken _ _ k1) | apply (within_weaken _ _ k2)];
    auto; lia.
Qed.

Lemma within_query cmd : within 1 (query cmd).
Proof.
  intros st. unfold query. destruct (instrument (self st)).
  - destruct (visa_query cmd (world st)) as [r w]; cbn.
    split; [reflexivity |]. exists [LQuery cmd r]. auto.
  - split; [reflexivity |]. exists []. cbn. rewrite app_nil_r. auto.
Qed.

Lemma within_send cmd : within 1 (send cmd).
Proof.
  intros st. unfold send. destruct (instrument (self st)).
  - destruct (visa_write cmd (world st)) as [r w]; cbn.
    split; [reflexivity |]. exists [LSend cmd r]. auto.
  - split; [reflexivity |]. exists []. cbn. rewrite app_nil_r. auto.
Qed.

Lemma within_make_result name ok msg start_time :
  within 0 (make_result name ok msg start_time).
Proof.
  apply within_silent. intros st.
  destruct (make_result_fields name ok msg start_time st)
    as (r & st' & E & _ & _ & _ & Hs & Hl).
  rewrite E. auto.
Qed.

End Within.

Ltac within_body :=
  repeat first
    [ progress intros
    | progress cbv zeta
    | match goal with
      | |- within _ (make_result _ _ _ _) => eapply within_make_result
      | |- within _ (ret _) => eapply within_ret
      | |- within _ (raise _) => eapply within_raise
      | |- within _ (lift _) => eapply within_lift
      | |- within _ (query _) => eapply within_query
      | |- within _ (send _) => eapply within_send
      | |- within _ now => eapply within_now
      | |- within _ today_now => eapply within_today_now
      | |- within _ (sleep _) => eapply within_sleep
      | |- within _ (index _ _) => eapply within_index
      | |- within _ (truediv _ _) => eapply within_truediv
      | |- within _ (bind _ _) => eapply within_bind
      | |- within _ (try_except _ _) => eapply within_try_except
      | |- within _ (for_in _ _ _) => eapply within_for_in
      | |- within _ (if _ then _ else _) => eapply within_if
      end ].

Ltac within_check :=
  eapply within_weaken; [within_body | cbn; lia].

Section ChecksWithin.

Context {P : Platform}.

Lemma within_test_connection : within 1 _test_connection.
Proof. unfold _test_connection. within_check. Qed.

Lemma within_test_identification : within 1 _test_identification.
Proof. unfold _test_identification. within_check. Qed.

Lemma within_test_self_test : within 2 _test_self_test.
Proof. unfold _test_self_test. within_check. Qed.

Lemma within_test_reset : within 2 _test_reset.
Proof. unfold _test_reset. within_check. Qed.

Lemma within_test_error_status : within 11 _test_error_status.
Proof. unfold _test_error_status, error_queue_step. within_check. Qed.

Lemma within_test_status_registers : within 2 _test_status_registers.
Proof. unfold _test_status_registers. within_check. Qed.

Lemma within_test_operation_complete : within 2 _test_operation_complete.
Proof. unfold _test_operation_complete. within_check. Qed.

Lemma within_test_response_time : within 5 _test_response_time.
Proof. unfold _test_response_time, response_time_step. within_check. Qed.

Lemma within_test_communication_stability :
  within 10 _test_communication_stability.
Proof. unfold _test_communication_stability, stability_step. within_check. Qed.

Lemma within_test_scpi_compliance : within 6 _test_scpi_compliance.
Proof. unfold _test_scpi_compliance, compliance_step. within_check. Qed.

Lemma within_own_checks name method :
  resolve own_checks name = Some method -> within 11 method.
Proof.
  unfold resolve.
  repeat match goal with
         | |- context [String.eqb name ?s] => destruct (String.eqb name s)
         end;
    intros [= <-]; cbn;
    [ apply (within_weaken _ _ 1); [apply within_test_connection | lia]
    | apply (within_weaken _ _ 1); [apply within_test_identification | lia]
    | apply (within_weaken _ _ 2); [apply within_test_self_test | lia]
    | apply (within_weaken _ _ 2); [apply within_test_reset | lia]
    | apply within_test_error_status
    | apply (within_weaken _ _ 2); [apply within_test_status_registers | lia]
    | apply (within_weaken _ _ 2);
      [apply within_test_operation_complete | lia]
    | apply (within_weaken _ _ 5); [apply within_test_response_time | lia]
    | apply (within_weaken _ _ 10);
      [apply within_test_communication_stability | lia]
    | apply (within_weaken _ _ 6); [apply within_test_scpi_compliance | lia] ].
Qed.

Lemma within_execute_test name : within 11 (_execute_test name).
Proof.
  unfold _execute_test, execute_test_with.
  apply (within_bind _ _ _ _ 0 11); [apply within_now | intros start_time].
  apply (within_try_except _ _ _ 11 0);
    [| intros; apply within_make_result].
  destruct (resolve own_checks name) as [method |] eqn:E.
  - eapply within_own_checks, E.
  - apply (within_weaken _ _ 0); [apply within_make_result | lia].
Qed.

End ChecksWithin.

(** X8.  Whatever the link does and whatever name it is given,
    [_execute_test] leaves the fields of the worker as they are and adds to
    the log nothing but queries and writes, at most 11 of them: it emits no
    signal and it never opens, closes or configures the link. *)
Theorem executor_only_exchanges {P : Platform} (name : string) (st : State) :
  self (snd (_execute_test name st)) = self st
  /\ exists ops,
      added st (snd (_execute_test name st)) = map Link ops
      /\ forallb is_exchange ops = true
      /\ (List.length ops <= 11)%nat.
Proof.
  destruct (within_execute_test name st) as (Hs & ops & Hl & Hx & Hn).
  split; [exact Hs |]. exists ops.
  split; [apply added_app; exact Hl | auto].
Qed.

(** The bound is reached: an error queue that never empties costs the
    write and ten queries. *)
Example executor_eleven_exchanges :
  List.length
    (log (snd (_execute_test "Error Status"
                 (Bench.connected
                    (Bench.answering (repeat (Ret "-100,Command error") 20))))))
  = 11%nat.
Proof. reflexivity. Qed.

(* ===================================================================== *)
(** ** More on the run *)
(* ===================================================================== *)

(** X9.  [_cleanup] never raises and leaves the fields of the worker as they
    are (the handles are not set back to [None]).  It calls [close] on the
    instrument exactly when the worker holds one, and then [close] on the
    resource manager when the worker holds one; but when the first call
    raises, the second is not made: the resource manager stays open. *)
Theorem cleanup_closes_what_is_held {P : Platform} (st : State) :
  exists st' ops,
    _cleanup st = (Ret tt, st')
    /\ self st' = self st
    /\ added st st' = map Link ops
    /\ (instrument (self st) = false ->
        (rm (self st) = false -> ops = [])
        /\ (rm (self st) = true -> exists rr, ops = [LRmClose rr]))
    /\ (instrument (self st) = true ->
        exists rc others,
          ops = LClose rc :: others
          /\ (returned rc = false -> others = [])
          /\ (rm (self st) = false -> others = [])
          /\ (returned rc = true -> rm (self st) = true ->
              exists rr, others = [LRmClose rr])).
Proof.
  destruct (cleanup_shape st) as (st' & Hc & Hs & Hl).
  exists st', (cleanup_calls st).
  split; [exact Hc |]. split; [exact Hs |].
  split; [apply added_app; exact Hl |].
  unfold cleanup_calls. split; intros Hi; rewrite Hi.
  - split; intros Hr; rewrite Hr; eauto.
  - destruct (visa_close (world st)) as [rc w]. eexists rc, _.
    split; [reflexivity |].
    destruct rc as [[] | e]; cbn [returned andb].
    + split; [discriminate |].
      split; intros Hr; [rewrite Hr; reflexivity |].
      intros Hr'. rewrite Hr'. eauto.
    + split; [reflexivity |]. split; [reflexivity |]. discriminate.
Qed.

(** A bench whose instrument refuses to be closed: the resource manager is
    left open. *)
Example cleanup_after_failed_close :
  link_ops
    (log (snd (_cleanup
                 (Bench.connected
                    {| Bench.rm_reply := Ret tt; Bench.open_reply := Ret tt;
                       Bench.timeout_reply := Ret tt;
                       Bench.query_replies := [];
                       Bench.send_replies := [];
                       Bench.close_reply := Raise "VI_ERROR_CLOSING_FAILED";
                       Bench.rm_close_reply := Ret tt;
                       Bench.clock := 0 |}))))
  = [LClose (Raise "VI_ERROR_CLOSING_FAILED")].
Proof. reflexivity. Qed.

Section TimeoutFault.

Context {P : Platform}.

Lemma connect_timeout_fails st e :
  timeout_fails st e ->
  exists s0,
    connect st = (Raise e, s0)
    /\ instrument (self s0) = true /\ rm (self s0) = true
    /\ log s0
       = log st
         ++ map Link [LResourceManager (Ret tt);
                      LOpen (resource_address (self st)) (Ret tt);
                      LSetTimeout 5000 (Raise e)].
Proof.
  unfold timeout_fails, connect, bind, new_resource_manager, open_resource,
    set_timeout.
  intros (st1 & H1 & H2). revert H1 H2.
  destruct (visa_ResourceManager (world st)) as [[[] | e1] w1]; cbn;
    [| discriminate].
  destruct (visa_open_resource (resource_address (self st)) w1)
    as [[[] | e2] w2]; cbn; [| discriminate].
  intros [= <-]. cbn.
  destruct (visa_set_timeout 5000 w2) as [[[] | e3] w3]; cbn;
    [discriminate |].
  intros [= ->]. eexists. repeat split. cbn. norm_app. reflexivity.
Qed.

End TimeoutFault.

(** X10.  When the link opens but setting its timeout raises [e], the run
    reports it as a connection failure (one result named "Connection", not
    passed, "Failed to connect: " with [e]), starts no test, and closes
    the link it had opened: after the three calls of the connection the
    only calls are those of [_cleanup], [close] on the instrument first. *)
Theorem timeout_fault_closes_link {P : Platform} (st : State) (e : string) :
  tests_to_run (self st) <> [] ->
  timeout_fails st e ->
  exists r rc others,
    fst (run st) = Ret tt
    /\ events (added st (snd (run st))) = [test_completed r]
    /\ test_name r = "Connection" /\ passed r = false
    /\ message r = "Failed to connect: " +++ e
    /\ link_ops (added st (snd (run st)))
       = [LResourceManager (Ret tt);
          LOpen (resource_address (self st)) (Ret tt);
          LSetTimeout 5000 (Raise e); LClose rc] ++ others
    /\ forallb is_close others = true.
Proof.
  intros Hq Hfail.
  destruct (run_with_cleanup _execute_test st Hq)
    as (out & st1 & st2 & Hprot & Hrun & _ & Hlog).
  destruct (connect_timeout_fails st e Hfail) as (s0 & Hc & Hi & Hr & Hl0).
  destruct (run_handler_shape e s0) as (r & s1 & Hh & Hcf & Hs1 & Hl1).
  unfold try_except in Hprot. rewrite run_body_connect in Hprot.
  unfold bind at 1 in Hprot. rewrite Hc, Hh in Hprot.
  injection Hprot as <- <-.
  assert (Hi1 : instrument (self s1) = true) by congruence.
  assert (Hr1 : rm (self s1) = true) by congruence.
  destruct Hcf as (Hn & Hp & Hm).
  unfold run. rewrite Hrun. cbn [fst snd].
  destruct (cleanup_calls_held s1 Hi1 Hr1) as [rc [[_ Hcl] | [rr [_ Hcl]]]];
    rewrite Hcl in Hlog;
    [exists r, rc, [] | exists r, rc, [LRmClose rr]];
    (split; [reflexivity |]);
    (erewrite added_app;
     [| rewrite Hlog, Hl1, Hl0; norm_app; reflexivity]);
    rewrite !events_app, !link_ops_app, !events_map_link, !link_ops_map_link;
    repeat split; auto.
Qed.

Lemma timeout_fault_closes_link_witness :
  let st :=
    Bench.start "ASRL1::INSTR" ["Connection Test"]
      {| Bench.rm_reply := Ret tt; Bench.open_reply := Ret tt;
         Bench.timeout_reply := Raise "VI_ERROR_NSUP_ATTR";
         Bench.query_replies := [Ret "Agilent Technologies,34401A,0,1.0"];
         Bench.send_replies := [];
         Bench.close_reply := Ret tt; Bench.rm_close_reply := Ret tt;
         Bench.clock := 0 |} in
  tests_to_run (self st) <> []
  /\ timeout_fails st "VI_ERROR_NSUP_ATTR"
  /\ exists rc others,
      link_ops (added st (snd (run st)))
      = [LResourceManager (Ret tt); LOpen "ASRL1::INSTR" (Ret tt);
         LSetTimeout 5000 (Raise "VI_ERROR_NSUP_ATTR"); LClose rc] ++ others.
Proof.
  cbv zeta.
  set (st := Bench.start "ASRL1::INSTR" ["Connection Test"] _).
  assert (H1 : tests_to_run (self st) <> []) by (cbn; discriminate).
  assert (H2 : timeout_fails st "VI_ERROR_NSUP_ATTR")
    by (eexists; split; reflexivity).
  split; [exact H1 |]. split; [exact H2 |].
  destruct (timeout_fault_closes_link st _ H1 H2)
    as (r & rc & others & _ & _ & _ & _ & _ & Hops & _).
  exists rc, others. exact Hops.
Defined.

Section Progress.

Context {P : Platform}.

Lemma progress_values_app l1 l2 :
  progress_values (l1 ++ l2) = progress_values l1 ++ progress_values l2.
Proof. apply flat_map_app. Qed.

Lemma progress_values_run_events total_tests queue :
  forall results i,
    List.length results = List.length queue ->
    progress_values (run_events total_tests i queue results)
    = map (fun k => ((Z.of_nat k + 1) * 100 / Z.of_nat total_tests)%Z)
        (seq i (List.length queue)).
Proof.
  induction queue as [| q queue IH]; intros [| r results] i Hlen;
    try discriminate; [reflexivity |].
  injection Hlen as Hlen. cbn. f_equal. apply IH. exact Hlen.
Qed.

End Progress.

(** X11.  In a run whose link opens, there is one progress signal for each
    test of the queue; the values never go down, they stay between 0 and
    100, and the last one is 100. *)
Theorem progress_climbs_to_hundred {P : Platform} (st : State) :
  tests_to_run (self st) <> [] ->
  link_opens st ->
  let n := List.length (tests_to_run (self st)) in
  let ps := progress_values (events (added st (snd (run st)))) in
  List.length ps = n
  /\ (forall k p, nth_error ps k = Some p -> (0 <= p <= 100)%Z)
  /\ (forall j k pj pk,
         (j <= k)%nat -> nth_error ps j = Some pj -> nth_error ps k = Some pk ->
         (pj <= pk)%Z)
  /\ nth_error ps (n - 1) = Some 100%Z.
Proof.
  intros Hq Hopen n ps.
  destruct (run_signals st Hq Hopen) as (results & _ & Hlen & _ & Hev).
  assert (Hps : ps = map (fun k => ((Z.of_nat k + 1) * 100 / Z.of_nat n)%Z)
                       (seq 0 n)).
  { subst ps. rewrite Hev.
    apply (progress_values_run_events n (tests_to_run (self st)) results 0
             Hlen). }
  assert (Hn : (0 < n)%nat)
    by (subst n; destruct (tests_to_run (self st)); cbn; [congruence | lia]).
  assert (Hat : forall k p, nth_error ps k = Some p ->
                            (k < n)%nat
                            /\ p = ((Z.of_nat k + 1) * 100 / Z.of_nat n)%Z).
  { intros k p Hk. rewrite Hps in Hk.
    rewrite nth_error_map in Hk.
    destruct (nth_error (seq 0 n) k) as [x |] eqn:Ex; [| discriminate].
    pose proof (nth_error_Some (seq 0 n) k) as Hb. rewrite Ex in Hb.
    rewrite length_seq in Hb.
    assert (Hlt : (k < n)%nat) by (apply Hb; discriminate).
    rewrite nth_error_seq in Ex.
    destruct (Nat.ltb_spec k n); [| lia].
    injection Ex as <-. cbn in Hk. injection Hk as <-. auto. }
  split; [rewrite Hps, length_map, length_seq; reflexivity |].
  split.
  { intros k p Hk. destruct (Hat k p Hk) as [Hlt ->].
    split.
    - apply Z.div_pos; lia.
    - apply Z.div_le_upper_bound; lia. }
  split.
  { intros j k pj pk Hjk Hj Hk.
    destruct (Hat j pj Hj) as [_ ->]. destruct (Hat k pk Hk) as [_ ->].
    apply Z.div_le_mono; lia. }
  rewrite Hps, nth_error_map, nth_error_seq.
  destruct (Nat.ltb_spec (n - 1) n); [| lia].
  cbn. f_equal.
  replace (Z.of_nat (n - 1) + 1)%Z with (Z.of_nat n) by lia.
  rewrite Z.mul_comm. apply Z.div_mul. lia.
Qed.

Lemma progress_climbs_to_hundred_witness :
  let st :=
    Bench.start "GPIB0::22::INSTR"
      ["Connection Test"; "Identification"; "Connection Test"]
      (Bench.answering [Ret "HP,3458A"; Ret "HP,3458A"; Ret "HP,3458A"]) in
  tests_to_run (self st) <> []
  /\ link_opens st
  /\ nth_error (progress_values (events (added st (snd (run st)))))
       (List.length (tests_to_run (self st)) - 1)
     = Some 100%Z.
Proof.
  cbv zeta.
  set (st := Bench.start "GPIB0::22::INSTR" _ _).
  assert (H1 : tests_to_run (self st) <> []) by (cbn; discriminate).
  assert (H2 : link_opens st) by reflexivity.
  split; [exact H1 |]. split; [exact H2 |].
  destruct (progress_climbs_to_hundred st H1 H2) as (_ & _ & _ & Hlast).
  exact Hlast.
Defined.

(** A queue of three on the bench. *)
Example progress_of_three :
  progress_values
    (events
       (log (snd (run (Bench.start "GPIB0::22::INSTR"
                         ["Connection Test"; "Identification";
                          "Connection Test"]
                         (Bench.answering
                            [Ret "HP,3458A"; Ret "HP,3458A";
                             Ret "HP,3458A"]))))))
  = [33; 66; 100]%Z.
Proof. reflexivity. Qed.

(* ===================================================================== *)
(** ** The installer *)
(* ===================================================================== *)

Section InstallerFacts.

Import Installer.

Variable h : Host.

(** The loop over the packages: it runs the pip commands of the first [k]
    packages and no other, and it goes past a package only when that one
    installed. *)
Lemma install_each_shape packages :
  forall c,
  exists k,
    (k <= List.length packages)%nat
    /\ commands (snd (install_each h packages c))
       = commands c ++ map (pip_install h) (firstn k packages)
    /\ writes (snd (install_each h packages c)) = writes c
    /\ match fst (install_each h packages c) with
       | Ret true => k = List.length packages /\ Forall (installs h) packages
       | Ret false =>
           exists package,
             nth_error packages (k - 1) = Some package /\ (0 < k)%nat
             /\ check_call h (pip_install h package) = CalledProcessError
             /\ Forall (installs h) (firstn (k - 1) packages)
       | Raise e =>
           exists package,
             nth_error packages (k - 1) = Some package /\ (0 < k)%nat
             /\ check_call h (pip_install h package) = CallFault e
             /\ Forall (installs h) (firstn (k - 1) packages)
       end.
Proof.
  induction packages as [| package rest IH]; intros c.
  - exists 0%nat. cbn. rewrite app_nil_r. auto.
  - cbn [install_each].
    destruct (check_call h (pip_install h package)) as [| | e] eqn:Ecall.
    + match goal with
      | |- context [install_each h rest ?c1] =>
          destruct (IH c1) as (k & Hk & Hc & Hw & Hout)
      end.
      exists (S k). cbn [List.length firstn map].
      split; [lia |].
      split; [rewrite Hc; cbn; norm_app; reflexivity |].
      split; [rewrite Hw; reflexivity |].
      destruct (fst (install_each h rest _)) as [[|] | e].
      * destruct Hout as [-> Hall]. split; [reflexivity |].
        constructor; assumption.
      * destruct Hout as (p & Hn & Hpos & Hf & Hall).
        exists p. replace (S k - 1)%nat with (S (k - 1)) by lia.
        cbn [nth_error firstn].
        split; [exact Hn |]. split; [lia |]. split; [exact Hf |].
        constructor; assumption.
      * destruct Hout as (p & Hn & Hpos & Hf & Hall).
        exists p. replace (S k - 1)%nat with (S (k - 1)) by lia.
        cbn [nth_error firstn].
        split; [exact Hn |]. split; [lia |]. split; [exact Hf |].
        constructor; assumption.
    + exists 1%nat. cbn. split; [lia |].
      split; [reflexivity |]. split; [reflexivity |].
      exists package.
      split; [reflexivity |]. split; [lia |]. split; [exact Ecall |].
      constructor.
    + exists 1%nat. cbn. split; [lia |].
      split; [reflexivity |]. split; [reflexivity |].
      exists package.
      split; [reflexivity |]. split; [lia |]. split; [exact Ecall |].
      constructor.
Qed.

Lemma install_each_true_iff packages c :
  fst (install_each h packages c) = Ret true <-> Forall (installs h) packages.
Proof.
  destruct (install_each_shape packages c) as (k & Hk & _ & _ & Hout).
  destruct (fst (install_each h packages c)) as [[|] | e].
  - tauto.
  - destruct Hout as (p & Hn & Hpos & Hf & _).
    split; [discriminate |]. intros Hall. exfalso.
    apply nth_error_In in Hn.
    rewrite Forall_forall in Hall. specialize (Hall p Hn).
    unfold Installer.installs in Hall. congruence.
  - destruct Hout as (p & Hn & Hpos & Hf & _).
    split; [discriminate |]. intros Hall. exfalso.
    apply nth_error_In in Hn.
    rewrite Forall_forall in Hall. specialize (Hall p Hn).
    unfold Installer.installs in Hall. congruence.
Qed.

End InstallerFacts.

(** X12.  [install_requirements] runs [pip install] for the four packages
    in order and stops at the first one that does not install: it has run
    the commands of the first [k] packages and of no other, and all the
    packages before the last of these installed; it returns [True] exactly
    when all four installed; it returns [False] when the last command it
    ran failed ([CalledProcessError]); any other fault of that command is
    not caught and leaves the function.  It writes no file. *)
Theorem install_stops_at_first_failure
    (h : Installer.Host) (c : Installer.Console) :
  let out := Installer.install_requirements h c in
  exists k,
    (k <= 4)%nat
    /\ Installer.commands (snd out)
       = Installer.commands c
         ++ map (Installer.pip_install h) (firstn k Installer.requirements)
    /\ Installer.writes (snd out) = Installer.writes c
    /\ (fst out = Ret true <-> Forall (Installer.installs h) Installer.requirements)
    /\ match fst out with
       | Ret true => k = 4%nat
       | Ret false =>
           exists package,
             nth_error Installer.requirements (k - 1) = Some package
             /\ Installer.check_call h (Installer.pip_install h package)
                = Installer.CalledProcessError
             /\ Forall (Installer.installs h)
                  (firstn (k - 1) Installer.requirements)
       | Raise e =>
           exists package,
             nth_error Installer.requirements (k - 1) = Some package
             /\ Installer.check_call h (Installer.pip_install h package)
                = Installer.CallFault e
             /\ Forall (Installer.installs h)
                  (firstn (k - 1) Installer.requirements)
       end.
Proof.
  cbv zeta. unfold Installer.install_requirements.
  set (c1 := Installer.print "Installing required packages..." c).
  destruct (install_each_shape h Installer.requirements c1)
    as (k & Hk & Hc & Hw & Hout).
  exists k. split; [exact Hk |]. split; [exact Hc |]. split; [exact Hw |].
  split; [apply install_each_true_iff |].
  destruct (fst (Installer.install_each h Installer.requirements c1))
    as [[|] | e].
  - apply Hout.
  - destruct Hout as (p & Hn & _ & Hf & Hall). eauto.
  - destruct Hout as (p & Hn & _ & Hf & Hall). eauto.
Qed.

(** A machine on which the third package fails: the fourth is not tried. *)
Example install_third_package_fails :
  let out :=
    Installer.install_requirements
      (Installer.machine (3, 11)%nat ["pyvisa>=1.11.0"] false)
      Installer.fresh in
  fst out = Ret false
  /\ Installer.commands (snd out)
     = [["/usr/bin/python3"; "-m"; "pip"; "install"; "qtpy>=2.0.0"];
        ["/usr/bin/python3"; "-m"; "pip"; "install"; "pyside6>=6.0.0"];
        ["/usr/bin/python3"; "-m"; "pip"; "install"; "pyvisa>=1.11.0"]].
Proof. split; reflexivity. Qed.

(** X13.  [main] returns 0 exactly when the Python version is at least 3.7
    (and its text has a first word) and all four packages install; whether
    the configuration file could be written plays no part.  When it returns
    0 it has tried to write the one file "test_config.py"; otherwise it has
    tried to write none; and on a Python older than 3.7 it returns 1
    without running any command. *)
Theorem main_exit_status (h : Installer.Host) (c : Installer.Console) :
  let out := Installer.main h c in
  (fst out = Ret 0%Z
   <-> Installer.too_old (Installer.version_info h) = false
       /\ (exists v, Installer.first_word (Installer.sys_version h) = Ret v)
       /\ Forall (Installer.installs h) Installer.requirements)
  /\ (fst out = Ret 0%Z ->
      Installer.writes (snd out)
      = Installer.writes c ++ [("test_config.py", Installer.config_content)])
  /\ (fst out <> Ret 0%Z -> Installer.writes (snd out) = Installer.writes c)
  /\ (Installer.too_old (Installer.version_info h) = true ->
      fst out = Ret 1%Z
      /\ Installer.commands (snd out) = Installer.commands c).
Proof.
  cbv zeta. unfold Installer.main.
  destruct (Installer.too_old (Installer.version_info h)) eqn:Eold.
  { cbn [fst snd].
    split; [split; [discriminate | intros (H & _); discriminate] |].
    split; [discriminate |]. split; [reflexivity |]. auto. }
  destruct (Installer.first_word (Installer.sys_version h)) as [v | e] eqn:Ew.
  2:{ cbn [fst snd].
      split; [split; [discriminate
                     | intros (_ & (v & Hv) & _); discriminate] |].
      split; [discriminate |]. split; [reflexivity | discriminate]. }
  unfold Installer.install_requirements.
  match goal with
  | |- context [Installer.install_each h Installer.requirements ?c1] =>
      pose proof (install_each_true_iff h Installer.requirements c1) as Hiff;
      destruct (install_each_shape h Installer.requirements c1)
        as (k & _ & _ & Hw & _);
      destruct (Installer.install_each h Installer.requirements c1)
        as [[[|] | e] c2]
  end; cbn [fst snd] in *.
  - assert (Hwr : Installer.writes (Installer.create_example_config h c2)
                  = Installer.writes c
                    ++ [("test_config.py", Installer.config_content)]).
    { unfold Installer.create_example_config.
      destruct (Installer.write_file h "test_config.py"
                  Installer.config_content); cbn; rewrite Hw; reflexivity. }
    split; [split; [intros _ | reflexivity] |].
    { split; [reflexivity |]. split; [eauto | tauto]. }
    split; [intros _; exact Hwr |].
    split; [intros H; contradiction H; reflexivity | discriminate].
  - split; [split; [discriminate |] |].
    { intros (_ & _ & Hall). apply Hiff in Hall. discriminate. }
    split; [discriminate |]. split; [intros _; exact Hw | discriminate].
  - split; [split; [discriminate |] |].
    { intros (_ & _ & Hall). apply Hiff in Hall. discriminate. }
    split; [discriminate |]. split; [intros _; exact Hw | discriminate].
Qed.

(** On a read-only directory the installer still reports success. *)
Example main_ignores_config_failure :
  let out :=
    Installer.main (Installer.machine (3, 11)%nat [] true) Installer.fresh in
  fst out = Ret 0%Z
  /\ nth_error (Installer.printed (snd out)) 12
     = Some (Installer.ballot_x
             +++ " Failed to create configuration file: [Errno 30] Read-only file system: 'test_config.py'")
  /\ nth_error (Installer.printed (snd out)) 14
     = Some "Installation completed successfully!".
Proof. repeat split. Qed.

Example main_on_old_python :
  Installer.main (Installer.machine (3, 6)%nat [] false) Installer.fresh
  = (Ret 1%Z,
     {| Installer.printed :=
          ["Agilent/Keysight Instrument Test Suite Installer";
           "==================================================";
           Installer.ballot_x +++ " Python 3.7 or higher required"];
        Installer.commands := [];
        Installer.writes := [] |}).
Proof. reflexivity. Qed.

(* ===================================================================== *)
(** ** The main window *)
(* ===================================================================== *)

Section Dict.

Context {V : Type}.

Lemma dict_get_set_same k (v : V) d : dict_get k (dict_set k v d) = Some v.
Proof.
  induction d as [| [k' v'] d IH]; cbn.
  - now rewrite String.eqb_refl.
  - destruct (String.eqb_spec k' k) as [-> | Hne]; cbn.
    + now rewrite String.eqb_refl.
    + destruct (String.eqb_spec k' k); [contradiction | exact IH].
Qed.

Lemma dict_get_set_other k k' (v : V) d :
  k <> k' -> dict_get k' (dict_set k v d) = dict_get k' d.
Proof.
  intros Hne. induction d as [| [k0 v0] d IH]; cbn.
  - destruct (String.eqb_spec k k'); [contradiction | reflexivity].
  - destruct (String.eqb_spec k0 k) as [-> | H0]; cbn.
    + destruct (String.eqb_spec k k'); [contradiction | reflexivity].
    + destruct (String.eqb_spec k0 k'); [reflexivity | exact IH].
Qed.

Lemma keys_dict_set k (v : V) d :
  keys (dict_set k v d)
  = if dict_has k d then keys d else keys d ++ [k].
Proof.
  unfold dict_has, keys. induction d as [| [k0 v0] d IH]; cbn.
  - reflexivity.
  - destruct (String.eqb_spec k0 k) as [-> | H0]; cbn; [reflexivity |].
    rewrite IH. destruct (dict_get k d); reflexivity.
Qed.

Lemma length_dict_set k (v : V) d :
  List.length (dict_set k v d)
  = (List.length d + (if dict_has k d then 0 else 1))%nat.
Proof.
  rewrite <- (length_map fst (dict_set k v d)), <- (length_map fst d).
  fold (keys (dict_set k v d)). fold (keys d). rewrite keys_dict_set.
  destruct (dict_has k d); [lia | rewrite length_app; reflexivity].
Qed.

Lemma dict_has_keys k (d : list (string * V)) :
  dict_has k d = existsb (fun k0 => String.eqb k0 k) (keys d).
Proof.
  unfold dict_has, keys. induction d as [| [k0 v0] d IH]; cbn.
  - reflexivity.
  - destruct (String.eqb k0 k); [reflexivity | exact IH].
Qed.

Lemma dict_has_in k (d : list (string * V)) :
  dict_has k d = true <-> In k (keys d).
Proof.
  rewrite dict_has_keys, existsb_exists. split.
  - intros (k0 & Hin & Heq). apply String.eqb_eq in Heq. now subst.
  - intros Hin. exists k. split; [exact Hin | apply String.eqb_refl].
Qed.

Lemma nodup_keys_dict_set k (v : V) d :
  NoDup (keys d) -> NoDup (keys (dict_set k v d)).
Proof.
  intros Hd. rewrite keys_dict_set.
  destruct (dict_has k d) eqn:Eh; [exact Hd |].
  apply NoDup_app; [exact Hd | repeat constructor; intros [] |].
  intros x Hx [<- | []].
  apply dict_has_in in Hx. congruence.
Qed.

End Dict.

Section WindowFacts.

Context {P : Platform}.

Variable strftime : datetime -> string -> string.

Lemma counts_add_up (d : list (string * TestResult)) :
  (Gui.count_passed d + Gui.count_failed d = List.length d)%nat.
Proof.
  unfold Gui.count_passed, Gui.count_failed, values.
  rewrite <- (length_map snd d).
  induction (map snd d) as [| r l IH]; cbn; [reflexivity |].
  destruct (passed r); cbn; lia.
Qed.

Lemma new_tester_fields address names :
  tests_to_run (Gui.new_tester address names) = names
  /\ resource_address (Gui.new_tester address names) = address
  /\ instrument (Gui.new_tester address names) = false
  /\ rm (Gui.new_tester address names) = false.
Proof.
  unfold Gui.new_tester.
  assert (H : forall t,
             tests_to_run (fold_left add_test names t)
             = tests_to_run t ++ names
             /\ resource_address (fold_left add_test names t)
                = resource_address t
             /\ instrument (fold_left add_test names t) = instrument t
             /\ rm (fold_left add_test names t) = rm t).
  { induction names as [| n names IH]; intros t; cbn.
    - rewrite app_nil_r. auto.
    - destruct (IH (add_test t n)) as (H1 & H2 & H3 & H4).
      rewrite H1, H2, H3, H4. cbn. rewrite <- app_assoc. auto. }
  apply H.
Qed.

(** What the three slots do to the results and to the buttons. *)
Lemma on_test_started_effect name g :
  Gui.test_results (Gui.on_test_started name g) = Gui.test_results g
  /\ Gui.test_buttons (Gui.on_test_started name g)
     = (if dict_has name (Gui.test_buttons g)
        then dict_set name (Gui._get_style "running") (Gui.test_buttons g)
        else Gui.test_buttons g)
  /\ Gui.progress_value (Gui.on_test_started name g) = Gui.progress_value g.
Proof.
  unfold Gui.on_test_started.
  destruct (dict_has name (Gui.test_buttons g)); repeat split.
Qed.

Lemma on_test_completed_effect r g :
  Gui.test_results (Gui.on_test_completed strftime r g)
  = dict_set (test_name r) r (Gui.test_results g)
  /\ Gui.test_buttons (Gui.on_test_completed strftime r g)
     = (if dict_has (test_name r) (Gui.test_buttons g)
        then dict_set (test_name r)
               (Gui._get_style (if passed r then "pass" else "fail"))
               (Gui.test_buttons g)
        else Gui.test_buttons g)
  /\ Gui.progress_value (Gui.on_test_completed strftime r g)
     = Gui.progress_value g.
Proof.
  unfold Gui.on_test_completed.
  destruct (dict_has (test_name r) (Gui.test_buttons g)); repeat split.
Qed.

End WindowFacts.

(** X14.  The window keeps results by test name: after [on_test_completed]
    the result stored under the name of the new result is that result, the
    results under other names are as before, and the number of results
    grows by one only when the name is new.  The three labels show the
    counts of the stored results, and passed and failed add up to the
    total. *)
Theorem results_are_kept_by_name {P : Platform}
    (strftime : datetime -> string -> string) (r : TestResult)
    (g : Gui.InstrumentTestGUI) :
  let g' := Gui.on_test_completed strftime r g in
  let d' := Gui.test_results g' in
  dict_get (test_name r) d' = Some r
  /\ (forall name, name <> test_name r ->
                   dict_get name d' = dict_get name (Gui.test_results g))
  /\ List.length d'
     = (List.length (Gui.test_results g)
        + (if dict_has (test_name r) (Gui.test_results g) then 0 else 1))%nat
  /\ Gui.passed_label g' = "Passed: " +++ Gui.str_of_nat (Gui.count_passed d')
  /\ Gui.failed_label g' = "Failed: " +++ Gui.str_of_nat (Gui.count_failed d')
  /\ Gui.total_label g' = "Total: " +++ Gui.str_of_nat (List.length d')
  /\ (Gui.count_passed d' + Gui.count_failed d' = List.length d')%nat.
Proof.
  cbv zeta.
  destruct (on_test_completed_effect strftime r g) as (Hr & _ & _).
  rewrite Hr.
  split; [apply dict_get_set_same |].
  split; [intros name Hne; apply dict_get_set_other; congruence |].
  split; [apply length_dict_set |].
  split; [unfold Gui.on_test_completed;
          destruct (dict_has (test_name r) (Gui.test_buttons g));
          reflexivity |].
  split; [unfold Gui.on_test_completed;
          destruct (dict_has (test_name r) (Gui.test_buttons g));
          reflexivity |].
  split; [unfold Gui.on_test_completed;
          destruct (dict_has (test_name r) (Gui.test_buttons g));
          reflexivity |].
  apply counts_add_up.
Qed.

(** The same test run twice on the bench window: one result, the last. *)
Example second_result_replaces_first :
  let r1 := @mkTestResult Bench.platform "Self Test" true "ok" 1%nat 1%nat in
  let r2 := @mkTestResult Bench.platform "Self Test" false "no" 2%nat 2%nat in
  let g :=
    Gui.on_test_completed (fun _ _ => "") r2
      (Gui.on_test_completed (fun _ _ => "") r1 Gui.__init__) in
  Gui.test_results g = [("Self Test", r2)]
  /\ Gui.passed_label g = "Passed: 0"
  /\ Gui.failed_label g = "Failed: 1"
  /\ Gui.total_label g = "Total: 1"
  /\ dict_get "Self Test" (Gui.test_buttons g) = Some (Gui._get_style "fail").
Proof. repeat split. Qed.

(** X15.  In a window with its ten buttons, "Run All Tests" with an address
    typed in and no run under way starts a worker for the stripped address
    whose queue is the names of the buttons in their order: ten distinct
    names, each of them one that [_execute_test] knows, and all the names
    it knows.  So a run of all tests meets no unknown test. *)
Theorem run_all_queues_known_tests {P : Platform} (g : Gui.InstrumentTestGUI) :
  keys (Gui.test_buttons g) = keys (Gui.test_buttons Gui.__init__) ->
  Py.truthy (Py.strip (Gui.address_text g)) = true ->
  Gui.tester_running g = false ->
  exists tester g',
    Gui.run_all_tests g = (Some tester, g')
    /\ resource_address tester = Py.strip (Gui.address_text g)
    /\ instrument tester = false
    /\ tests_to_run tester = keys (Gui.test_buttons g)
    /\ List.length (tests_to_run tester) = 10%nat
    /\ NoDup (tests_to_run tester)
    /\ (forall name, In name (tests_to_run tester) <-> In name known_tests)
    /\ Gui.tester_running g' = true
    /\ Gui.stop_enabled g' = true /\ Gui.run_all_enabled g' = false.
Proof.
  intros Hk Ha Hr. unfold Gui.run_all_tests. rewrite Ha, Hr. cbn [negb].
  eexists; eexists. split; [reflexivity |].
  match goal with
  | |- context [Gui.new_tester ?a ?names] =>
      destruct (new_tester_fields a names) as (H1 & H2 & H3 & _);
      rewrite H1, H2, H3
  end.
  assert (Hkeys : keys (Gui.test_buttons (Gui.all_idle g))
                  = keys (Gui.test_buttons g)).
  { unfold Gui.all_idle, keys. cbn. rewrite map_map. reflexivity. }
  rewrite Hkeys, Hk.
  split; [reflexivity |]. split; [reflexivity |]. split; [reflexivity |].
  split; [reflexivity |].
  split.
  { cbn. repeat constructor; cbn; intuition discriminate. }
  split; [| repeat split].
  intros name. cbn. intuition.
Qed.

Lemma run_all_queues_known_tests_witness :
  keys (Gui.test_buttons (@Gui.__init__ Bench.platform))
  = keys (Gui.test_buttons (@Gui.__init__ Bench.platform))
  /\ Py.truthy (Py.strip (Gui.address_text (@Gui.__init__ Bench.platform)))
     = true
  /\ Gui.tester_running (@Gui.__init__ Bench.platform) = false
  /\ exists tester g',
      Gui.run_all_tests (@Gui.__init__ Bench.platform) = (Some tester, g')
      /\ tests_to_run tester
         = ["Connection Test"; "Identification"; "Self Test"; "Error Status";
            "Status Registers"; "Operation Complete"; "Reset Command";
            "SCPI Compliance"; "Response Time"; "Communication Stability"].
Proof.
  assert (H1 : keys (Gui.test_buttons (@Gui.__init__ Bench.platform))
               = keys (Gui.test_buttons (@Gui.__init__ Bench.platform)))
    by reflexivity.
  assert (H2 : Py.truthy
                 (Py.strip (Gui.address_text (@Gui.__init__ Bench.platform)))
               = true) by reflexivity.
  assert (H3 : Gui.tester_running (@Gui.__init__ Bench.platform) = false)
    by reflexivity.
  split; [exact H1 |]. split; [exact H2 |]. split; [exact H3 |].
  destruct (run_all_queues_known_tests _ H1 H2 H3)
    as (tester & g' & E & _ & _ & Hq & _).
  exists tester, g'. split; [exact E |]. rewrite Hq. reflexivity.
Defined.

Section Sessions.

Context {P : Platform}.

Variable strftime : datetime -> string -> string.

Lemma button_names :
  keys (Gui.test_buttons Gui.__init__)
  = ["Connection Test"; "Identification"; "Self Test"; "Error Status";
     "Status Registers"; "Operation Complete"; "Reset Command";
     "SCPI Compliance"; "Response Time"; "Communication Stability"].
Proof. reflexivity. Qed.

Lemma added_from_empty (st st' : State) :
  log st = [] -> added st st' = log st'.
Proof. intros H. unfold added. rewrite H. reflexivity. Qed.

(** One test of a run, as the window sees it with all three signals
    connected: its button goes to running and then to the style of its
    result, its result is stored, the bar takes the progress, and nothing
    else about the other names changes. *)
Lemma slot_all_triple name r p g :
  test_name r = name ->
  dict_has name (Gui.test_buttons g) = true ->
  let g1 :=
    Gui.slot_all strftime
      (Gui.slot_all strftime
         (Gui.slot_all strftime g (test_started name)) (test_completed r))
      (progress_updated p) in
  keys (Gui.test_buttons g1) = keys (Gui.test_buttons g)
  /\ dict_get name (Gui.test_results g1) = Some r
  /\ dict_get name (Gui.test_buttons g1)
     = Some (Gui._get_style (if passed r then "pass" else "fail"))
  /\ (forall n, n <> name ->
                dict_get n (Gui.test_results g1)
                = dict_get n (Gui.test_results g)
                /\ dict_get n (Gui.test_buttons g1)
                   = dict_get n (Gui.test_buttons g))
  /\ Gui.progress_value g1 = p.
Proof.
  intros Hn Hh. cbv zeta. cbn [Gui.slot_all].
  set (g0 := Gui.on_test_started name g).
  destruct (on_test_started_effect name g) as (Hr0 & Hb0 & _).
  rewrite Hh in Hb0. fold g0 in Hr0, Hb0.
  assert (Hh0 : dict_has (test_name r) (Gui.test_buttons g0) = true).
  { rewrite Hn, Hb0. unfold dict_has. now rewrite dict_get_set_same. }
  destruct (on_test_completed_effect strftime r g0) as (Hr1 & Hb1 & _).
  rewrite Hh0 in Hb1.
  unfold Gui.on_progress_updated.
  cbn [Gui.with_progress Gui.test_buttons Gui.test_results
         Gui.progress_value].
  rewrite Hr1, Hb1, Hb0, Hr0, Hn.
  split.
  { rewrite !keys_dict_set.
    assert (H1 : dict_has name
                   (dict_set name (Gui._get_style "running")
                      (Gui.test_buttons g)) = true)
      by (unfold dict_has; now rewrite dict_get_set_same).
    rewrite H1, Hh. reflexivity. }
  split; [apply dict_get_set_same |].
  split; [apply dict_get_set_same |].
  split; [| reflexivity].
  intros n Hne.
  rewrite !dict_get_set_other by congruence. auto.
Qed.

(** The signals of a whole loop, as the window sees them. *)
Lemma slot_all_run_events total_tests :
  forall queue results i g,
    Forall2 (fun name r => test_name r = name) queue results ->
    NoDup queue ->
    (forall name, In name queue ->
                  dict_has name (Gui.test_buttons g) = true) ->
    let g' :=
      fold_left (Gui.slot_all strftime)
        (run_events total_tests i queue results) g in
    keys (Gui.test_buttons g') = keys (Gui.test_buttons g)
    /\ (forall n, ~ In n queue ->
                  dict_get n (Gui.test_results g')
                  = dict_get n (Gui.test_results g)
                  /\ dict_get n (Gui.test_buttons g')
                     = dict_get n (Gui.test_buttons g))
    /\ (forall k name r,
           nth_error queue k = Some name -> nth_error results k = Some r ->
           dict_get name (Gui.test_results g') = Some r
           /\ dict_get name (Gui.test_buttons g')
              = Some (Gui._get_style (if passed r then "pass" else "fail")))
    /\ (queue <> [] ->
        Gui.progress_value g'
        = (Z.of_nat (i + List.length queue) * 100 / Z.of_nat total_tests)%Z).
Proof.
  induction queue as [| name queue IH]; intros results i g Hall Hnd Hin.
  - inversion Hall; subst. cbn.
    split; [reflexivity |]. split; [auto |].
    split; [intros k0 name0 r0 Hq; destruct k0; discriminate | congruence].
  - inversion Hall as [| ? r ? results' Hname Hall']; subst.
    inversion Hnd as [| ? ? Hnotin Hnd']; subst.
    cbn [run_events fold_left].
    set (p := ((Z.of_nat i + 1) * 100 / Z.of_nat total_tests)%Z).
    destruct (slot_all_triple (test_name r) r p g eq_refl
                (Hin _ (or_introl eq_refl)))
      as (Hk1 & Hr1 & Hb1 & Hother1 & Hp1).
    cbv zeta in Hk1, Hr1, Hb1, Hother1, Hp1.
    set (g1 := Gui.slot_all strftime
                 (Gui.slot_all strftime
                    (Gui.slot_all strftime g (test_started (test_name r)))
                    (test_completed r)) (progress_updated p)) in *.
    assert (Hin1 : forall n, In n queue ->
                             dict_has n (Gui.test_buttons g1) = true).
    { intros n Hn. rewrite dict_has_keys, Hk1, <- dict_has_keys.
      apply Hin. now right. }
    destruct (IH results' (S i) g1 Hall' Hnd' Hin1)
      as (Hk & Hout & Hat & Hprog).
    cbv zeta in Hk, Hout, Hat, Hprog.
    split; [congruence |].
    split.
    { intros n Hn.
      assert (Hn1 : n <> test_name r) by (intros ->; apply Hn; now left).
      assert (Hn2 : ~ In n queue) by (intros Hn'; apply Hn; now right).
      destruct (Hout n Hn2) as [H1 H2]. destruct (Hother1 n Hn1) as [H3 H4].
      split; congruence. }
    split.
    { intros [| k] name0 r0 Hq Hr.
      - cbn in Hq, Hr. injection Hq as <-. injection Hr as <-.
        destruct (Hout (test_name r) Hnotin) as [H1 H2].
        split; congruence.
      - cbn in Hq, Hr. apply (Hat k name0 r0 Hq Hr). }
    intros _. destruct queue as [| name' queue'].
    + inversion Hall'; subst. cbn [run_events fold_left List.length].
      rewrite Hp1. subst p. do 2 f_equal. lia.
    + rewrite Hprog by discriminate. do 2 f_equal. cbn [List.length]. lia.
Qed.

End Sessions.

(** X16.  A click on the button of a test, in a window with its ten
    buttons, an address typed in and no run under way, when the link does
    not open: the failure comes back under the name "Connection", which is
    the name of no button, so it is stored in the results and counted, but
    the button that was clicked stays in its "running" style, which is not
    the "fail" style. *)
Theorem failed_connection_leaves_button_running {P : Platform}
    (strftime : datetime -> string -> string) (name e : string) (w : World)
    (g : Gui.InstrumentTestGUI) :
  keys (Gui.test_buttons g) = keys (Gui.test_buttons Gui.__init__) ->
  In name (keys (Gui.test_buttons g)) ->
  Py.truthy (Py.strip (Gui.address_text g)) = true ->
  Gui.tester_running g = false ->
  open_fails
    (Gui.worker_start
       (Gui.new_tester (Py.strip (Gui.address_text g)) [name]) w) e ->
  exists g' r,
    Gui.single_session strftime name w g = Ret g'
    /\ dict_get name (Gui.test_buttons g') = Some (Gui._get_style "running")
    /\ Gui._get_style "running" <> Gui._get_style "fail"
    /\ dict_get "Connection" (Gui.test_results g') = Some r
    /\ passed r = false
    /\ message r = "Failed to connect: " +++ e
    /\ Gui.tester_running g' = false.
Proof.
  intros Hk Hin Ha Hr Hfail.
  assert (Hh : dict_has name (Gui.test_buttons g) = true)
    by (apply dict_has_in; exact Hin).
  unfold Gui.single_session, Gui.run_single_test.
  rewrite Hr, Ha, Hh. cbn [negb].
  set (st := Gui.worker_start
               (Gui.new_tester (Py.strip (Gui.address_text g)) [name]) w)
    in *.
  assert (Hq : tests_to_run (self st) <> []).
  { subst st. cbn [Gui.worker_start self].
    destruct (new_tester_fields (Py.strip (Gui.address_text g)) [name])
      as (H1 & _). rewrite H1. discriminate. }
  destruct (run_open_fails_shape _execute_test st e Hq Hfail)
    as (r & st1 & st' & ops & Hrun & (Hn & Hp & Hm) & _ & _ & Hlog).
  assert (Hev : events (log st') = [test_completed r]).
  { rewrite Hlog, !events_app, !events_map_link. reflexivity. }
  fold run in Hrun. rewrite Hrun. cbn [snd]. rewrite Hev.
  cbn [fold_left Gui.slot_single].
  set (g1 := Gui.with_running true (Gui.set_status name "running" g)).
  destruct (on_test_completed_effect strftime r g1) as (Hr1 & Hb1 & _).
  assert (Hkeys1 : keys (Gui.test_buttons g1) = keys (Gui.test_buttons g)).
  { subst g1.
    cbn [Gui.with_running Gui.set_status Gui.with_buttons Gui.test_buttons].
    rewrite keys_dict_set, Hh. reflexivity. }
  assert (Hnone : dict_has (test_name r) (Gui.test_buttons g1) = false).
  { rewrite Hn, dict_has_keys, Hkeys1, Hk. reflexivity. }
  rewrite Hnone in Hb1.
  eexists; exists r. split; [reflexivity |].
  cbn [Gui.with_running Gui.test_buttons Gui.test_results Gui.tester_running].
  rewrite Hb1, Hr1, Hn.
  split; [subst g1; cbn; apply dict_get_set_same |].
  split; [apply String.eqb_neq; vm_compute; reflexivity |].
  split; [apply dict_get_set_same |]. auto.
Qed.

Lemma failed_connection_leaves_button_running_witness :
  let g := @Gui.__init__ Bench.platform in
  let w : @World Bench.platform :=
    Bench.unreachable "VI_ERROR_RSRC_NFOUND" in
  keys (Gui.test_buttons g) = keys (Gui.test_buttons (@Gui.__init__ Bench.platform))
  /\ In "Self Test" (keys (Gui.test_buttons g))
  /\ Py.truthy (Py.strip (Gui.address_text g)) = true
  /\ Gui.tester_running g = false
  /\ open_fails
       (Gui.worker_start
          (Gui.new_tester (Py.strip (Gui.address_text g)) ["Self Test"]) w)
       "VI_ERROR_RSRC_NFOUND"
  /\ exists g',
      Gui.single_session (fun _ _ => "") "Self Test" w g = Ret g'
      /\ dict_get "Self Test" (Gui.test_buttons g')
         = Some (Gui._get_style "running").
Proof.
  cbv zeta.
  set (g := @Gui.__init__ Bench.platform).
  set (w := Bench.unreachable "VI_ERROR_RSRC_NFOUND"
            : @World Bench.platform).
  assert (H1 : keys (Gui.test_buttons g) = keys (Gui.test_buttons (@Gui.__init__ Bench.platform)))
    by reflexivity.
  assert (H2 : In "Self Test" (keys (Gui.test_buttons g)))
    by (cbn; tauto).
  assert (H3 : Py.truthy (Py.strip (Gui.address_text g)) = true)
    by reflexivity.
  assert (H4 : Gui.tester_running g = false) by reflexivity.
  assert (H5 : open_fails
                 (Gui.worker_start
                    (Gui.new_tester (Py.strip (Gui.address_text g))
                       ["Self Test"]) w) "VI_ERROR_RSRC_NFOUND")
    by reflexivity.
  split; [exact H1 |]. split; [exact H2 |]. split; [exact H3 |].
  split; [exact H4 |]. split; [exact H5 |].
  destruct (failed_connection_leaves_button_running (fun _ _ => "")
              "Self Test" "VI_ERROR_RSRC_NFOUND" w g H1 H2 H3 H4 H5)
    as (g' & r & E & Hb & _).
  exists g'. split; [exact E | exact Hb].
Defined.

(** X17.  "Run All Tests" in a window with its ten buttons, an address
    typed in and no run under way, when the link opens and the run is left
    to finish: every one of the ten tests has a stored result under its
    name and its button shows the style of that result, "pass" or "fail"
    (none is left idle or running); the bar stands at 100; and the window
    is back to rest: run-all enabled, stop disabled, bar hidden, status
    "Tests completed". *)
Theorem run_all_marks_every_button {P : Platform}
    (strftime : datetime -> string -> string) (w : World)
    (g : Gui.InstrumentTestGUI) :
  keys (Gui.test_buttons g) = keys (Gui.test_buttons Gui.__init__) ->
  Py.truthy (Py.strip (Gui.address_text g)) = true ->
  Gui.tester_running g = false ->
  link_opens
    (Gui.worker_start
       (Gui.new_tester (Py.strip (Gui.address_text g))
          (keys (Gui.test_buttons g))) w) ->
  let g' := Gui.run_all_session strftime w g in
  (forall name,
      In name known_tests ->
      exists r,
        dict_get name (Gui.test_results g') = Some r
        /\ test_name r = name
        /\ dict_get name (Gui.test_buttons g')
           = Some (Gui._get_style (if passed r then "pass" else "fail")))
  /\ Gui.progress_value g' = 100%Z
  /\ Gui.run_all_enabled g' = true /\ Gui.stop_enabled g' = false
  /\ Gui.progress_visible g' = false /\ Gui.tester_running g' = false
  /\ Gui.status_message g' = "Tests completed".
Proof.
  intros Hk Ha Hr Hopen. cbv zeta.
  unfold Gui.run_all_session, Gui.run_all_tests. rewrite Ha, Hr. cbn [negb].
  assert (Hkeys : keys (Gui.test_buttons (Gui.all_idle g))
                  = keys (Gui.test_buttons g)).
  { unfold Gui.all_idle, keys. cbn. rewrite map_map. reflexivity. }
  rewrite Hkeys.
  set (queue := keys (Gui.test_buttons g)) in *.
  set (st := Gui.worker_start
               (Gui.new_tester (Py.strip (Gui.address_text g)) queue) w)
    in *.
  assert (Hself : tests_to_run (self st) = queue).
  { subst st. cbn [Gui.worker_start self]. apply new_tester_fields. }
  assert (Hq : tests_to_run (self st) <> [])
    by (rewrite Hself; subst queue; rewrite Hk; discriminate).
  destruct (run_signals st Hq Hopen) as (results & _ & Hlen & Hall & Hev).
  rewrite Hself in Hlen, Hall, Hev.
  rewrite (added_from_empty st _ eq_refl) in Hev. rewrite Hev.
  set (g1 := Gui.log_message _ _).
  assert (Hk1 : keys (Gui.test_buttons g1) = queue).
  { subst g1. cbn. exact Hkeys. }
  assert (Hnames : Forall2 (fun name r => test_name r = name) queue results).
  { clear - Hall. induction Hall as [| name r q rs (s1 & s2 & Hex) _ IH];
      constructor; [| exact IH].
    eapply names_execute_test. exact Hex. }
  assert (Hnd : NoDup queue).
  { subst queue. rewrite Hk. cbn.
    repeat constructor; cbn; intuition discriminate. }
  assert (Hin1 : forall name, In name queue ->
                              dict_has name (Gui.test_buttons g1) = true).
  { intros name Hin. apply dict_has_in. rewrite Hk1. exact Hin. }
  destruct (slot_all_run_events strftime (List.length queue) queue results
              0%nat g1 Hnames Hnd Hin1) as (_ & _ & Hat & Hprog).
  cbv zeta in Hat, Hprog.
  set (g2 := fold_left (Gui.slot_all strftime) _ g1) in *.
  split.
  { intros name Hin.
    assert (Hinq : In name queue).
    { subst queue. rewrite Hk. cbn in Hin |- *. intuition. }
    destruct (In_nth_error _ _ Hinq) as (k & Hkq).
    destruct (Forall2_nth _ _ _ _ _ Hnames k name Hkq) as (r & Hkr & Hn).
    destruct (Hat k name r Hkq Hkr) as (H1 & H2).
    exists r. cbn. auto. }
  split.
  { cbn. rewrite Hprog by (subst queue; rewrite Hk; discriminate).
    subst queue. rewrite Hk. reflexivity. }
  repeat split.
Qed.

Lemma run_all_marks_every_button_witness :
  let g := @Gui.__init__ Bench.platform in
  let w : @World Bench.platform :=
    Bench.answering (repeat (Ret "1") 40) in
  keys (Gui.test_buttons g) = keys (Gui.test_buttons (@Gui.__init__ Bench.platform))
  /\ Py.truthy (Py.strip (Gui.address_text g)) = true
  /\ Gui.tester_running g = false
  /\ link_opens
       (Gui.worker_start
          (Gui.new_tester (Py.strip (Gui.address_text g))
             (keys (Gui.test_buttons g))) w)
  /\ Gui.progress_value (Gui.run_all_session (fun _ _ => "") w g) = 100%Z.
Proof.
  cbv zeta.
  set (g := @Gui.__init__ Bench.platform).
  set (w := Bench.answering (repeat (Ret "1") 40) : @World Bench.platform).
  assert (H1 : keys (Gui.test_buttons g) = keys (Gui.test_buttons (@Gui.__init__ Bench.platform)))
    by reflexivity.
  assert (H2 : Py.truthy (Py.strip (Gui.address_text g)) = true)
    by reflexivity.
  assert (H3 : Gui.tester_running g = false) by reflexivity.
  assert (H4 : link_opens
                 (Gui.worker_start
                    (Gui.new_tester (Py.strip (Gui.address_text g))
                       (keys (Gui.test_buttons g))) w))
    by reflexivity.
  split; [exact H1 |]. split; [exact H2 |]. split; [exact H3 |].
  split; [exact H4 |].
  destruct (run_all_marks_every_button (fun _ _ => "") w g H1 H2 H3 H4)
    as (_ & Hp & _).
  exact Hp.
Defined.

(** The whole suite on a bench that answers "1" to everything: what the
    window shows at the end. *)
Example run_all_on_the_bench :
  let g :=
    @Gui.run_all_session Bench.platform (fun _ _ => "")
      (Bench.answering (repeat (Ret "1") 40)) Gui.__init__ in
  Gui.passed_label g = "Passed: 8"
  /\ Gui.failed_label g = "Failed: 2"
  /\ Gui.total_label g = "Total: 10"
  /\ dict_get "Self Test" (Gui.test_buttons g) = Some (Gui._get_style "fail")
  /\ dict_get "Error Status" (Gui.test_buttons g)
     = Some (Gui._get_style "fail")
  /\ last (Gui.messages g) ""
     = "All tests completed. Passed: 8, Failed: 2, Total: 10".
Proof. vm_compute. repeat split. Qed.

Section WindowInvariant.

Context {P : Platform}.

Variable strftime : datetime -> string -> string.

Lemma keys_all_idle g :
  keys (Gui.test_buttons (Gui.all_idle g)) = keys (Gui.test_buttons g).
Proof. unfold Gui.all_idle, keys. cbn. rewrite map_map. reflexivity. Qed.

Lemma window_ok_started name g :
  Gui.window_ok g -> Gui.window_ok (Gui.on_test_started name g).
Proof.
  intros (Hk & Hrest). unfold Gui.window_ok.
  destruct (on_test_started_effect name g) as (Hr & Hb & _).
  split.
  - rewrite Hb. destruct (dict_has name (Gui.test_buttons g)) eqn:Eh;
      [rewrite keys_dict_set, Eh |]; exact Hk.
  - unfold Gui.on_test_started.
    destruct (dict_has name (Gui.test_buttons g)); exact Hrest.
Qed.

Lemma window_ok_completed r g :
  Gui.window_ok g -> Gui.window_ok (Gui.on_test_completed strftime r g).
Proof.
  intros (Hk & Hnd & _). unfold Gui.window_ok.
  destruct (on_test_completed_effect strftime r g) as (Hr & Hb & _).
  split.
  - rewrite Hb.
    destruct (dict_has (test_name r) (Gui.test_buttons g)) eqn:Eh;
      [rewrite keys_dict_set, Eh |]; exact Hk.
  - rewrite Hr. split; [apply nodup_keys_dict_set; exact Hnd |].
    unfold Gui.on_test_completed.
    destruct (dict_has (test_name r) (Gui.test_buttons g)); repeat split.
Qed.

Lemma window_ok_finished g :
  Gui.window_ok g -> Gui.window_ok (Gui.on_all_tests_finished g).
Proof. intros H. exact H. Qed.

Lemma window_ok_cleared g :
  Gui.window_ok g -> Gui.window_ok (Gui.clear_results strftime g).
Proof.
  intros (Hk & _). unfold Gui.window_ok.
  split; [| repeat split; constructor].
  change (Gui.test_buttons (Gui.clear_results strftime g))
    with (Gui.test_buttons (Gui.all_idle g)).
  rewrite keys_all_idle. exact Hk.
Qed.

Lemma window_ok_run_all g :
  Gui.window_ok g -> Gui.window_ok (snd (Gui.run_all_tests g)).
Proof.
  intros H. unfold Gui.run_all_tests.
  destruct (negb (Py.truthy (Py.strip (Gui.address_text g)))); [exact H |].
  destruct (Gui.tester_running g); [exact H |].
  destruct H as (Hk & Hrest). split; [| exact Hrest].
  change (keys (Gui.test_buttons (Gui.all_idle g))
          = keys (Gui.test_buttons Gui.__init__)).
  rewrite keys_all_idle. exact Hk.
Qed.

Lemma window_ok_run_single name g :
  Gui.window_ok g -> Gui.window_ok (snd (Gui.run_single_test name g)).
Proof.
  intros H. unfold Gui.run_single_test.
  destruct (Gui.tester_running g); [exact H |].
  destruct (negb (Py.truthy (Py.strip (Gui.address_text g)))); [exact H |].
  destruct (dict_has name (Gui.test_buttons g)) eqn:Eh; cbn [negb];
    [| exact H].
  destruct H as (Hk & Hrest). split; [| exact Hrest].
  cbn [snd Gui.with_running Gui.set_status Gui.with_buttons Gui.test_buttons].
  rewrite keys_dict_set, Eh. exact Hk.
Qed.

Lemma window_ok_stopped g :
  Gui.window_ok g -> Gui.window_ok (Gui.stop_tests g).
Proof.
  intros H. unfold Gui.stop_tests. destruct (Gui.tester_running g); exact H.
Qed.

End WindowInvariant.

(** X18.  In every window a user can get to (by typing an address, by the
    buttons, and by whatever signals a worker sends, in any order), the
    buttons are the ten the window opened with, no test name has two
    stored results, and the three labels show the numbers of passed, of
    failed and of all stored results. *)
Theorem window_keeps_buttons_and_counts {P : Platform}
    (strftime : datetime -> string -> string) (g : Gui.InstrumentTestGUI) :
  Gui.reachable strftime g ->
  keys (Gui.test_buttons g)
  = ["Connection Test"; "Identification"; "Self Test"; "Error Status";
     "Status Registers"; "Operation Complete"; "Reset Command";
     "SCPI Compliance"; "Response Time"; "Communication Stability"]
  /\ NoDup (keys (Gui.test_results g))
  /\ Gui.passed_label g
     = "Passed: " +++ Gui.str_of_nat (Gui.count_passed (Gui.test_results g))
  /\ Gui.failed_label g
     = "Failed: " +++ Gui.str_of_nat (Gui.count_failed (Gui.test_results g))
  /\ Gui.total_label g
     = "Total: " +++ Gui.str_of_nat (List.length (Gui.test_results g))
  /\ (Gui.count_passed (Gui.test_results g)
      + Gui.count_failed (Gui.test_results g)
      = List.length (Gui.test_results g))%nat.
Proof.
  intros Hreach.
  assert (Hok : Gui.window_ok g).
  { induction Hreach.
    - repeat split. constructor.
    - exact IHHreach.
    - apply window_ok_started; assumption.
    - apply window_ok_completed; assumption.
    - exact IHHreach.
    - apply window_ok_finished; assumption.
    - exact IHHreach.
    - apply window_ok_cleared; assumption.
    - apply window_ok_stopped; assumption.
    - apply window_ok_run_all; assumption.
    - apply window_ok_run_single; assumption. }
  destruct Hok as (Hk & Hnd & Hp & Hf & Ht).
  split; [rewrite Hk; reflexivity |].
  repeat split; auto. apply counts_add_up.
Qed.

Lemma window_keeps_buttons_and_counts_witness :
  let r := @mkTestResult Bench.platform "Connection" false "no link" 0%nat 0%nat in
  let g :=
    Gui.on_test_completed (fun _ _ => "") r
      (snd (Gui.run_single_test "Reset Command" Gui.__init__)) in
  Gui.reachable (fun _ _ => "") g
  /\ Gui.total_label g = "Total: 1"
  /\ List.length (Gui.test_buttons g) = 10%nat.
Proof.
  cbv zeta.
  set (r := @mkTestResult Bench.platform "Connection" false "no link"
              0%nat 0%nat).
  set (g := Gui.on_test_completed (fun _ _ => "") r
              (snd (Gui.run_single_test "Reset Command" Gui.__init__))).
  assert (H : Gui.reachable (fun _ _ => "") g)
    by (apply Gui.reach_completed, Gui.reach_run_single, Gui.reach_init).
  split; [exact H |].
  destruct (window_keeps_buttons_and_counts _ g H)
    as (Hk & _ & _ & _ & Ht & _).
  split; [rewrite Ht; reflexivity |].
  rewrite <- (length_map fst). fold (keys (Gui.test_buttons g)).
  rewrite Hk. reflexivity.
Defined.

(** X19.  While a run is under way, neither a click on a test button nor
    "Run All Tests" starts a second worker: the window answers with the
    warning "Tests are already running!" (with "Please enter a VISA
    address!" first, for run-all on a blank address) and its buttons,
    results, controls and log stay as they were. *)
Theorem no_second_run {P : Platform} (name : string)
    (g : Gui.InstrumentTestGUI) :
  Gui.tester_running g = true ->
  (exists text,
      Gui.run_single_test name g = (Ret None, Gui.warning text g)
      /\ text = "Tests are already running!")
  /\ (exists text,
         Gui.run_all_tests g = (None, Gui.warning text g)
         /\ text
            = if Py.truthy (Py.strip (Gui.address_text g))
              then "Tests are already running!"
              else "Please enter a VISA address!")
  /\ (forall text,
         Gui.test_buttons (Gui.warning text g) = Gui.test_buttons g
         /\ Gui.test_results (Gui.warning text g) = Gui.test_results g
         /\ Gui.run_all_enabled (Gui.warning text g) = Gui.run_all_enabled g
         /\ Gui.stop_enabled (Gui.warning text g) = Gui.stop_enabled g
         /\ Gui.messages (Gui.warning text g) = Gui.messages g
         /\ Gui.tester_running (Gui.warning text g) = true).
Proof.
  intros Hr. split; [| split].
  - eexists. unfold Gui.run_single_test. rewrite Hr. split; reflexivity.
  - unfold Gui.run_all_tests. rewrite Hr.
    destruct (Py.truthy (Py.strip (Gui.address_text g))); cbn [negb];
      eexists; split; reflexivity.
  - intros text. cbn. auto 8.
Qed.

Lemma no_second_run_witness :
  let g := snd (Gui.run_all_tests (@Gui.__init__ Bench.platform)) in
  Gui.tester_running g = true
  /\ fst (Gui.run_single_test "Self Test" g) = Ret None
  /\ fst (Gui.run_all_tests g) = None.
Proof.
  cbv zeta.
  set (g := snd (Gui.run_all_tests (@Gui.__init__ Bench.platform))).
  assert (H : Gui.tester_running g = true) by reflexivity.
  split; [exact H |].
  destruct (no_second_run "Self Test" g H)
    as ((t1 & E1 & _) & (t2 & E2 & _) & _).
  rewrite E1, E2. split; reflexivity.
Defined.

(** X20.  "Clear Results" empties the stored results, puts every button
    back to the idle style under the same names, and sets the labels to
    zero. *)
Theorem clear_results_resets {P : Platform}
    (strftime : datetime -> string -> string) (g : Gui.InstrumentTestGUI) :
  let g' := Gui.clear_results strftime g in
  Gui.test_results g' = []
  /\ keys (Gui.test_buttons g') = keys (Gui.test_buttons g)
  /\ (forall name,
         In name (keys (Gui.test_buttons g)) ->
         exists style,
           In (name, style) (Gui.test_buttons g')
           /\ style = Gui._get_style "idle")
  /\ (forall name style,
         In (name, style) (Gui.test_buttons g') ->
         style = Gui._get_style "idle")
  /\ Gui.passed_label g' = "Passed: 0" /\ Gui.failed_label g' = "Failed: 0"
  /\ Gui.total_label g' = "Total: 0".
Proof.
  cbv zeta.
  change (Gui.test_buttons (Gui.clear_results strftime g))
    with (map (fun item => (fst item, Gui._get_style "idle"))
            (Gui.test_buttons g)).
  split; [reflexivity |].
  split; [unfold keys; rewrite map_map; reflexivity |].
  split.
  { intros name Hin. unfold keys in Hin. apply in_map_iff in Hin.
    destruct Hin as ([k v] & <- & Hin). eexists. split; [| reflexivity].
    apply in_map_iff. exists (k, v). auto. }
  split.
  { intros name style Hin. apply in_map_iff in Hin.
    destruct Hin as (item & [= _ <-] & _). reflexivity. }
  repeat split.
Qed.

(** A click for a name that has no button is a [KeyError], whose text is the
    [repr] of the name; the window is left as it was. *)
Example missing_button_key_error :
  @Gui.run_single_test Bench.platform "Calibration" Gui.__init__
  = (Raise "'Calibration'", Gui.__init__)
  /\ Gui.repr "it's"
     = String Gui.double_quote ("it's" +++ String Gui.double_quote EmptyString).
Proof. split; reflexivity. Qed.
